(** * optimum-benchmark: the model-preparation pipeline

    A shallow embedding of
      - [main.py]                          (the driver [run_experiment]),
      - [backends/onnxruntime/backend.py]  ([ORTBackend]),
      - [backends/openvino/backend.py]     ([OVBackend]),
    and the properties of the pipeline that the specification states.

    Python objects are records, [self.config] is part of the backend state
    (it is the caller's object: what the backend writes into it stays
    written), exceptions are values of [Exn], and every method is a function
    in a state-and-exception monad.  Calls into the libraries (optimum,
    onnxruntime, openvino, the file system) are recorded in a trace of events
    and answered by a [World], an arbitrary oracle that sees the whole
    history: any such call may raise. *)

From Stdlib Require Import ZArith.
From stdpp Require Import gmap strings list fin_maps pretty.

Open Scope string_scope.

(** ** Python exceptions and the state-and-exception monad *)

(** The exceptions the three files raise themselves, one constructor for
    whatever a library call raises, and one exception that is not an
    [Exception] (so that [except Exception] has something to let through). *)
Inductive Exn : Type :=
| NotImplementedError (msg : string)
| ValueError (msg : string)
| AssertionError (msg : string)
| UnboundLocalError (var : string)
| AttributeError (attr : string)
| KeyError (key : string)
| IndexError
| LibraryError (msg : string)
| KeyboardInterrupt.

#[global] Instance Exn_eq_dec : EqDecision Exn.
Proof. solve_decision. Defined.

(** [isinstance(e, Exception)]. *)
Definition is_Exception (e : Exn) : bool :=
  match e with
  | KeyboardInterrupt => false
  | _ => true
  end.

Inductive Res (A : Type) : Type :=
| Ok (a : A)
| Raise (e : Exn).
Arguments Ok {A} a.
Arguments Raise {A} e.

Definition M (S A : Type) : Type := S → Res A * S.

#[global] Instance M_ret {S} : MRet (M S) := λ A a s, (Ok a, s).
#[global] Instance M_bind {S} : MBind (M S) := λ A B f m s,
  match m s with
  | (Ok a, s1) => f a s1
  | (Raise e, s1) => (Raise e, s1)
  end.

Definition raise {S A} (e : Exn) : M S A := λ s, (Raise e, s).
Definition get {S} : M S S := λ s, (Ok s, s).
Definition gets {S A} (f : S → A) : M S A := λ s, (Ok (f s), s).
Definition modify {S} (f : S → S) : M S unit := λ s, (Ok tt, f s).

(** Reading a local variable or an attribute that may not be bound. *)
Definition deref {S A} (e : Exn) (o : option A) : M S A :=
  match o with
  | Some a => mret a
  | None => raise e
  end.

(** [for x in xs: body x]. *)
Fixpoint for_each {S A} (xs : list A) (body : A → M S unit) : M S unit :=
  match xs with
  | [] => mret tt
  | x :: xs' => body x ;; for_each xs' body
  end.

(** [when c: body]. *)
Definition when {S} (c : bool) (body : M S unit) : M S unit :=
  if c then body else mret tt.

Definition result {S A} (m : M S A) (s : S) : Res A := fst (m s).
Definition final {S A} (m : M S A) (s : S) : S := snd (m s).

(** A property of the state that a program keeps, however it ends. *)
Definition maintains {S A} (Inv : S → Prop) (m : M S A) : Prop :=
  ∀ s, Inv s → Inv (final m s).

(** ** Python values shared by the two backends *)

(** The values that occur in the configuration dictionaries. *)
Inductive pyval : Type :=
| PNone
| PBool (b : bool)
| PInt (n : Z)
| PStr (s : string).

#[global] Instance pyval_eq_dec : EqDecision pyval.
Proof. solve_decision. Defined.

(** A keyword dictionary ([Dict[str, Any]]). *)
Abbreviation kwargs := (gmap string pyval).

(** What the benchmark passes to [prepare_inputs]: tensors, which live on a
    device, and for the diffusion pipelines the textual prompt. *)
Inductive value : Type :=
| Tensor (data : list Z) (dev : string)
| Text (s : string).

#[global] Instance value_eq_dec : EqDecision value.
Proof. solve_decision. Defined.

(** [value.to(device)]: a tensor is moved (the transfer itself is taken to
    succeed), a [str] has no such method. *)
Definition to {S} (v : value) (device : string) : M S value :=
  match v with
  | Tensor data _ => mret (Tensor data device)
  | Text _ => raise (AttributeError "to")
  end.

(** [s.endswith(suffix)]. *)
Definition endswith (s suffix : string) : bool :=
  let n := String.length s in
  let k := String.length suffix in
  Nat.leb k n && String.eqb (String.substring (n - k) k s) suffix.

(** [repr(l)] for a list of strings that need no escaping, as an f-string
    prints it. *)
Definition repr_list (l : list string) : string :=
  "[" ++ String.concat ", " (map (λ s, "'" ++ s ++ "'") l) ++ "]".

(** [os.path.join(a, b)] for a relative [b] and an [a] without a trailing
    separator, which is how the backends use it. *)
Definition path_join (a b : string) : string := a ++ "/" ++ b.

(** An object the backend holds and hands on without looking inside. *)
Inductive Opaque : Type := opaque.

#[global] Instance Opaque_eq_dec : EqDecision Opaque.
Proof. solve_decision. Defined.

(** The dataset the generator returns, as far as the backends read it. *)
Record Dataset : Type := {
  column_names : list string;
  split : string;
  num_rows : Z;
  config_name : string;
}.

#[global] Instance Dataset_eq_dec : EqDecision Dataset.
Proof. solve_decision. Defined.

(** [dataset.remove_columns(columns)]. *)
Definition remove_columns (d : Dataset) (columns : list string) : Dataset :=
  {| column_names := filter (λ c, c ∉ columns) (column_names d);
     split := split d;
     num_rows := num_rows d;
     config_name := config_name d |}.

(** ** [main.py] *)
Module Main.

(** The calls [run_experiment] makes on its collaborators. *)
Inductive Event : Type :=
| EvSaveConfig                         (* OmegaConf.save(experiment, ...) *)
| EvGetClass (target : string)         (* get_class(..._target_) *)
| EvBenchmarkNew                       (* benchmark_factory() *)
| EvBenchmarkConfigure                 (* benchmark.configure(...) *)
| EvBackendNew (model task device : string)
| EvBackendConfigure                   (* backend.configure(...) *)
| EvBenchmarkRun                       (* benchmark.run(backend) *)
| EvBenchmarkSave                      (* benchmark.save() *)
| EvBackendClean                       (* backend.clean() *)
| EvLogError (e : Exn).                (* LOGGER.error(..., e) *)

#[global] Instance Event_eq_dec : EqDecision Event.
Proof. solve_decision. Defined.

(** The fields of [ExperimentConfig] the function reads. *)
Record ExperimentConfig : Type := {
  backend_target : string;
  benchmark_target : string;
  model : string;
  task : string;
  device : string;
}.

(** The function's frame: the trace of calls made so far and the two local
    variables that outlive the [try] statement. A local that has not been
    assigned, or has been deleted, is [None]. *)
Record State : Type := {
  trace : list Event;
  raised_error : option bool;
  e : option Exn;
}.

Definition initial : State :=
  {| trace := []; raised_error := None; e := None |}.

Definition log (ev : Event) (s : State) : State :=
  {| trace := trace s ++ [ev]; raised_error := raised_error s; e := e s |}.
Definition set_raised_error (b : bool) (s : State) : State :=
  {| trace := trace s; raised_error := Some b; e := e s |}.
Definition set_e (o : option Exn) (s : State) : State :=
  {| trace := trace s; raised_error := raised_error s; e := o |}.

(** Whether a call raises, given everything that happened before it. *)
Definition World : Type := list Event → Event → option Exn.

Section Driver.
Variable W : World.

Definition call (ev : Event) : M State unit := λ s,
  match W (trace s) ev with
  | Some ex => (Raise ex, log ev s)
  | None => (Ok tt, log ev s)
  end.

(** [try: body / except Exception as e: handler]. The exception is bound to
    the local [e] for the handler, and the name is deleted when the except
    clause is left, normally or not (Python 3 language reference, 8.4.1,
    "as if" [try: handler finally: del e]). An exception that is not an
    [Exception] is not caught. *)
Definition try_except_Exception_as_e (body handler : M State unit) : M State unit := λ s,
  match body s with
  | (Ok tt, s1) => (Ok tt, s1)
  | (Raise ex, s1) =>
      if is_Exception ex then
        let (r, s2) := handler (set_e (Some ex) s1) in
        (r, set_e None s2)
      else (Raise ex, s1)
  end.

(** Lines 98-134. *)
Definition run_experiment (experiment : ExperimentConfig) : M State unit :=
  call EvSaveConfig ;;
  call (EvGetClass (benchmark_target experiment)) ;;
  call EvBenchmarkNew ;;
  call EvBenchmarkConfigure ;;
  call (EvGetClass (backend_target experiment)) ;;
  call (EvBackendNew (model experiment) (task experiment) (device experiment)) ;;
  try_except_Exception_as_e
    (call EvBackendConfigure ;;
     call EvBenchmarkRun ;;
     call EvBenchmarkSave ;;
     call EvBackendClean ;;
     modify (set_raised_error false))
    (ex ← gets e ≫= deref (UnboundLocalError "e") ;
     call (EvLogError ex) ;;
     call EvBackendClean ;;
     modify (set_raised_error true)) ;;
  b ← gets raised_error ≫= deref (UnboundLocalError "raised_error") ;
  if (b : bool) then
    ex ← gets e ≫= deref (UnboundLocalError "e") ;
    raise ex
  else mret tt.

End Driver.

End Main.

(** ** [backends/onnxruntime/backend.py] *)
Module ORT.

Definition PROBLEMATIC_INPUTS : list string := ["token_type_ids"; "position_ids"].

(** The fields of [ORTConfig] the backend reads. *)
Record Config : Type := {
  model : string;
  export : bool;
  task : string;
  device : string;
  library : string;
  no_weights : bool;
  session_options : kwargs;
  provider : string;
  provider_options : kwargs;
  use_io_binding : bool;
  hub_kwargs : kwargs;
  use_cache : bool;
  use_merged : bool;
  optimization : bool;
  optimization_config : kwargs;
  auto_optimization : option string;
  auto_optimization_config : kwargs;
  quantization : bool;
  quantization_config : kwargs;
  auto_quantization : option string;
  auto_quantization_config : kwargs;
  calibration : bool;
  calibration_config : kwargs;
  auto_calibration : option string;
  auto_calibration_config : kwargs;
}.

(** [config.model = m] and [config.export = b]. *)
Definition set_model (m : string) (c : Config) : Config :=
  {| model := m; export := export c; task := task c; device := device c;
     library := library c; no_weights := no_weights c;
     session_options := session_options c; provider := provider c;
     provider_options := provider_options c; use_io_binding := use_io_binding c;
     hub_kwargs := hub_kwargs c; use_cache := use_cache c; use_merged := use_merged c;
     optimization := optimization c; optimization_config := optimization_config c;
     auto_optimization := auto_optimization c;
     auto_optimization_config := auto_optimization_config c;
     quantization := quantization c; quantization_config := quantization_config c;
     auto_quantization := auto_quantization c;
     auto_quantization_config := auto_quantization_config c;
     calibration := calibration c; calibration_config := calibration_config c;
     auto_calibration := auto_calibration c;
     auto_calibration_config := auto_calibration_config c |}.

Definition set_export (b : bool) (c : Config) : Config :=
  {| model := model c; export := b; task := task c; device := device c;
     library := library c; no_weights := no_weights c;
     session_options := session_options c; provider := provider c;
     provider_options := provider_options c; use_io_binding := use_io_binding c;
     hub_kwargs := hub_kwargs c; use_cache := use_cache c; use_merged := use_merged c;
     optimization := optimization c; optimization_config := optimization_config c;
     auto_optimization := auto_optimization c;
     auto_optimization_config := auto_optimization_config c;
     quantization := quantization c; quantization_config := quantization_config c;
     auto_quantization := auto_quantization c;
     auto_quantization_config := auto_quantization_config c;
     calibration := calibration c; calibration_config := calibration_config c;
     auto_calibration := auto_calibration c;
     auto_calibration_config := auto_calibration_config c |}.

(** What the backend reads of a loaded [ORTModel]. An attribute the object
    does not have ([hasattr] false) is [None]. *)
Record LoadedModel : Type := {
  providers : list string;
  model_save_dir : string;
  inputs_names_attr : option (list string);
  input_names_attr : option (list string);
}.

(** The arguments of [ortmodel_class.from_pretrained]. *)
Record LoadArgs : Type := {
  la_model : string;
  la_export : bool;
  la_session_options : kwargs;
  la_provider_options : kwargs;
  la_use_io_binding : bool;
  la_provider : string;
  la_hub_kwargs : kwargs;
  la_kwargs : kwargs;
}.

(** The configuration objects of optimum, by the constructor that made them. *)
Inductive OptimizationCfg : Type :=
| AutoOptimizationConfig (optimization_level : string) (for_gpu : bool) (kw : kwargs)
| OptimizationConfig (optimize_for_gpu : bool) (kw : kwargs).

Inductive QuantizationCfg : Type :=
| AutoQuantizationConfig (preset : string) (kw : kwargs)
| QuantizationConfig (kw : kwargs).

Inductive CalibrationCfg : Type :=
| AutoCalibrationConfig (method : string) (dataset : Dataset) (kw : kwargs)
| CalibrationConfig (dataset_name dataset_split : string) (dataset_num_samples : Z)
    (dataset_config_name : string) (kw : kwargs).

(** The calls the backend makes on the libraries and the file system. *)
Inductive Event : Type :=
| EvGetClass (path : string)
| EvSessionOptions
| EvSetattr (key : string) (v : pyval)
| EvTemporaryDirectory
| EvTmpdirCleanup (name : string)
| EvMakedirs (path : string)
| EvSaveFile (filename : string)
| EvSavePretrainedConfig (save_directory : string)
| EvSavePretrainedProcessor (save_directory : string)
| EvRandomInitEnter
| EvRandomInitExit
| EvFromPretrained (cls : string) (args : LoadArgs)
| EvOptimizationCfg (cfg : OptimizationCfg)
| EvOptimizerFromPretrained (model : string) (file_names : list string)
| EvOptimize (cfg : OptimizationCfg) (save_dir : string)
| EvQuantizationCfg (cfg : QuantizationCfg)
| EvDatasetGenerator (task : string) (dataset_shapes model_shapes : kwargs)
| EvCalibrationCfg (cfg : CalibrationCfg)
| EvQuantizerFromPretrained (model file_name : string)
| EvFit (file_name : string) (dataset : Dataset) (use_gpu : bool)
    (calibration_config : CalibrationCfg) (quantization_config : QuantizationCfg)
| EvQuantize (file_name save_dir : string) (quantization_config : QuantizationCfg)
    (calibration_tensors_range : option Opaque)
| EvGcCollect.

(** The backend object: the configuration it shares with its caller, the
    trace, and the attributes of [self]. An attribute that has not been
    assigned is [None]. [pretrained_processor], [pretrained_config] and
    [model_shapes] are set by the base class; for the first two [None] is
    Python's [None]. *)
Record State : Type := {
  config : Config;
  trace : list Event;
  ortmodel_class : option string;
  self_session_options : option kwargs;
  tmpdir : option string;
  no_weights_model : option string;
  pretrained_model : option LoadedModel;
  optimized_model : option string;
  quantized_model : option string;
  pretrained_processor : option Opaque;
  pretrained_config : option Opaque;
  model_shapes : kwargs;
}.

Definition set_config (c : Config) (s : State) : State :=
  {| config := c; trace := trace s; ortmodel_class := ortmodel_class s;
     self_session_options := self_session_options s; tmpdir := tmpdir s;
     no_weights_model := no_weights_model s; pretrained_model := pretrained_model s;
     optimized_model := optimized_model s; quantized_model := quantized_model s;
     pretrained_processor := pretrained_processor s;
     pretrained_config := pretrained_config s; model_shapes := model_shapes s |}.
Definition log (ev : Event) (s : State) : State :=
  {| config := config s; trace := trace s ++ [ev]; ortmodel_class := ortmodel_class s;
     self_session_options := self_session_options s; tmpdir := tmpdir s;
     no_weights_model := no_weights_model s; pretrained_model := pretrained_model s;
     optimized_model := optimized_model s; quantized_model := quantized_model s;
     pretrained_processor := pretrained_processor s;
     pretrained_config := pretrained_config s; model_shapes := model_shapes s |}.
Definition set_ortmodel_class (v : string) (s : State) : State :=
  {| config := config s; trace := trace s; ortmodel_class := Some v;
     self_session_options := self_session_options s; tmpdir := tmpdir s;
     no_weights_model := no_weights_model s; pretrained_model := pretrained_model s;
     optimized_model := optimized_model s; quantized_model := quantized_model s;
     pretrained_processor := pretrained_processor s;
     pretrained_config := pretrained_config s; model_shapes := model_shapes s |}.
Definition set_self_session_options (v : kwargs) (s : State) : State :=
  {| config := config s; trace := trace s; ortmodel_class := ortmodel_class s;
     self_session_options := Some v; tmpdir := tmpdir s;
     no_weights_model := no_weights_model s; pretrained_model := pretrained_model s;
     optimized_model := optimized_model s; quantized_model := quantized_model s;
     pretrained_processor := pretrained_processor s;
     pretrained_config := pretrained_config s; model_shapes := model_shapes s |}.
Definition set_tmpdir (v : string) (s : State) : State :=
  {| config := config s; trace := trace s; ortmodel_class := ortmodel_class s;
     self_session_options := self_session_options s; tmpdir := Some v;
     no_weights_model := no_weights_model s; pretrained_model := pretrained_model s;
     optimized_model := optimized_model s; quantized_model := quantized_model s;
     pretrained_processor := pretrained_processor s;
     pretrained_config := pretrained_config s; model_shapes := model_shapes s |}.
Definition set_no_weights_model (v : string) (s : State) : State :=
  {| config := config s; trace := trace s; ortmodel_class := ortmodel_class s;
     self_session_options := self_session_options s; tmpdir := tmpdir s;
     no_weights_model := Some v; pretrained_model := pretrained_model s;
     optimized_model := optimized_model s; quantized_model := quantized_model s;
     pretrained_processor := pretrained_processor s;
     pretrained_config := pretrained_config s; model_shapes := model_shapes s |}.
Definition set_pretrained_model (v : LoadedModel) (s : State) : State :=
  {| config := config s; trace := trace s; ortmodel_class := ortmodel_class s;
     self_session_options := self_session_options s; tmpdir := tmpdir s;
     no_weights_model := no_weights_model s; pretrained_model := Some v;
     optimized_model := optimized_model s; quantized_model := quantized_model s;
     pretrained_processor := pretrained_processor s;
     pretrained_config := pretrained_config s; model_shapes := model_shapes s |}.
Definition set_optimized_model (v : string) (s : State) : State :=
  {| config := config s; trace := trace s; ortmodel_class := ortmodel_class s;
     self_session_options := self_session_options s; tmpdir := tmpdir s;
     no_weights_model := no_weights_model s; pretrained_model := pretrained_model s;
     optimized_model := Some v; quantized_model := quantized_model s;
     pretrained_processor := pretrained_processor s;
     pretrained_config := pretrained_config s; model_shapes := model_shapes s |}.
Definition set_quantized_model (v : string) (s : State) : State :=
  {| config := config s; trace := trace s; ortmodel_class := ortmodel_class s;
     self_session_options := self_session_options s; tmpdir := tmpdir s;
     no_weights_model := no_weights_model s; pretrained_model := pretrained_model s;
     optimized_model := optimized_model s; quantized_model := Some v;
     pretrained_processor := pretrained_processor s;
     pretrained_config := pretrained_config s; model_shapes := model_shapes s |}.

(** [self.config.model = m], [self.config.export = b]. *)
Definition assign_model (m : string) : M State unit :=
  modify (λ s, set_config (set_model m (config s)) s).
Definition assign_export (b : bool) : M State unit :=
  modify (λ s, set_config (set_export b (config s)) s).

(** The answers of the libraries and of the file system, each a function of
    the calls made so far. [listdir] is [None] where [os.path.isdir] is
    false. *)
Record World : Type := {
  fails : list Event → Event → option Exn;
  tmpdir_name : list Event → string;
  loaded_model : list Event → LoadedModel;
  listdir : list Event → string → option (list string);
  generated_dataset : list Event → Dataset;
}.

(** What the backend imports from modules of the repository that are not
    part of the sources at hand: the task tables of [.utils], the two
    formatting helpers of [.utils] (taken as functions of their argument),
    [TEXT_GENERATION_TASKS] of [task_utils], and the three methods of the base
    class [Backend] that the backend calls through [super()]. The two file
    names are constants of optimum. *)
Record Imports : Type := {
  TASKS_TO_ORTSD : gmap string string;
  TASKS_TO_ORTMODELS : gmap string string;
  TEXT_GENERATION_TASKS : list string;
  ONNX_DECODER_NAME : string;
  ONNX_DECODER_WITH_PAST_NAME : string;
  format_quantization_config : kwargs → kwargs;
  format_calibration_config : kwargs → kwargs;
  Backend_init : M State unit;
  Backend_clean : M State unit;
  Backend_prepare_inputs : gmap string value → M State (gmap string value);
}.

Section Backend.
Variable W : World.
Variable I : Imports.

(** A call into a library: it is recorded, and it raises or returns as the
    world decides. *)
Definition call (ev : Event) : M State unit := λ s,
  match fails W (trace s) ev with
  | Some ex => (Raise ex, log ev s)
  | None => (Ok tt, log ev s)
  end.

(** [self.x] for an attribute that may not have been assigned yet. *)
Definition attr {A} (name : string) (f : State → option A) : M State A :=
  gets f ≫= deref (AttributeError name).

(** [with random_init_weights(): body]. The context manager comes from
    [transformers_utils]; it is entered, and left again however the body
    ends. *)
Definition with_random_init_weights (body : M State unit) : M State unit := λ s,
  match call EvRandomInitEnter s with
  | (Raise ex, s1) => (Raise ex, s1)
  | (Ok _, s1) =>
      match body s1 with
      | (Ok _, s2) => call EvRandomInitExit s2
      | (Raise ex, s2) =>
          match call EvRandomInitExit s2 with
          | (Ok _, s3) => (Raise ex, s3)
          | (Raise ex', s3) => (Raise ex', s3)
          end
      end
  end.

(** Lines 131-141: the three properties. *)
Definition is_optimized (c : Config) : bool :=
  bool_decide (auto_optimization c ≠ None) || optimization c.
Definition is_quantized (c : Config) : bool :=
  bool_decide (auto_quantization c ≠ None) || quantization c.
Definition is_calibrated (c : Config) : bool :=
  bool_decide (auto_calibration c ≠ None) || calibration c.

(** Lines 143-151. *)
Definition ortmodel_kwargs (c : Config) : kwargs :=
  if bool_decide (task c ∈ TEXT_GENERATION_TASKS I)
  then <["use_merged" := PBool (use_merged c)]> (<["use_cache" := PBool (use_cache c)]> ∅)
  else ∅.

(** Lines 79-87. *)
Definition validate_task : M State unit :=
  c ← gets config ;
  match TASKS_TO_ORTSD I !! task c with
  | Some path =>
      call (EvGetClass path) ;;
      modify (set_ortmodel_class path)
  | None =>
      match TASKS_TO_ORTMODELS I !! task c with
      | Some path =>
          call (EvGetClass path) ;;
          modify (set_ortmodel_class path)
      | None =>
          raise (NotImplementedError ("ORTBackend does not support task " ++ task c))
      end
  end.

(** Lines 89-93. *)
Definition validate_provider : M State unit :=
  m ← attr "pretrained_model" pretrained_model ;
  c ← gets config ;
  match providers m with
  | [] => raise IndexError
  | first :: _ =>
      if decide (first = provider c) then mret tt
      else raise (ValueError (provider c ++ " is not first in providers list: "
                              ++ repr_list (providers m)))
  end.

(** Lines 95-107. The state dict of [torch.nn.Linear(1, 1)] is built in
    memory and is not recorded. *)
Definition create_no_weights_model : M State unit :=
  tmp ← attr "tmpdir" tmpdir ;
  modify (set_no_weights_model (path_join tmp "no_weights_model")) ;;
  dir ← attr "no_weights_model" no_weights_model ;
  call (EvMakedirs dir) ;;
  dir ← attr "no_weights_model" no_weights_model ;
  call (EvSaveFile (path_join dir "model.safetensors")) ;;
  c ← gets config ;
  when (bool_decide (library c = "transformers"))
    (pc ← gets pretrained_config ;
     match pc with
     | None => raise (AttributeError "save_pretrained")
     | Some _ =>
         dir ← attr "no_weights_model" no_weights_model ;
         call (EvSavePretrainedConfig dir)
     end).

(** Lines 119-129. *)
Definition load_ortmodel_from_pretrained : M State unit :=
  cls ← attr "ortmodel_class" ortmodel_class ;
  c ← gets config ;
  so ← attr "session_options" self_session_options ;
  call (EvFromPretrained cls
          {| la_model := model c; la_export := export c;
             la_session_options := so;
             la_provider_options := provider_options c;
             la_use_io_binding := use_io_binding c;
             la_provider := provider c;
             la_hub_kwargs := hub_kwargs c;
             la_kwargs := ortmodel_kwargs c |}) ;;
  tr ← gets trace ;
  modify (set_pretrained_model (loaded_model W tr)).

(** Lines 109-117. *)
Definition load_ortmodel_with_no_weights : M State unit :=
  create_no_weights_model ;;
  with_random_init_weights
    (c ← gets config ;
     dir ← attr "no_weights_model" no_weights_model ;
     let original_model := model c in
     assign_model dir ;;
     load_ortmodel_from_pretrained ;;
     assign_model original_model).

(** Lines 153-163. Reading the directory is not recorded as an event. *)
Definition onnx_files_names : M State (list string) :=
  c ← gets config ;
  tr ← gets trace ;
  match listdir W tr (model c) with
  | None => raise (AssertionError (model c ++ " is not a directory"))
  | Some files =>
      if use_merged c then
        mret (filter (λ f, (f ∉ [ONNX_DECODER_NAME I; ONNX_DECODER_WITH_PAST_NAME I])
                           ∧ (endswith f ".onnx" = true)) files)
      else
        mret (filter (λ f, endswith f ".onnx" = true) files)
  end.

(** Lines 165-172. *)
Definition inputs_names : M State (list string) :=
  m ← attr "pretrained_model" pretrained_model ;
  match inputs_names_attr m with
  | Some names => mret names
  | None =>
      match input_names_attr m with
      | Some names => mret names
      | None => mret []
      end
  end.

(** [if x is not None: x.save_pretrained(dir)], lines 199-202 and 277-280. *)
Definition save_preprocessors (dir : string) : M State unit :=
  pp ← gets pretrained_processor ;
  when (bool_decide (pp ≠ None)) (call (EvSavePretrainedProcessor dir)) ;;
  pc ← gets pretrained_config ;
  when (bool_decide (pc ≠ None)) (call (EvSavePretrainedConfig dir)).

(** Lines 174-202. The local [optimization_config] is bound by one of the
    two branches or not at all. *)
Definition optimize_onnx_files : M State unit :=
  tmp ← attr "tmpdir" tmpdir ;
  modify (set_optimized_model (path_join tmp "optimized")) ;;
  c ← gets config ;
  optimization_config ←
    match auto_optimization c with
    | Some level =>
        let cfg := AutoOptimizationConfig level (bool_decide (device c = "cuda"))
                     (auto_optimization_config c) in
        call (EvOptimizationCfg cfg) ;; mret (Some cfg)
    | None =>
        if optimization c then
          let cfg := OptimizationConfig (bool_decide (device c = "cuda"))
                       (optimization_config c) in
          call (EvOptimizationCfg cfg) ;; mret (Some cfg)
        else mret None
    end ;
  files ← onnx_files_names ;
  call (EvOptimizerFromPretrained (model c) files) ;;
  cfg ← deref (UnboundLocalError "optimization_config") optimization_config ;
  dir ← attr "optimized_model" optimized_model ;
  call (EvOptimize cfg dir) ;;
  save_preprocessors dir.

(** Lines 214-221: the local [quantization_config]. *)
Definition process_quantization_config : M State (option QuantizationCfg) :=
  c ← gets config ;
  match auto_quantization c with
  | Some preset =>
      let cfg := AutoQuantizationConfig preset
                   (format_quantization_config I (auto_quantization_config c)) in
      call (EvQuantizationCfg cfg) ;; mret (Some cfg)
  | None =>
      if quantization c then
        let cfg := QuantizationConfig (format_quantization_config I (quantization_config c)) in
        call (EvQuantizationCfg cfg) ;; mret (Some cfg)
      else mret None
  end.

(** Lines 223-246: the locals [calibration_dataset] and
    [calibration_config]. In [{"dataset_size": 1, "sequence_length": 1,
    **self.model_shapes}] the model's shapes win. *)
Definition process_calibration : M State (option Dataset * option CalibrationCfg) :=
  c ← gets config ;
  if is_calibrated c then
    shapes ← gets model_shapes ;
    let dataset_shapes :=
      shapes ∪ <["sequence_length" := PInt 1]> (<["dataset_size" := PInt 1]> ∅) in
    call (EvDatasetGenerator (task c) dataset_shapes shapes) ;;
    tr ← gets trace ;
    let calibration_dataset := generated_dataset W tr in
    names ← inputs_names ;
    let columns_to_be_removed :=
      filter (λ col, col ∉ names) (column_names calibration_dataset) in
    let calibration_dataset := remove_columns calibration_dataset columns_to_be_removed in
    calibration_config ←
      match auto_calibration c with
      | Some method =>
          let cfg := AutoCalibrationConfig method calibration_dataset
                       (auto_calibration_config c) in
          call (EvCalibrationCfg cfg) ;; mret (Some cfg)
      | None =>
          if calibration c then
            let _ := format_calibration_config I (calibration_config c) in
            let cfg := CalibrationConfig "calibration_dataset"
                         (split calibration_dataset) (num_rows calibration_dataset)
                         (config_name calibration_dataset) (calibration_config c) in
            call (EvCalibrationCfg cfg) ;; mret (Some cfg)
          else mret None
      end ;
    mret (Some calibration_dataset, calibration_config)
  else mret (None, None).

(** Lines 249-276: the body of the loop over the graph files. *)
Definition quantize_onnx_file (quantization_config : option QuantizationCfg)
    (calibration_dataset : option Dataset) (calibration_config : option CalibrationCfg)
    (onnx_file_name : string) : M State unit :=
  c ← gets config ;
  call (EvQuantizerFromPretrained (model c) onnx_file_name) ;;
  calibration_tensors_range ←
    (if is_calibrated c then
       ds ← deref (UnboundLocalError "calibration_dataset") calibration_dataset ;
       ccfg ← deref (UnboundLocalError "calibration_config") calibration_config ;
       qcfg ← deref (UnboundLocalError "quantization_config") quantization_config ;
       call (EvFit onnx_file_name ds (bool_decide (device c = "cuda")) ccfg qcfg) ;;
       mret (Some opaque)
     else mret None) ;
  dir ← attr "quantized_model" quantized_model ;
  qcfg ← deref (UnboundLocalError "quantization_config") quantization_config ;
  call (EvQuantize onnx_file_name dir qcfg calibration_tensors_range).

(** Lines 204-280. *)
Definition quantize_onnx_files : M State unit :=
  tmp ← attr "tmpdir" tmpdir ;
  modify (set_quantized_model (tmp ++ "/quantized_model")) ;;
  c ← gets config ;
  (if is_calibrated c then
     files ← onnx_files_names ;
     if bool_decide (1 < length files)%nat then
       raise (NotImplementedError
                ("Calibrated/Static Quantization is not supported for models with multiple components. "
                 ++ "Found " ++ pretty (length files) ++ " components."))
     else mret tt
   else mret tt) ;;
  quantization_config ← process_quantization_config ;
  '(calibration_dataset, calibration_config) ← process_calibration ;
  files ← onnx_files_names ;
  for_each files
    (quantize_onnx_file quantization_config calibration_dataset calibration_config) ;;
  dir ← attr "quantized_model" quantized_model ;
  save_preprocessors dir.

(** Lines 57-74 of [__init__]: the Optimize and Quantize stages and the
    reload that follows them. The locals [original_model] and
    [original_export] are bound only under the conditions the source binds
    them. *)
Definition optimize_quantize_reload : M State unit :=
  c ← gets config ;
  original_model ←
    (if is_optimized c || is_quantized c then
       m ← attr "pretrained_model" pretrained_model ;
       assign_model (model_save_dir m) ;;
       mret (Some (model c))
     else mret None) ;
  c ← gets config ;
  when (is_optimized c)
    (optimize_onnx_files ;;
     dir ← attr "optimized_model" optimized_model ;
     assign_model dir) ;;
  c ← gets config ;
  when (is_quantized c)
    (quantize_onnx_files ;;
     dir ← attr "quantized_model" quantized_model ;
     assign_model dir) ;;
  c ← gets config ;
  when (is_optimized c || is_quantized c)
    (c ← gets config ;
     let original_export := export c in
     assign_export false ;;
     load_ortmodel_from_pretrained ;;
     original_model ← deref (UnboundLocalError "original_model") original_model ;
     assign_model original_model ;;
     assign_export original_export).

(** Lines 41-45. *)
Definition process_session_options : M State unit :=
  call EvSessionOptions ;;
  modify (set_self_session_options ∅) ;;
  c ← gets config ;
  when (bool_decide (session_options c ≠ ∅))
    (for_each (map_to_list (session_options c))
       (λ '(key, v),
          call (EvSetattr key v) ;;
          so ← attr "session_options" self_session_options ;
          modify (set_self_session_options (<[key := v]> so)))).

(** Lines 47-48. *)
Definition create_tmpdir : M State unit :=
  call EvTemporaryDirectory ;;
  tr ← gets trace ;
  modify (set_tmpdir (tmpdir_name W tr)).

(** [self.tmpdir.cleanup()]. *)
Definition tmpdir_cleanup : M State unit :=
  tmp ← attr "tmpdir" tmpdir ;
  call (EvTmpdirCleanup tmp).

(** Lines 37-77. *)
Definition __init__ : M State unit :=
  Backend_init I ;;
  validate_task ;;
  process_session_options ;;
  create_tmpdir ;;
  c ← gets config ;
  (if no_weights c then load_ortmodel_with_no_weights
   else load_ortmodel_from_pretrained) ;;
  optimize_quantize_reload ;;
  validate_provider ;;
  tmpdir_cleanup.

(** Lines 288-292: the loop over [list(inputs.items())], which updates the
    dictionary it was taken from. *)
Fixpoint prepare_items (items : list (string * value)) (inputs : gmap string value)
    : M State (gmap string value) :=
  match items with
  | [] => mret inputs
  | (key, v) :: rest =>
      if bool_decide (key ∉ PROBLEMATIC_INPUTS) then
        c ← gets config ;
        v' ← to v (device c) ;
        prepare_items rest (<[key := v']> inputs)
      else
        names ← inputs_names ;
        if bool_decide (key ∉ names) then prepare_items rest (delete key inputs)
        else prepare_items rest inputs
  end.

(** Lines 282-294. *)
Definition prepare_inputs (inputs : gmap string value) : M State (gmap string value) :=
  inputs ← Backend_prepare_inputs I inputs ;
  c ← gets config ;
  if bool_decide (library c = "diffusers") then
    prompt ← deref (KeyError "prompt") (inputs !! "prompt") ;
    mret {["prompt" := prompt]}
  else
    prepare_items (map_to_list inputs) inputs.

(** Lines 312-319. *)
Definition clean : M State unit :=
  Backend_clean I ;;
  t ← gets tmpdir ;
  when (bool_decide (t ≠ None)) tmpdir_cleanup ;;
  call EvGcCollect.

End Backend.

(** The configuration is [c0] up to the field [model]. *)
Definition repointed (c0 : Config) (s : State) : Prop :=
  ∃ v, config s = set_model v c0.

(** The tensor [v] on the device [dev]. *)
Definition on_device (dev : string) (v : value) : value :=
  match v with
  | Tensor data _ => Tensor data dev
  | Text t => Text t
  end.

(** What becomes of the entry [(key, v)] of the inputs, for a model that
    declares the input names [names]. *)
Definition prepared (names : list string) (dev : string) (key : string) (v : value)
    : option value :=
  if decide (key ∈ PROBLEMATIC_INPUTS) then
    if decide (key ∈ names) then Some v else None
  else Some (on_device dev v).

(** The trace of [s] is [tr0] followed by events that all satisfy [ok]. *)
Definition extends (ok : Event → Prop) (tr0 : list Event) (s : State) : Prop :=
  ∃ new, trace s = (tr0 ++ new)%list ∧ Forall ok new.

(** An event that carries an optimization configuration carries [a]; the
    same for a quantization configuration; an event that carries a
    calibration configuration carries one made by the preset [method] with
    the options [kw]. *)
Definition only_optimization (a : OptimizationCfg) (ev : Event) : Prop :=
  match ev with
  | EvOptimizationCfg c | EvOptimize c _ => c = a
  | _ => True
  end.

Definition only_quantization (a : QuantizationCfg) (ev : Event) : Prop :=
  match ev with
  | EvQuantizationCfg c | EvFit _ _ _ _ c | EvQuantize _ _ c _ => c = a
  | _ => True
  end.

Definition only_auto_calibration (method : string) (kw : kwargs) (ev : Event) : Prop :=
  match ev with
  | EvCalibrationCfg c | EvFit _ _ _ c _ => ∃ ds, c = AutoCalibrationConfig method ds kw
  | _ => True
  end.

End ORT.

(** ** [backends/openvino/backend.py] *)
Module OV.

(** The fields of [OVConfig] the backend reads. *)
Record Config : Type := {
  model : string;
  export : bool;
  task : string;
  device : string;
  library : string;
  no_weights : bool;
  inter_op_num_threads : option Z;
  openvino_config : kwargs;
  quantization : bool;
  quantization_config : kwargs;
  calibration : bool;
  hub_kwargs : kwargs;
  use_cache : bool;
  use_merged : bool;
  seed : Z;
}.

Definition set_model (m : string) (c : Config) : Config :=
  {| model := m; export := export c; task := task c; device := device c;
     library := library c; no_weights := no_weights c;
     inter_op_num_threads := inter_op_num_threads c;
     openvino_config := openvino_config c; quantization := quantization c;
     quantization_config := quantization_config c; calibration := calibration c;
     hub_kwargs := hub_kwargs c; use_cache := use_cache c;
     use_merged := use_merged c; seed := seed c |}.
Definition set_export (b : bool) (c : Config) : Config :=
  {| model := model c; export := b; task := task c; device := device c;
     library := library c; no_weights := no_weights c;
     inter_op_num_threads := inter_op_num_threads c;
     openvino_config := openvino_config c; quantization := quantization c;
     quantization_config := quantization_config c; calibration := calibration c;
     hub_kwargs := hub_kwargs c; use_cache := use_cache c;
     use_merged := use_merged c; seed := seed c |}.
Definition set_openvino_config (d : kwargs) (c : Config) : Config :=
  {| model := model c; export := export c; task := task c; device := device c;
     library := library c; no_weights := no_weights c;
     inter_op_num_threads := inter_op_num_threads c;
     openvino_config := d; quantization := quantization c;
     quantization_config := quantization_config c; calibration := calibration c;
     hub_kwargs := hub_kwargs c; use_cache := use_cache c;
     use_merged := use_merged c; seed := seed c |}.

(** A loaded model ([AutoModel] or [OVModel]) is a handle the world hands
    out. *)
Record LoadedModel : Type := { handle : string }.

(** The arguments of [ovmodel_class.from_pretrained]. *)
Record LoadArgs : Type := {
  la_model : string;
  la_export : bool;
  la_ov_config : kwargs;
  la_device : string;
  la_hub_kwargs : kwargs;
  la_kwargs : kwargs;
}.

Inductive Event : Type :=
| EvGetClass (path : string)
| EvTemporaryDirectory
| EvTmpdirCleanup (name : string)
| EvMakedirs (path : string)
| EvSaveFile (filename : string)
| EvSavePretrainedConfig (save_directory : string)
| EvRandomInitEnter
| EvRandomInitExit
| EvAutoModelFromPretrained (cls model : string) (hub_kwargs : kwargs)
| EvTieWeights (m : LoadedModel)
| EvOVModelFromPretrained (cls : string) (args : LoadArgs)
| EvOVQuantizationConfig (kw : kwargs)
| EvQuantizerFromPretrained (m : LoadedModel) (task : string) (seed : Z)
| EvDatasetGenerator (task : string) (dataset_shapes model_shapes : kwargs)
| EvQuantize (save_directory : string) (quantization_config : kwargs)
    (calibration_dataset : option Dataset)
| EvGcCollect.

(** The backend object. [automodel_class], [pretrained_config] and
    [model_shapes] are set by the base class. *)
Record State : Type := {
  config : Config;
  trace : list Event;
  ovmodel_class : option string;
  automodel_class : option string;
  tmpdir : option string;
  no_weights_model : option string;
  pretrained_model : option LoadedModel;
  quantized_model : option string;
  pretrained_config : option Opaque;
  model_shapes : kwargs;
}.

Definition set_config (c : Config) (s : State) : State :=
  {| config := c; trace := trace s; ovmodel_class := ovmodel_class s;
     automodel_class := automodel_class s; tmpdir := tmpdir s;
     no_weights_model := no_weights_model s; pretrained_model := pretrained_model s;
     quantized_model := quantized_model s; pretrained_config := pretrained_config s;
     model_shapes := model_shapes s |}.
Definition log (ev : Event) (s : State) : State :=
  {| config := config s; trace := trace s ++ [ev]; ovmodel_class := ovmodel_class s;
     automodel_class := automodel_class s; tmpdir := tmpdir s;
     no_weights_model := no_weights_model s; pretrained_model := pretrained_model s;
     quantized_model := quantized_model s; pretrained_config := pretrained_config s;
     model_shapes := model_shapes s |}.
Definition set_ovmodel_class (v : string) (s : State) : State :=
  {| config := config s; trace := trace s; ovmodel_class := Some v;
     automodel_class := automodel_class s; tmpdir := tmpdir s;
     no_weights_model := no_weights_model s; pretrained_model := pretrained_model s;
     quantized_model := quantized_model s; pretrained_config := pretrained_config s;
     model_shapes := model_shapes s |}.
Definition set_tmpdir (v : string) (s : State) : State :=
  {| config := config s; trace := trace s; ovmodel_class := ovmodel_class s;
     automodel_class := automodel_class s; tmpdir := Some v;
     no_weights_model := no_weights_model s; pretrained_model := pretrained_model s;
     quantized_model := quantized_model s; pretrained_config := pretrained_config s;
     model_shapes := model_shapes s |}.
Definition set_no_weights_model (v : string) (s : State) : State :=
  {| config := config s; trace := trace s; ovmodel_class := ovmodel_class s;
     automodel_class := automodel_class s; tmpdir := tmpdir s;
     no_weights_model := Some v; pretrained_model := pretrained_model s;
     quantized_model := quantized_model s; pretrained_config := pretrained_config s;
     model_shapes := model_shapes s |}.
Definition set_pretrained_model (v : LoadedModel) (s : State) : State :=
  {| config := config s; trace := trace s; ovmodel_class := ovmodel_class s;
     automodel_class := automodel_class s; tmpdir := tmpdir s;
     no_weights_model := no_weights_model s; pretrained_model := Some v;
     quantized_model := quantized_model s; pretrained_config := pretrained_config s;
     model_shapes := model_shapes s |}.
Definition set_quantized_model (v : string) (s : State) : State :=
  {| config := config s; trace := trace s; ovmodel_class := ovmodel_class s;
     automodel_class := automodel_class s; tmpdir := tmpdir s;
     no_weights_model := no_weights_model s; pretrained_model := pretrained_model s;
     quantized_model := Some v; pretrained_config := pretrained_config s;
     model_shapes := model_shapes s |}.

Definition assign_model (m : string) : M State unit :=
  modify (λ s, set_config (set_model m (config s)) s).
Definition assign_export (b : bool) : M State unit :=
  modify (λ s, set_config (set_export b (config s)) s).
Definition assign_openvino_config (d : kwargs) : M State unit :=
  modify (λ s, set_config (set_openvino_config d (config s)) s).

(** The answers of the libraries, each a function of the calls made so far.
    [export_input_names] is the quantizer's [_export_input_names]. *)
Record World : Type := {
  fails : list Event → Event → option Exn;
  tmpdir_name : list Event → string;
  loaded_model : list Event → LoadedModel;
  export_input_names : list Event → list string;
  generated_dataset : list Event → Dataset;
}.

(** What the backend imports from modules of the repository that are not
    part of the sources at hand ([TASKS_TO_OVMODEL] of [.utils],
    [TEXT_GENERATION_TASKS], the methods of the base class), and the key
    that openvino's [properties.inference_num_threads()] returns. *)
Record Imports : Type := {
  TASKS_TO_OVMODEL : gmap string string;
  TEXT_GENERATION_TASKS : list string;
  inference_num_threads : string;
  Backend_init : M State unit;
  Backend_clean : M State unit;
  Backend_prepare_inputs : gmap string value → M State (gmap string value);
}.

Section Backend.
Variable W : World.
Variable I : Imports.

Definition call (ev : Event) : M State unit := λ s,
  match fails W (trace s) ev with
  | Some ex => (Raise ex, log ev s)
  | None => (Ok tt, log ev s)
  end.

Definition attr {A} (name : string) (f : State → option A) : M State A :=
  gets f ≫= deref (AttributeError name).

(** [with random_init_weights(): body]. *)
Definition with_random_init_weights (body : M State unit) : M State unit := λ s,
  match call EvRandomInitEnter s with
  | (Raise ex, s1) => (Raise ex, s1)
  | (Ok _, s1) =>
      match body s1 with
      | (Ok _, s2) => call EvRandomInitExit s2
      | (Raise ex, s2) =>
          match call EvRandomInitExit s2 with
          | (Ok _, s3) => (Raise ex, s3)
          | (Raise ex', s3) => (Raise ex', s3)
          end
      end
  end.

(** Lines 70-75. *)
Definition validate_task : M State unit :=
  c ← gets config ;
  match TASKS_TO_OVMODEL I !! task c with
  | None => raise (NotImplementedError ("OVBackend does not support task " ++ task c))
  | Some path =>
      call (EvGetClass path) ;;
      modify (set_ovmodel_class path)
  end.

(** Lines 77-89. *)
Definition create_no_weights_model : M State unit :=
  tmp ← attr "tmpdir" tmpdir ;
  modify (set_no_weights_model (path_join tmp "no_weights_model")) ;;
  dir ← attr "no_weights_model" no_weights_model ;
  call (EvMakedirs dir) ;;
  dir ← attr "no_weights_model" no_weights_model ;
  call (EvSaveFile (path_join dir "model.safetensors")) ;;
  c ← gets config ;
  when (bool_decide (library c = "transformers"))
    (pc ← gets pretrained_config ;
     match pc with
     | None => raise (AttributeError "save_pretrained")
     | Some _ =>
         dir ← attr "no_weights_model" no_weights_model ;
         call (EvSavePretrainedConfig dir)
     end).

(** Lines 104-105. *)
Definition load_automodel_from_pretrained : M State unit :=
  cls ← attr "automodel_class" automodel_class ;
  c ← gets config ;
  call (EvAutoModelFromPretrained cls (model c) (hub_kwargs c)) ;;
  tr ← gets trace ;
  modify (set_pretrained_model (loaded_model W tr)).

(** Lines 91-102. *)
Definition load_automodel_with_no_weights : M State unit :=
  create_no_weights_model ;;
  with_random_init_weights
    (c ← gets config ;
     dir ← attr "no_weights_model" no_weights_model ;
     let original_model := model c in
     assign_model dir ;;
     load_automodel_from_pretrained ;;
     assign_model original_model) ;;
  m ← attr "pretrained_model" pretrained_model ;
  call (EvTieWeights m).

(** Lines 129-137. *)
Definition ovmodel_kwargs (c : Config) : kwargs :=
  if bool_decide (task c ∈ TEXT_GENERATION_TASKS I)
  then <["use_merged" := PBool (use_merged c)]> (<["use_cache" := PBool (use_cache c)]> ∅)
  else ∅.

(** Lines 119-127. *)
Definition load_ovmodel_from_pretrained : M State unit :=
  cls ← attr "ovmodel_class" ovmodel_class ;
  c ← gets config ;
  call (EvOVModelFromPretrained cls
          {| la_model := model c; la_export := export c;
             la_ov_config := openvino_config c; la_device := device c;
             la_hub_kwargs := hub_kwargs c; la_kwargs := ovmodel_kwargs c |}) ;;
  tr ← gets trace ;
  modify (set_pretrained_model (loaded_model W tr)).

(** Lines 107-117. *)
Definition load_ovmodel_with_no_weights : M State unit :=
  create_no_weights_model ;;
  with_random_init_weights
    (c ← gets config ;
     dir ← attr "no_weights_model" no_weights_model ;
     let original_model := model c in
     assign_model dir ;;
     c ← gets config ;
     let original_export := export c in
     assign_export true ;;
     load_ovmodel_from_pretrained ;;
     assign_model original_model ;;
     assign_export original_export).

(** Lines 139-169. *)
Definition quantize_automodel : M State unit :=
  tmp ← attr "tmpdir" tmpdir ;
  modify (set_quantized_model (tmp ++ "/quantized_model")) ;;
  c ← gets config ;
  call (EvOVQuantizationConfig (quantization_config c)) ;;
  m ← attr "pretrained_model" pretrained_model ;
  call (EvQuantizerFromPretrained m (task c) (seed c)) ;;
  tr0 ← gets trace ;
  calibration_dataset ←
    (if calibration c then
       shapes ← gets model_shapes ;
       let dataset_shapes :=
         shapes ∪ <["sequence_length" := PInt 1]> (<["dataset_size" := PInt 1]> ∅) in
       call (EvDatasetGenerator (task c) dataset_shapes shapes) ;;
       tr ← gets trace ;
       let calibration_dataset := generated_dataset W tr in
       let columns_to_be_removed :=
         filter (λ col, col ∉ export_input_names W tr0) (column_names calibration_dataset) in
       mret (Some (remove_columns calibration_dataset columns_to_be_removed))
     else mret None) ;
  dir ← attr "quantized_model" quantized_model ;
  call (EvQuantize dir (quantization_config c) calibration_dataset).

(** Lines 44-59 of [__init__]: the quantization branch. *)
Definition quantize_and_reload : M State unit :=
  c ← gets config ;
  (if no_weights c then load_automodel_with_no_weights
   else load_automodel_from_pretrained) ;;
  quantize_automodel ;;
  c ← gets config ;
  dir ← attr "quantized_model" quantized_model ;
  let original_model := model c in
  assign_model dir ;;
  c ← gets config ;
  let original_export := export c in
  assign_export false ;;
  load_ovmodel_from_pretrained ;;
  assign_model original_model ;;
  assign_export original_export.

(** Lines 37-39. *)
Definition set_inter_op_num_threads : M State unit :=
  c ← gets config ;
  match inter_op_num_threads c with
  | Some n =>
      assign_openvino_config (<[inference_num_threads I := PInt n]> (openvino_config c))
  | None => mret tt
  end.

Definition create_tmpdir : M State unit :=
  call EvTemporaryDirectory ;;
  tr ← gets trace ;
  modify (set_tmpdir (tmpdir_name W tr)).

Definition tmpdir_cleanup : M State unit :=
  tmp ← attr "tmpdir" tmpdir ;
  call (EvTmpdirCleanup tmp).

(** Lines 33-68. *)
Definition __init__ : M State unit :=
  Backend_init I ;;
  validate_task ;;
  set_inter_op_num_threads ;;
  create_tmpdir ;;
  c ← gets config ;
  (if quantization c then quantize_and_reload
   else if no_weights c then load_ovmodel_with_no_weights
   else load_ovmodel_from_pretrained) ;;
  tmpdir_cleanup.

(** Lines 192-198. *)
Definition prepare_inputs (inputs : gmap string value) : M State (gmap string value) :=
  inputs ← Backend_prepare_inputs I inputs ;
  c ← gets config ;
  if bool_decide (library c = "diffusers") then
    prompt ← deref (KeyError "prompt") (inputs !! "prompt") ;
    mret {["prompt" := prompt]}
  else mret inputs.

(** Lines 212-218. *)
Definition clean : M State unit :=
  Backend_clean I ;;
  t ← gets tmpdir ;
  when (bool_decide (t ≠ None)) tmpdir_cleanup ;;
  call EvGcCollect.

End Backend.

End OV.

(** ** [backends/openvino/backend.py]: [prepare_for_inference] *)

(** Lines 171-190 read two fields of the configuration that nothing else
    in the backend reads, and call three methods of the loaded model that
    nothing else calls: the method is embedded over the part of the backend
    it works on. *)
Module OVInference.

Record Config : Type := {
  reshape : bool;
  half : bool;
}.

(** What the method reads of the loaded model: the names of the arguments
    of its [reshape] method, [inspect.getfullargspec(...).args]. *)
Record LoadedModel : Type := { reshape_args : list string }.

Inductive Event : Type :=
| EvReshape (static_shapes : kwargs)
| EvHalf
| EvCompile.

#[global] Instance Event_eq_dec : EqDecision Event.
Proof. solve_decision. Defined.

Record State : Type := {
  config : Config;
  trace : list Event;
  pretrained_model : option LoadedModel;
}.

Definition log (ev : Event) (s : State) : State :=
  {| config := config s; trace := trace s ++ [ev];
     pretrained_model := pretrained_model s |}.

Definition World : Type := list Event → Event → option Exn.

Section Backend.
Variable W : World.

Definition call (ev : Event) : M State unit := λ s,
  match W (trace s) ev with
  | Some ex => (Raise ex, log ev s)
  | None => (Ok tt, log ev s)
  end.

Definition attr {A} (name : string) (f : State → option A) : M State A :=
  gets f ≫= deref (AttributeError name).

(** Lines 173-179: the dictionary comprehension over [kwargs.items()], and
    the entry [sequence_length] of an image model. *)
Definition static_shapes (args : list string) (kw : kwargs) : kwargs :=
  let shapes : kwargs := filter (λ kv, kv.1 ∈ args) kw in
  if bool_decide (default PNone (shapes !! "height") ≠ PNone
                  ∧ is_Some (shapes !! "sequence_length"))
  then <["sequence_length" := default (PInt 3) (kw !! "num_channels")]> shapes
  else shapes.

(** Lines 171-190. *)
Definition prepare_for_inference (kw : kwargs) : M State unit :=
  c ← gets config ;
  when (reshape c)
    (m ← attr "pretrained_model" pretrained_model ;
     call (EvReshape (static_shapes (reshape_args m) kw))) ;;
  c ← gets config ;
  when (half c)
    (_ ← attr "pretrained_model" pretrained_model ;
     call EvHalf) ;;
  c ← gets config ;
  when (reshape c || half c)
    (_ ← attr "pretrained_model" pretrained_model ;
     call EvCompile).

End Backend.

End OVInference.

(** * Concrete runs *)

(** The worlds, imports and states the examples below are run on. *)
Module Scenario.

(** [main.py]: [backend.configure] raises a [ValueError], every other call
    returns. *)
Definition configure_fails : Main.World := λ _ ev,
  if decide (ev = Main.EvBackendConfigure) then Some (ValueError "bad provider") else None.

Definition experiment : Main.ExperimentConfig :=
  {| Main.backend_target := "optimum_benchmark.backends.onnxruntime.ORTBackend";
     Main.benchmark_target := "optimum_benchmark.benchmarks.inference.InferenceBenchmark";
     Main.model := "bert-base-uncased";
     Main.task := "text-classification";
     Main.device := "cpu" |}.

(** The onnxruntime backend on a text-classification model, with an
    optimization preset and the manual optimization flag both set. *)
Definition ort_imports : ORT.Imports :=
  {| ORT.TASKS_TO_ORTSD :=
       {["stable-diffusion" := "optimum.onnxruntime.ORTStableDiffusionPipeline"]};
     ORT.TASKS_TO_ORTMODELS :=
       {["text-classification" := "optimum.onnxruntime.ORTModelForSequenceClassification"]};
     ORT.TEXT_GENERATION_TASKS := ["text-generation"];
     ORT.ONNX_DECODER_NAME := "decoder_model.onnx";
     ORT.ONNX_DECODER_WITH_PAST_NAME := "decoder_with_past_model.onnx";
     ORT.format_quantization_config := id;
     ORT.format_calibration_config := id;
     ORT.Backend_init := mret tt;
     ORT.Backend_clean := mret tt;
     ORT.Backend_prepare_inputs := mret |}.

Definition ort_config : ORT.Config :=
  {| ORT.model := "bert-base-uncased"; ORT.export := true;
     ORT.task := "text-classification"; ORT.device := "cpu";
     ORT.library := "transformers"; ORT.no_weights := false;
     ORT.session_options := ∅; ORT.provider := "CPUExecutionProvider";
     ORT.provider_options := ∅; ORT.use_io_binding := false;
     ORT.hub_kwargs := ∅; ORT.use_cache := true; ORT.use_merged := false;
     ORT.optimization := true;
     ORT.optimization_config := {["optimization_level" := PInt 1]};
     ORT.auto_optimization := Some "O2"; ORT.auto_optimization_config := ∅;
     ORT.quantization := false; ORT.quantization_config := ∅;
     ORT.auto_quantization := None; ORT.auto_quantization_config := ∅;
     ORT.calibration := false; ORT.calibration_config := ∅;
     ORT.auto_calibration := None; ORT.auto_calibration_config := ∅ |}.

Definition ort_model : ORT.LoadedModel :=
  {| ORT.providers := ["CPUExecutionProvider"];
     ORT.model_save_dir := "/cache/bert-base-uncased-onnx";
     ORT.inputs_names_attr := None;
     ORT.input_names_attr := Some ["input_ids"; "attention_mask"] |}.

Definition dataset : Dataset :=
  {| column_names := ["input_ids"; "attention_mask"; "token_type_ids"; "labels"];
     split := "train"; num_rows := 1; config_name := "default" |}.

(** With a preset and the manual flag set for each of optimization,
    quantization and calibration. *)
Definition ort_config_presets : ORT.Config :=
  {| ORT.model := "/cache/bert-base-uncased-onnx"; ORT.export := false;
     ORT.task := "text-classification"; ORT.device := "cpu";
     ORT.library := "transformers"; ORT.no_weights := false;
     ORT.session_options := ∅; ORT.provider := "CPUExecutionProvider";
     ORT.provider_options := ∅; ORT.use_io_binding := false;
     ORT.hub_kwargs := ∅; ORT.use_cache := true; ORT.use_merged := false;
     ORT.optimization := true;
     ORT.optimization_config := {["optimization_level" := PInt 1]};
     ORT.auto_optimization := Some "O2"; ORT.auto_optimization_config := ∅;
     ORT.quantization := true;
     ORT.quantization_config := {["is_static" := PBool false]};
     ORT.auto_quantization := Some "avx512_vnni";
     ORT.auto_quantization_config := {["is_static" := PBool true]};
     ORT.calibration := true;
     ORT.calibration_config := {["method" := PStr "entropy"]};
     ORT.auto_calibration := Some "minmax"; ORT.auto_calibration_config := ∅ |}.

(** Nothing to optimize or to quantize: a task and a provider. *)
Definition ort_config_plain (task provider : string) : ORT.Config :=
  {| ORT.model := "bert-base-uncased"; ORT.export := true;
     ORT.task := task; ORT.device := "cuda";
     ORT.library := "transformers"; ORT.no_weights := false;
     ORT.session_options := ∅; ORT.provider := provider;
     ORT.provider_options := ∅; ORT.use_io_binding := false;
     ORT.hub_kwargs := ∅; ORT.use_cache := true; ORT.use_merged := false;
     ORT.optimization := false; ORT.optimization_config := ∅;
     ORT.auto_optimization := None; ORT.auto_optimization_config := ∅;
     ORT.quantization := false; ORT.quantization_config := ∅;
     ORT.auto_quantization := None; ORT.auto_quantization_config := ∅;
     ORT.calibration := false; ORT.calibration_config := ∅;
     ORT.auto_calibration := None; ORT.auto_calibration_config := ∅ |}.

(** A state as the base class leaves it. *)
Definition ort_created (c : ORT.Config) : ORT.State :=
  {| ORT.config := c; ORT.trace := []; ORT.ortmodel_class := None;
     ORT.self_session_options := None; ORT.tmpdir := None;
     ORT.no_weights_model := None; ORT.pretrained_model := None;
     ORT.optimized_model := None; ORT.quantized_model := None;
     ORT.pretrained_processor := Some opaque; ORT.pretrained_config := Some opaque;
     ORT.model_shapes := ∅ |}.

(** A state as line 55 leaves it: the task is validated, the workspace
    exists, the model is loaded. *)
Definition ort_loaded (c : ORT.Config) : ORT.State :=
  {| ORT.config := c; ORT.trace := [];
     ORT.ortmodel_class := Some "optimum.onnxruntime.ORTModelForSequenceClassification";
     ORT.self_session_options := Some ∅; ORT.tmpdir := Some "/tmp/tmpdir";
     ORT.no_weights_model := None; ORT.pretrained_model := Some ort_model;
     ORT.optimized_model := None; ORT.quantized_model := None;
     ORT.pretrained_processor := Some opaque; ORT.pretrained_config := Some opaque;
     ORT.model_shapes := ∅ |}.

(** A world in which every call returns and every model directory holds
    one graph file. *)
Definition ort_world : ORT.World :=
  {| ORT.fails := λ _ _, None;
     ORT.tmpdir_name := λ _, "/tmp/tmpdir";
     ORT.loaded_model := λ _, ort_model;
     ORT.listdir := λ _ _, Some ["config.json"; "model.onnx"];
     ORT.generated_dataset := λ _, dataset |}.

(** The same world, except that the optimizer raises. *)
Definition ort_optimize_fails : ORT.World :=
  {| ORT.fails := λ _ ev,
       match ev with
       | ORT.EvOptimize _ _ => Some (LibraryError "cannot optimize")
       | _ => None
       end;
     ORT.tmpdir_name := λ _, "/tmp/tmpdir";
     ORT.loaded_model := λ _, ort_model;
     ORT.listdir := λ _ _, Some ["config.json"; "model.onnx"];
     ORT.generated_dataset := λ _, dataset |}.

(** The same world, except that loading a model that is not to be exported
    raises: the reload of line 73 fails. *)
Definition ort_reload_fails : ORT.World :=
  {| ORT.fails := λ _ ev,
       match ev with
       | ORT.EvFromPretrained _ args =>
           if ORT.la_export args then None else Some (LibraryError "cannot load")
       | _ => None
       end;
     ORT.tmpdir_name := λ _, "/tmp/tmpdir";
     ORT.loaded_model := λ _, ort_model;
     ORT.listdir := λ _ _, Some ["config.json"; "model.onnx"];
     ORT.generated_dataset := λ _, dataset |}.

(** A world in which every call returns and the model directory holds the
    two graphs of an encoder-decoder model. *)
Definition ort_two_graphs : ORT.World :=
  {| ORT.fails := λ _ _, None;
     ORT.tmpdir_name := λ _, "/tmp/tmpdir";
     ORT.loaded_model := λ _, ort_model;
     ORT.listdir := λ _ _, Some ["config.json"; "encoder_model.onnx"; "decoder_model.onnx"];
     ORT.generated_dataset := λ _, dataset |}.

(** The openvino backend, asked to quantize. *)
Definition ov_imports : OV.Imports :=
  {| OV.TASKS_TO_OVMODEL :=
       {["text-classification" := "optimum.intel.openvino.OVModelForSequenceClassification"]};
     OV.TEXT_GENERATION_TASKS := ["text-generation"];
     OV.inference_num_threads := "INFERENCE_NUM_THREADS";
     OV.Backend_init := mret tt;
     OV.Backend_clean := mret tt;
     OV.Backend_prepare_inputs := mret |}.

Definition ov_config : OV.Config :=
  {| OV.model := "bert-base-uncased"; OV.export := true;
     OV.task := "text-classification"; OV.device := "gpu";
     OV.library := "transformers"; OV.no_weights := true;
     OV.inter_op_num_threads := Some 4%Z; OV.openvino_config := ∅;
     OV.quantization := true; OV.quantization_config := ∅;
     OV.calibration := false; OV.hub_kwargs := ∅;
     OV.use_cache := true; OV.use_merged := false; OV.seed := 42 |}.

(** A no-weights load without quantization, and no export asked for. *)
Definition ov_config_no_weights : OV.Config :=
  {| OV.model := "bert-base-uncased"; OV.export := false;
     OV.task := "text-classification"; OV.device := "cpu";
     OV.library := "transformers"; OV.no_weights := true;
     OV.inter_op_num_threads := None; OV.openvino_config := ∅;
     OV.quantization := false; OV.quantization_config := ∅;
     OV.calibration := false; OV.hub_kwargs := ∅;
     OV.use_cache := true; OV.use_merged := false; OV.seed := 42 |}.

Definition ov_config_plain (task : string) : OV.Config :=
  {| OV.model := "bert-base-uncased"; OV.export := true;
     OV.task := task; OV.device := "gpu";
     OV.library := "transformers"; OV.no_weights := false;
     OV.inter_op_num_threads := None; OV.openvino_config := ∅;
     OV.quantization := false; OV.quantization_config := ∅;
     OV.calibration := false; OV.hub_kwargs := ∅;
     OV.use_cache := true; OV.use_merged := false; OV.seed := 42 |}.

Definition ov_created (c : OV.Config) : OV.State :=
  {| OV.config := c; OV.trace := []; OV.ovmodel_class := None;
     OV.automodel_class := Some "transformers.AutoModelForSequenceClassification";
     OV.tmpdir := None; OV.no_weights_model := None; OV.pretrained_model := None;
     OV.quantized_model := None; OV.pretrained_config := Some opaque;
     OV.model_shapes := ∅ |}.

(** A state as line 42 leaves it. *)
Definition ov_validated (c : OV.Config) : OV.State :=
  {| OV.config := c; OV.trace := [];
     OV.ovmodel_class := Some "optimum.intel.openvino.OVModelForSequenceClassification";
     OV.automodel_class := Some "transformers.AutoModelForSequenceClassification";
     OV.tmpdir := Some "/tmp/tmpdir"; OV.no_weights_model := None;
     OV.pretrained_model := None; OV.quantized_model := None;
     OV.pretrained_config := Some opaque; OV.model_shapes := ∅ |}.

Definition ov_world : OV.World :=
  {| OV.fails := λ _ _, None;
     OV.tmpdir_name := λ _, "/tmp/tmpdir";
     OV.loaded_model := λ _, {| OV.handle := "model" |};
     OV.export_input_names := λ _, ["input_ids"; "attention_mask"];
     OV.generated_dataset := λ _, dataset |}.

(** The inputs of a text model: the tensors are on the host. *)
Definition text_inputs : gmap string value :=
  {["input_ids" := Tensor [101; 7592; 102]%Z "cpu";
    "attention_mask" := Tensor [1; 1; 1]%Z "cpu";
    "token_type_ids" := Tensor [0; 0; 0]%Z "cpu"]}.

(** A model that declares [token_type_ids] among its inputs, and one that
    declares no input names at all. *)
Definition ort_model_with_token_types : ORT.LoadedModel :=
  {| ORT.providers := ["CUDAExecutionProvider"];
     ORT.model_save_dir := "/cache/bert-base-uncased-onnx";
     ORT.inputs_names_attr := None;
     ORT.input_names_attr := Some ["input_ids"; "attention_mask"; "token_type_ids"] |}.

Definition ort_model_without_names : ORT.LoadedModel :=
  {| ORT.providers := ["CUDAExecutionProvider"];
     ORT.model_save_dir := "/cache/bert-base-uncased-onnx";
     ORT.inputs_names_attr := None;
     ORT.input_names_attr := None |}.

(** The backend, ready, around the model [m]. *)
Definition ort_ready (c : ORT.Config) (m : ORT.LoadedModel) : ORT.State :=
  {| ORT.config := c; ORT.trace := [];
     ORT.ortmodel_class := Some "optimum.onnxruntime.ORTModelForSequenceClassification";
     ORT.self_session_options := Some ∅; ORT.tmpdir := Some "/tmp/tmpdir";
     ORT.no_weights_model := None; ORT.pretrained_model := Some m;
     ORT.optimized_model := None; ORT.quantized_model := None;
     ORT.pretrained_processor := Some opaque; ORT.pretrained_config := Some opaque;
     ORT.model_shapes := ∅ |}.

End Scenario.

(** * What a run shows *)

(** The traces and the observations on traces that the statements about
    whole runs are made of. *)
Module Observed.

(** The calls [run_experiment] makes before the [try], lines 101-115, and
    the calls of the [try] body, lines 118-124. *)
Definition setup_calls (x : Main.ExperimentConfig) : list Main.Event :=
  [Main.EvSaveConfig; Main.EvGetClass (Main.benchmark_target x);
   Main.EvBenchmarkNew; Main.EvBenchmarkConfigure;
   Main.EvGetClass (Main.backend_target x);
   Main.EvBackendNew (Main.model x) (Main.task x) (Main.device x)].

Definition run_calls : list Main.Event :=
  [Main.EvBackendConfigure; Main.EvBenchmarkRun; Main.EvBenchmarkSave;
   Main.EvBackendClean].

(** The calls of [l] up to the first [ev0], that one included. *)
Fixpoint until (ev0 : Main.Event) (l : list Main.Event) : list Main.Event :=
  match l with
  | [] => []
  | ev :: l' => if decide (ev = ev0) then [ev] else ev :: until ev0 l'
  end.

End Observed.

(** * Further runs *)

Module Fixture.

(** Two session options, and nothing to optimize or to quantize. *)
Definition ort_config_threads : ORT.Config :=
  {| ORT.model := "bert-base-uncased"; ORT.export := true;
     ORT.task := "text-classification"; ORT.device := "cpu";
     ORT.library := "transformers"; ORT.no_weights := false;
     ORT.session_options :=
       {["intra_op_num_threads" := PInt 4; "enable_profiling" := PBool false]};
     ORT.provider := "CPUExecutionProvider";
     ORT.provider_options := ∅; ORT.use_io_binding := false;
     ORT.hub_kwargs := ∅; ORT.use_cache := true; ORT.use_merged := false;
     ORT.optimization := false; ORT.optimization_config := ∅;
     ORT.auto_optimization := None; ORT.auto_optimization_config := ∅;
     ORT.quantization := false; ORT.quantization_config := ∅;
     ORT.auto_quantization := None; ORT.auto_quantization_config := ∅;
     ORT.calibration := false; ORT.calibration_config := ∅;
     ORT.auto_calibration := None; ORT.auto_calibration_config := ∅ |}.

(** A quantization preset and no calibration. *)
Definition ort_config_dynamic : ORT.Config :=
  {| ORT.model := "/cache/bert-base-uncased-onnx"; ORT.export := false;
     ORT.task := "text-classification"; ORT.device := "cpu";
     ORT.library := "transformers"; ORT.no_weights := false;
     ORT.session_options := ∅; ORT.provider := "CPUExecutionProvider";
     ORT.provider_options := ∅; ORT.use_io_binding := false;
     ORT.hub_kwargs := ∅; ORT.use_cache := true; ORT.use_merged := false;
     ORT.optimization := false; ORT.optimization_config := ∅;
     ORT.auto_optimization := None; ORT.auto_optimization_config := ∅;
     ORT.quantization := false; ORT.quantization_config := ∅;
     ORT.auto_quantization := Some "avx512_vnni";
     ORT.auto_quantization_config := {["is_static" := PBool false]};
     ORT.calibration := false; ORT.calibration_config := ∅;
     ORT.auto_calibration := None; ORT.auto_calibration_config := ∅ |}.

(** The inputs of a diffusion pipeline, and a tensor with them. *)
Definition prompt_inputs : gmap string value :=
  {["prompt" := Text "a photo of a cat";
    "input_ids" := Tensor [101; 102]%Z "cpu"]}.

(** The openvino backend with an AutoModel loaded, asked to quantize with
    calibration. *)
Definition ov_config_calibrated : OV.Config :=
  {| OV.model := "bert-base-uncased"; OV.export := true;
     OV.task := "text-classification"; OV.device := "cpu";
     OV.library := "transformers"; OV.no_weights := false;
     OV.inter_op_num_threads := None; OV.openvino_config := ∅;
     OV.quantization := true; OV.quantization_config := ∅;
     OV.calibration := true; OV.hub_kwargs := ∅;
     OV.use_cache := true; OV.use_merged := false; OV.seed := 42 |}.

Definition ov_loaded (c : OV.Config) : OV.State :=
  {| OV.config := c; OV.trace := [];
     OV.ovmodel_class := Some "optimum.intel.openvino.OVModelForSequenceClassification";
     OV.automodel_class := Some "transformers.AutoModelForSequenceClassification";
     OV.tmpdir := Some "/tmp/tmpdir"; OV.no_weights_model := None;
     OV.pretrained_model := Some {| OV.handle := "model" |}; OV.quantized_model := None;
     OV.pretrained_config := Some opaque; OV.model_shapes := ∅ |}.

(** A diffusion pipeline about to be reshaped: the arguments of its
    [reshape], and the shapes the benchmark passes. *)
Definition pipeline : OVInference.LoadedModel :=
  {| OVInference.reshape_args :=
       ["self"; "batch_size"; "height"; "width"; "num_images_per_prompt"] |}.

Definition image_model : OVInference.LoadedModel :=
  {| OVInference.reshape_args := ["self"; "batch_size"; "sequence_length"; "height"; "width"] |}.

Definition image_shapes : kwargs :=
  {["batch_size" := PInt 1; "sequence_length" := PInt 16; "height" := PInt 224;
    "width" := PInt 224; "num_choices" := PInt 1]}.

Definition ov_inference (reshape half : bool) (m : option OVInference.LoadedModel)
    : OVInference.State :=
  {| OVInference.config := {| OVInference.reshape := reshape; OVInference.half := half |};
     OVInference.trace := [];
     OVInference.pretrained_model := m |}.

End Fixture.

(** * What the stages show *)

Module Stage.

(** What the Optimize and Quantize stages of the onnxruntime backend do not
    assign: the configuration, the workspace, the loader class and the
    session options of [s'] are those of [s]. *)
Definition untouched (s s' : ORT.State) : Prop :=
  ORT.config s' = ORT.config s ∧ ORT.tmpdir s' = ORT.tmpdir s
  ∧ ORT.ortmodel_class s' = ORT.ortmodel_class s
  ∧ ORT.self_session_options s' = ORT.self_session_options s.

(** An event of a quantization without calibration: no dataset is
    generated, no calibration is configured, no range is fitted, and the
    quantizer is given no range. *)
Definition dynamic (ev : ORT.Event) : Prop :=
  match ev with
  | ORT.EvDatasetGenerator _ _ _ | ORT.EvCalibrationCfg _ | ORT.EvFit _ _ _ _ _ => False
  | ORT.EvQuantize _ _ _ r => r = None
  | _ => True
  end.

(** The graph files the quantizer has been run on, in the order of the
    calls, and the graph files a quantizer has been created for. *)
Definition quantized_files (tr : list ORT.Event) : list string :=
  omap (λ ev, match ev with ORT.EvQuantize f _ _ _ => Some f | _ => None end) tr.

Definition quantizer_files (tr : list ORT.Event) : list string :=
  omap (λ ev, match ev with ORT.EvQuantizerFromPretrained _ f => Some f | _ => None end) tr.

(** The model the openvino backend holds is the one a load of the OVModel
    class returned, a load that is among the calls it has made. *)
Definition holds_ovmodel (W : OV.World) (s : OV.State) : Prop :=
  ∃ loaded cls args,
    OV.pretrained_model s =
      Some (OV.loaded_model W (loaded ++ [OV.EvOVModelFromPretrained cls args])%list)
    ∧ (loaded ++ [OV.EvOVModelFromPretrained cls args])%list `prefix_of` OV.trace s.

End Stage.

(** * Programs that keep a property of the state *)

Module Hoare.

(** Run in a state that has the property [P], the program [m] either
    returns a value with the property [R] in a state that has [P] again, or
    raises an exception with the property [E]. *)
Definition keeps {S A} (P : S → Prop) (E : Exn → Prop) (m : M S A) (R : A → Prop) : Prop :=
  ∀ s, P s →
    match m s with
    | (Ok a, s') => P s' ∧ R a
    | (Raise e, _) => E e
    end.

(** An exception other than the one for a local variable read before it
    is bound. *)
Definition bound (e : Exn) : Prop := ∀ x, e ≠ UnboundLocalError x.

End Hoare.

(** * Properties *)

Open Scope list_scope.

(** ** Running a program of the monad *)
Section Run.
Context {S : Type}.

Lemma run_bind {A B} (m : M S A) (k : A → M S B) (s : S) :
  (m ≫= k) s =
  match m s with
  | (Ok a, s1) => k a s1
  | (Raise e, s1) => (Raise e, s1)
  end.
Proof. reflexivity. Qed.

Lemma run_ret {A} (a : A) (s : S) : mret (M := M S) a s = (Ok a, s).
Proof. reflexivity. Qed.

Lemma run_raise {A} (e : Exn) (s : S) : raise (A := A) e s = (Raise e, s).
Proof. reflexivity. Qed.

Lemma run_gets {A} (f : S → A) (s : S) : gets f s = (Ok (f s), s).
Proof. reflexivity. Qed.

Lemma run_modify (f : S → S) (s : S) : modify f s = (Ok tt, f s).
Proof. reflexivity. Qed.

Lemma when_true (body : M S unit) : when true body = body.
Proof. reflexivity. Qed.

Lemma when_false (body : M S unit) : when false body = mret tt.
Proof. reflexivity. Qed.

Lemma run_surjective {A} (m : M S A) (s : S) : m s = (result m s, final m s).
Proof. unfold result, final. by destruct (m s). Qed.

End Run.

Section Maintains.
Context {S : Type} (Inv : S → Prop).

Lemma maintains_bind {A B} (m : M S A) (k : A → M S B) :
  maintains Inv m → (∀ a, maintains Inv (k a)) → maintains Inv (m ≫= k).
Proof.
  intros Hm Hk s Hs. specialize (Hm s Hs). unfold final in *.
  rewrite run_bind. destruct (m s) as [[a|ex] s1]; cbn in *; [by apply Hk | done].
Qed.

Lemma maintains_ret {A} (a : A) : maintains Inv (mret (M := M S) a).
Proof. by intros s Hs. Qed.

Lemma maintains_raise {A} (ex : Exn) : maintains Inv (raise (A := A) ex).
Proof. by intros s Hs. Qed.

Lemma maintains_gets {A} (f : S → A) : maintains Inv (gets f).
Proof. by intros s Hs. Qed.

Lemma maintains_modify (f : S → S) :
  (∀ s, Inv s → Inv (f s)) → maintains Inv (modify f).
Proof. intros Hf s Hs. by apply Hf. Qed.

Lemma maintains_deref {A} (ex : Exn) (o : option A) : maintains Inv (deref ex o).
Proof. destruct o; [apply maintains_ret | apply maintains_raise]. Qed.

Lemma maintains_bind_ret {A B} (a : A) (k : A → M S B) :
  maintains Inv (k a) → maintains Inv (mret a ≫= k).
Proof. done. Qed.

Lemma maintains_bind_deref_Some {A B} (ex : Exn) (a : A) (k : A → M S B) :
  maintains Inv (k a) → maintains Inv (deref ex (Some a) ≫= k).
Proof. done. Qed.

Lemma maintains_bind_deref_None {A B} (ex : Exn) (k : A → M S B) :
  maintains Inv (deref ex None ≫= k).
Proof. by intros s Hs. Qed.

(** When the first program, if it returns, returns a value with the
    property [R], the second may rely on it. *)
Lemma maintains_bind_post {A B} (R : A → Prop) (m : M S A) (k : A → M S B) :
  (∀ s, Inv s → Inv (final m s) ∧ ∀ a, result m s = Ok a → R a) →
  (∀ a, R a → maintains Inv (k a)) →
  maintains Inv (m ≫= k).
Proof.
  intros Hm Hk s Hs. destruct (Hm s Hs) as [Hs1 HR]. unfold final, result in *.
  rewrite run_bind. destruct (m s) as [[a|ex] s1]; cbn in *; [| done].
  by apply Hk; [apply HR |].
Qed.

Lemma maintains_when (c : bool) (body : M S unit) :
  maintains Inv body → maintains Inv (when c body).
Proof. destruct c; [done | intros _; apply maintains_ret]. Qed.

Lemma maintains_for_each {A} (xs : list A) (body : A → M S unit) :
  (∀ x, maintains Inv (body x)) → maintains Inv (for_each xs body).
Proof.
  intros Hbody. induction xs as [|x xs IH]; [apply maintains_ret |].
  cbn [for_each]. apply maintains_bind; [apply Hbody | by intros _].
Qed.

End Maintains.

(** Takes a goal [maintains Inv m] apart along the structure of [m]; what is
    left are the procedures [m] calls and the assignments it makes. *)
Ltac frame_step :=
  lazymatch goal with
  | |- maintains _ (mret _) => apply maintains_ret
  | |- maintains _ (raise _) => apply maintains_raise
  | |- maintains _ (gets _) => apply maintains_gets
  | |- maintains _ (deref _ _) => apply maintains_deref
  | |- maintains _ (mret _ ≫= _) => apply maintains_bind_ret
  | |- maintains _ (deref _ (Some _) ≫= _) => apply maintains_bind_deref_Some
  | |- maintains _ (deref _ None ≫= _) => apply maintains_bind_deref_None
  | |- maintains _ (_ ≫= _) => apply maintains_bind; [| intros ?]
  | |- maintains _ (when _ _) => apply maintains_when
  | |- maintains _ (for_each _ _) => apply maintains_for_each; intros ?
  | |- maintains _ (modify _) => apply maintains_modify; intros ? ?
  | |- maintains _ (match ?x with _ => _ end) => destruct x
  end.
Ltac frame := repeat frame_step.

(** One step of symbolic execution after the other, in the goal or in a
    hypothesis. *)
Ltac exec := repeat first
  [ rewrite run_bind | rewrite run_ret | rewrite run_raise | rewrite run_gets
  | rewrite run_modify | progress cbn ].
Tactic Notation "exec" "in" hyp(H) := repeat first
  [ rewrite run_bind in H | rewrite run_ret in H | rewrite run_raise in H
  | rewrite run_gets in H | rewrite run_modify in H | progress cbn in H ].

(** In the hypothesis [H] the procedure [m] is about to run on some state:
    [fact] records what is known of the state it ends in, and the run goes
    on from there if [m] returned; if it raised, so did the whole. *)
Ltac run_proc H m fact :=
  match type of H with
  | context [m ?s0] =>
      fact s0;
      rewrite (run_surjective m s0) in H;
      destruct (result m s0); [| by exec in H];
      generalize dependent (final m s0); intros ?; intros
  end.

(** ** The driver *)

(** Whatever [Exception] [backend.configure] raises, in a world where no
    other call raises: the handler logs it and cleans the backend, and the
    statement [raise e] after the [try] finds [e] unbound. *)
Lemma run_experiment_after_failure (W : Main.World) (x : Main.ExperimentConfig) (ex : Exn) :
  is_Exception ex = true →
  (∀ tr, W tr Main.EvBackendConfigure = Some ex) →
  (∀ tr ev, ev ≠ Main.EvBackendConfigure → W tr ev = None) →
  Main.run_experiment W x Main.initial =
    (Raise (UnboundLocalError "e"),
     {| Main.trace :=
          [Main.EvSaveConfig; Main.EvGetClass (Main.benchmark_target x);
           Main.EvBenchmarkNew; Main.EvBenchmarkConfigure;
           Main.EvGetClass (Main.backend_target x);
           Main.EvBackendNew (Main.model x) (Main.task x) (Main.device x);
           Main.EvBackendConfigure; Main.EvLogError ex; Main.EvBackendClean];
        Main.raised_error := Some true;
        Main.e := None |}).
Proof.
  intros Hex Hfail Hother.
  unfold Main.run_experiment, Main.try_except_Exception_as_e, Main.call.
  exec. repeat (rewrite Hother by done; exec).
  rewrite Hfail. exec. rewrite Hex. exec.
  repeat (rewrite Hother by done; exec). done.
Qed.

(** C4 (evaluation at the failing input). [backend.configure] raises
    [ValueError "bad provider"]: [run_experiment] logs the error, cleans the
    backend, and then raises [UnboundLocalError] for the name [e], not the
    [ValueError]: the name bound by [except Exception as e] is deleted at the
    end of the except clause, before line 134 reads it. *)
Theorem run_experiment_raises_unbound_e :
  Main.run_experiment Scenario.configure_fails Scenario.experiment Main.initial =
    (Raise (UnboundLocalError "e"),
     {| Main.trace :=
          [Main.EvSaveConfig;
           Main.EvGetClass "optimum_benchmark.benchmarks.inference.InferenceBenchmark";
           Main.EvBenchmarkNew; Main.EvBenchmarkConfigure;
           Main.EvGetClass "optimum_benchmark.backends.onnxruntime.ORTBackend";
           Main.EvBackendNew "bert-base-uncased" "text-classification" "cpu";
           Main.EvBackendConfigure; Main.EvLogError (ValueError "bad provider");
           Main.EvBackendClean];
        Main.raised_error := Some true;
        Main.e := None |}).
Proof. vm_compute. reflexivity. Qed.

(** ** The onnxruntime backend *)

#[local] Arguments ORT.onnx_files_names : simpl never.
#[local] Arguments ORT.inputs_names : simpl never.
#[local] Arguments ORT.process_quantization_config : simpl never.
#[local] Arguments ORT.process_calibration : simpl never.
#[local] Arguments ORT.quantize_onnx_file : simpl never.
#[local] Arguments ORT.save_preprocessors : simpl never.
#[local] Arguments ORT.optimize_onnx_files : simpl never.
#[local] Arguments ORT.quantize_onnx_files : simpl never.
#[local] Arguments ORT.load_ortmodel_from_pretrained : simpl never.
#[local] Arguments ORT.load_ortmodel_with_no_weights : simpl never.
#[local] Arguments ORT.create_no_weights_model : simpl never.
#[local] Arguments ORT.validate_task : simpl never.
#[local] Arguments ORT.validate_provider : simpl never.
#[local] Arguments ORT.optimize_quantize_reload : simpl never.
#[local] Arguments ORT.process_session_options : simpl never.
#[local] Arguments ORT.create_tmpdir : simpl never.
#[local] Arguments ORT.tmpdir_cleanup : simpl never.
#[local] Arguments ORT.with_random_init_weights : simpl never.
#[local] Arguments ORT.call : simpl never.
#[local] Arguments ORT.attr : simpl never.
#[local] Arguments ORT.assign_model : simpl never.
#[local] Arguments ORT.assign_export : simpl never.
#[local] Arguments when : simpl never.

Section ORT_facts.
Import ORT.
Variable W : World.
Variable I : Imports.

Lemma run_call (ev : Event) (s : State) :
  call W ev s =
  (match fails W (trace s) ev with Some ex => Raise ex | None => Ok tt end, log ev s).
Proof. unfold call. by destruct (fails W (trace s) ev). Qed.

Lemma run_attr {A} (name : string) (f : State → option A) (s : State) :
  attr name f s =
  (match f s with Some a => Ok a | None => Raise (AttributeError name) end, s).
Proof. unfold attr. exec. by destruct (f s). Qed.

Lemma run_assign_model (v : string) (s : State) :
  assign_model v s = (Ok tt, set_config (set_model v (config s)) s).
Proof. done. Qed.

Lemma run_assign_export (v : bool) (s : State) :
  assign_export v s = (Ok tt, set_config (set_export v (config s)) s).
Proof. done. Qed.

(** Listing the graph files reads the configuration and the file system
    as it is after the calls made so far, and changes nothing. *)
Lemma onnx_files_names_final (s : State) : final (onnx_files_names W I) s = s.
Proof.
  unfold final, onnx_files_names. exec.
  destruct (listdir W _ _); exec; [destruct (use_merged _); exec|]; done.
Qed.

Lemma onnx_files_names_ext (s1 s2 : State) :
  config s1 = config s2 → trace s1 = trace s2 →
  result (onnx_files_names W I) s1 = result (onnx_files_names W I) s2.
Proof.
  intros Hc Ht. unfold result, onnx_files_names. exec. rewrite Hc, Ht.
  destruct (listdir W _ _); exec; [destruct (use_merged _); exec|]; done.
Qed.

(** C2. When calibration is requested and the model directory holds more
    than one graph file, [quantize_onnx_files] raises [NotImplementedError]
    having done nothing but name the output directory: the trace is the one
    it started with, so neither the dataset generator nor the quantizer has
    been called. *)
Theorem quantize_rejects_calibrated_multi_component
    (s : State) (tmp : string) (files : list string) :
  tmpdir s = Some tmp →
  is_calibrated (config s) = true →
  result (onnx_files_names W I) s = Ok files →
  (1 < length files)%nat →
  ∃ msg,
    quantize_onnx_files W I s =
      (Raise (NotImplementedError msg), set_quantized_model (tmp ++ "/quantized_model") s)
    ∧ trace (final (quantize_onnx_files W I) s) = trace s.
Proof.
  intros Htmp Hcal Hfiles Hlen.
  set (s1 := set_quantized_model (tmp ++ "/quantized_model") s).
  assert (Hrun : onnx_files_names W I s1 = (Ok files, s1)).
  { rewrite (run_surjective (onnx_files_names W I) s1), onnx_files_names_final.
    by rewrite (onnx_files_names_ext s1 s), Hfiles. }
  eexists. unfold final.
  unfold quantize_onnx_files, attr. exec. rewrite Htmp. exec. rewrite Hcal. exec.
  fold s1. rewrite Hrun. exec.
  rewrite bool_decide_eq_true_2 by done. exec. done.
Qed.

(** *** What the procedures leave alone

    [Inv] is any property of the backend that survives the recording of an
    event and the assignments named in the hypotheses; each procedure keeps
    it if the assignments it makes are among them. *)
Section Frame.
Variable Inv : State → Prop.
Hypothesis Inv_log : ∀ ev s, Inv s → Inv (log ev s).
Hypothesis Inv_ortmodel_class : ∀ v s, Inv s → Inv (set_ortmodel_class v s).
Hypothesis Inv_session_options : ∀ v s, Inv s → Inv (set_self_session_options v s).
Hypothesis Inv_tmpdir : ∀ v s, Inv s → Inv (set_tmpdir v s).
Hypothesis Inv_no_weights_model : ∀ v s, Inv s → Inv (set_no_weights_model v s).
Hypothesis Inv_pretrained_model : ∀ v s, Inv s → Inv (set_pretrained_model v s).
Hypothesis Inv_optimized_model : ∀ v s, Inv s → Inv (set_optimized_model v s).
Hypothesis Inv_quantized_model : ∀ v s, Inv s → Inv (set_quantized_model v s).
Hypothesis Inv_model : ∀ v s, Inv s → Inv (set_config (set_model v (config s)) s).
Hypothesis Inv_export : ∀ v s, Inv s → Inv (set_config (set_export v (config s)) s).

Lemma maintains_call (ev : Event) : maintains Inv (call W ev).
Proof. intros s Hs. unfold final. rewrite run_call. by apply Inv_log. Qed.

Lemma maintains_attr {A} (name : string) (f : State → option A) :
  maintains Inv (attr name f).
Proof. unfold attr. frame. Qed.

Lemma maintains_assign_model (v : string) : maintains Inv (assign_model v).
Proof. unfold assign_model. frame. by apply Inv_model. Qed.

Lemma maintains_assign_export (v : bool) : maintains Inv (assign_export v).
Proof. unfold assign_export. frame. by apply Inv_export. Qed.

Lemma maintains_with_random_init_weights (body : M State unit) :
  maintains Inv body → maintains Inv (with_random_init_weights W body).
Proof.
  intros Hbody s Hs. unfold final, with_random_init_weights.
  rewrite !run_call.
  destruct (fails W (trace s) EvRandomInitEnter); cbn; [by apply Inv_log |].
  specialize (Hbody (log EvRandomInitEnter s) (Inv_log _ _ Hs)). unfold final in Hbody.
  destruct (body (log EvRandomInitEnter s)) as [[[]|ex] s2]; cbn in *;
    rewrite run_call; destruct (fails W (trace s2) EvRandomInitExit); cbn;
    by apply Inv_log.
Qed.

Lemma maintains_onnx_files_names : maintains Inv (onnx_files_names W I).
Proof. intros s Hs. by rewrite onnx_files_names_final. Qed.

Lemma maintains_inputs_names : maintains Inv inputs_names.
Proof. unfold inputs_names. apply maintains_bind; [apply maintains_attr | intros ?]. frame. Qed.

Lemma maintains_save_preprocessors (dir : string) :
  maintains Inv (save_preprocessors W dir).
Proof. unfold save_preprocessors. frame; apply maintains_call. Qed.

Lemma maintains_validate_task : maintains Inv (validate_task W I).
Proof. unfold validate_task. frame; (apply maintains_call || by apply Inv_ortmodel_class). Qed.

Lemma maintains_validate_provider : maintains Inv validate_provider.
Proof. unfold validate_provider. apply maintains_bind; [apply maintains_attr | intros ?]. frame. Qed.

Lemma maintains_create_no_weights_model : maintains Inv (create_no_weights_model W).
Proof.
  unfold create_no_weights_model.
  frame; try apply maintains_attr; try apply maintains_call.
  by apply Inv_no_weights_model.
Qed.

Lemma maintains_load_ortmodel_from_pretrained :
  maintains Inv (load_ortmodel_from_pretrained W I).
Proof.
  unfold load_ortmodel_from_pretrained.
  frame; try apply maintains_attr; try apply maintains_call.
  by apply Inv_pretrained_model.
Qed.

Lemma maintains_load_ortmodel_with_no_weights :
  maintains Inv (load_ortmodel_with_no_weights W I).
Proof.
  unfold load_ortmodel_with_no_weights.
  apply maintains_bind; [apply maintains_create_no_weights_model | intros _].
  apply maintains_with_random_init_weights.
  frame; try apply maintains_attr; try apply maintains_assign_model.
  apply maintains_load_ortmodel_from_pretrained.
Qed.

Lemma maintains_optimize_onnx_files : maintains Inv (optimize_onnx_files W I).
Proof.
  unfold optimize_onnx_files.
  frame; try apply maintains_attr; try apply maintains_call;
    try apply maintains_onnx_files_names; try apply maintains_save_preprocessors.
  by apply Inv_optimized_model.
Qed.

Lemma maintains_process_quantization_config :
  maintains Inv (process_quantization_config W I).
Proof. unfold process_quantization_config. frame; apply maintains_call. Qed.

Lemma maintains_process_calibration : maintains Inv (process_calibration W I).
Proof.
  unfold process_calibration.
  frame; try apply maintains_call; apply maintains_inputs_names.
Qed.

Lemma maintains_quantize_onnx_file qc ds cc (f : string) :
  maintains Inv (quantize_onnx_file W qc ds cc f).
Proof.
  unfold quantize_onnx_file.
  frame; try apply maintains_attr; apply maintains_call.
Qed.

(** Lines 248-280. *)
Lemma maintains_quantize_loop qc ds cc :
  maintains Inv
    (files ← onnx_files_names W I ;
     for_each files (quantize_onnx_file W qc ds cc) ;;
     dir ← attr "quantized_model" quantized_model ;
     save_preprocessors W dir).
Proof.
  frame.
  - apply maintains_onnx_files_names.
  - apply maintains_quantize_onnx_file.
  - apply maintains_attr.
  - apply maintains_save_preprocessors.
Qed.

Lemma maintains_quantize_onnx_files : maintains Inv (quantize_onnx_files W I).
Proof.
  unfold quantize_onnx_files.
  frame; try apply maintains_attr; try apply maintains_onnx_files_names;
    try apply maintains_process_quantization_config;
    try apply maintains_process_calibration;
    try apply maintains_quantize_onnx_file;
    try apply maintains_save_preprocessors.
  by apply Inv_quantized_model.
Qed.

Lemma maintains_optimize_quantize_reload :
  maintains Inv (optimize_quantize_reload W I).
Proof.
  unfold optimize_quantize_reload.
  frame; try apply maintains_attr; try apply maintains_assign_model;
    try apply maintains_assign_export;
    try apply maintains_optimize_onnx_files;
    try apply maintains_quantize_onnx_files;
    apply maintains_load_ortmodel_from_pretrained.
Qed.

Lemma maintains_process_session_options : maintains Inv (process_session_options W).
Proof.
  unfold process_session_options.
  frame; try apply maintains_attr; try apply maintains_call;
    by apply Inv_session_options.
Qed.

Lemma maintains_create_tmpdir : maintains Inv (create_tmpdir W).
Proof.
  unfold create_tmpdir. frame; try apply maintains_call. by apply Inv_tmpdir.
Qed.

Lemma maintains_tmpdir_cleanup : maintains Inv (tmpdir_cleanup W).
Proof. unfold tmpdir_cleanup. frame; [apply maintains_attr | apply maintains_call]. Qed.

(** Lines 41-77, what [__init__] does once the task is validated. *)
Lemma maintains_init_tail :
  maintains Inv
    (process_session_options W ;;
     create_tmpdir W ;;
     c ← gets config ;
     (if no_weights c then load_ortmodel_with_no_weights W I
      else load_ortmodel_from_pretrained W I) ;;
     optimize_quantize_reload W I ;;
     validate_provider ;;
     tmpdir_cleanup W).
Proof.
  frame.
  - apply maintains_process_session_options.
  - apply maintains_create_tmpdir.
  - apply maintains_load_ortmodel_with_no_weights.
  - apply maintains_load_ortmodel_from_pretrained.
  - apply maintains_optimize_quantize_reload.
  - apply maintains_validate_provider.
  - apply maintains_tmpdir_cleanup.
Qed.

Lemma maintains_clean : maintains Inv (Backend_clean I) → maintains Inv (clean W I).
Proof.
  intros Hbase. unfold clean. frame; [done | | apply maintains_call].
  apply maintains_tmpdir_cleanup.
Qed.

Lemma maintains_prepare_items items (inputs : gmap string value) :
  maintains Inv (prepare_items items inputs).
Proof.
  revert inputs. induction items as [|[key v] items IH]; intros inputs; cbn [prepare_items].
  - frame.
  - frame; try apply IH; try apply maintains_inputs_names. unfold to. frame.
Qed.

Lemma maintains_prepare_inputs (inputs : gmap string value) :
  maintains Inv (Backend_prepare_inputs I inputs) →
  maintains Inv (prepare_inputs I inputs).
Proof.
  intros Hbase. unfold prepare_inputs. frame; [done |].
  apply maintains_prepare_items.
Qed.

End Frame.

End ORT_facts.

Ltac ort_exec := repeat first
  [ rewrite run_attr | rewrite run_assign_model | rewrite run_assign_export
  | rewrite run_call | progress exec ].
Tactic Notation "ort_exec" "in" hyp(H) := repeat first
  [ rewrite run_attr in H | rewrite run_assign_model in H
  | rewrite run_assign_export in H | rewrite run_call in H | progress exec in H ].

#[local] Arguments ORT.is_optimized : simpl never.
#[local] Arguments ORT.is_quantized : simpl never.
#[local] Arguments ORT.is_calibrated : simpl never.

Section ORT_stages.
Import ORT.
Variable W : World.
Variable I : Imports.

(** Optimizing, quantizing and loading do not write to the configuration. *)
Lemma optimize_onnx_files_config (s : State) :
  config (final (optimize_onnx_files W I) s) = config s.
Proof. by apply (maintains_optimize_onnx_files W I (λ s', config s' = config s)). Qed.

Lemma quantize_onnx_files_config (s : State) :
  config (final (quantize_onnx_files W I) s) = config s.
Proof. by apply (maintains_quantize_onnx_files W I (λ s', config s' = config s)). Qed.

Lemma load_ortmodel_from_pretrained_config (s : State) :
  config (final (load_ortmodel_from_pretrained W I) s) = config s.
Proof.
  by apply (maintains_load_ortmodel_from_pretrained W I (λ s', config s' = config s)).
Qed.

Lemma maintains_optimize_stage (c0 : Config) (b : bool) :
  maintains (repointed c0)
    (when b (optimize_onnx_files W I ;;
             dir ← attr "optimized_model" optimized_model ;
             assign_model dir)).
Proof.
  frame.
  - apply maintains_optimize_onnx_files; by intros.
  - apply maintains_attr.
  - apply maintains_assign_model. intros v s [x Hx]. exists v. cbn. by rewrite Hx.
Qed.

Lemma maintains_quantize_stage (c0 : Config) (b : bool) :
  maintains (repointed c0)
    (when b (quantize_onnx_files W I ;;
             dir ← attr "quantized_model" quantized_model ;
             assign_model dir)).
Proof.
  frame.
  - apply maintains_quantize_onnx_files; by intros.
  - apply maintains_attr.
  - apply maintains_assign_model. intros v s [x Hx]. exists v. cbn. by rewrite Hx.
Qed.

(** Lines 57-74, when they run to their end: both fields are back. *)
Lemma ort_stages_restore_run (s s' : State) :
  optimize_quantize_reload W I s = (Ok tt, s') →
  model (config s') = model (config s) ∧ export (config s') = export (config s).
Proof.
  intros H. unfold optimize_quantize_reload in H. exec in H.
  destruct (is_optimized (config s) || is_quantized (config s)) eqn:E.
  - ort_exec in H.
    destruct (pretrained_model s) as [m|]; ort_exec in H; [|done].
    match type of H with context [when ?b ?body ?s0] =>
      pose proof (maintains_optimize_stage (config s) b s0) as [v1 Hv1]; [by eexists|];
      rewrite (run_surjective (when b body) s0) in H;
      destruct (result (when b body) s0); [|done];
      generalize dependent (final (when b body) s0); intros s1 ? ? end.
    exec in H.
    match type of H with context [when ?b ?body ?s0] =>
      pose proof (maintains_quantize_stage (config s) b s0) as [v2 Hv2]; [by eexists|];
      rewrite (run_surjective (when b body) s0) in H;
      destruct (result (when b body) s0); [|done];
      generalize dependent (final (when b body) s0); intros s2 ? ? end.
    exec in H. rewrite Hv2 in H.
    change (is_optimized (set_model v2 (config s))) with (is_optimized (config s)) in H.
    change (is_quantized (set_model v2 (config s))) with (is_quantized (config s)) in H.
    rewrite E in H. unfold when in H. ort_exec in H.
    run_proc H (load_ortmodel_from_pretrained W I)
      ltac:(fun s0 => pose proof (load_ortmodel_from_pretrained_config s0)).
    ort_exec in H. injection H as <-. cbn. by rewrite Hv2.
  - apply orb_false_elim in E as [Eo Eq].
    repeat (exec in H; rewrite ?Eo, ?Eq in H; cbn [orb] in H; rewrite ?when_false in H).
    by injection H as <-.
Qed.

End ORT_stages.

(** ** The openvino backend *)

#[local] Arguments OV.call : simpl never.
#[local] Arguments OV.attr : simpl never.
#[local] Arguments OV.assign_model : simpl never.
#[local] Arguments OV.assign_export : simpl never.
#[local] Arguments OV.assign_openvino_config : simpl never.
#[local] Arguments OV.with_random_init_weights : simpl never.
#[local] Arguments OV.validate_task : simpl never.
#[local] Arguments OV.create_no_weights_model : simpl never.
#[local] Arguments OV.load_automodel_from_pretrained : simpl never.
#[local] Arguments OV.load_automodel_with_no_weights : simpl never.
#[local] Arguments OV.load_ovmodel_from_pretrained : simpl never.
#[local] Arguments OV.load_ovmodel_with_no_weights : simpl never.
#[local] Arguments OV.quantize_automodel : simpl never.
#[local] Arguments OV.quantize_and_reload : simpl never.
#[local] Arguments OV.set_inter_op_num_threads : simpl never.
#[local] Arguments OV.create_tmpdir : simpl never.
#[local] Arguments OV.tmpdir_cleanup : simpl never.

Section OV_facts.
Import OV.
Variable W : World.
Variable I : Imports.

Lemma ov_run_call (ev : Event) (s : State) :
  call W ev s =
  (match fails W (trace s) ev with Some ex => Raise ex | None => Ok tt end, log ev s).
Proof. unfold call. by destruct (fails W (trace s) ev). Qed.

Lemma ov_run_attr {A} (name : string) (f : State → option A) (s : State) :
  attr name f s =
  (match f s with Some a => Ok a | None => Raise (AttributeError name) end, s).
Proof. unfold attr. exec. by destruct (f s). Qed.

Lemma ov_run_assign_model (v : string) (s : State) :
  assign_model v s = (Ok tt, set_config (set_model v (config s)) s).
Proof. done. Qed.

Lemma ov_run_assign_export (v : bool) (s : State) :
  assign_export v s = (Ok tt, set_config (set_export v (config s)) s).
Proof. done. Qed.

Lemma ov_run_assign_openvino_config (d : kwargs) (s : State) :
  assign_openvino_config d s = (Ok tt, set_config (set_openvino_config d (config s)) s).
Proof. done. Qed.

(** *** What the procedures leave alone *)
Section Frame.
Variable Inv : State → Prop.
Hypothesis Inv_log : ∀ ev s, Inv s → Inv (log ev s).
Hypothesis Inv_ovmodel_class : ∀ v s, Inv s → Inv (set_ovmodel_class v s).
Hypothesis Inv_tmpdir : ∀ v s, Inv s → Inv (set_tmpdir v s).
Hypothesis Inv_no_weights_model : ∀ v s, Inv s → Inv (set_no_weights_model v s).
Hypothesis Inv_pretrained_model : ∀ v s, Inv s → Inv (set_pretrained_model v s).
Hypothesis Inv_quantized_model : ∀ v s, Inv s → Inv (set_quantized_model v s).
Hypothesis Inv_model : ∀ v s, Inv s → Inv (set_config (set_model v (config s)) s).
Hypothesis Inv_export : ∀ v s, Inv s → Inv (set_config (set_export v (config s)) s).

Lemma ov_maintains_call (ev : Event) : maintains Inv (call W ev).
Proof. intros s Hs. unfold final. rewrite ov_run_call. by apply Inv_log. Qed.

Lemma ov_maintains_attr {A} (name : string) (f : State → option A) :
  maintains Inv (attr name f).
Proof. unfold attr. frame. Qed.

Lemma ov_maintains_assign_model (v : string) : maintains Inv (assign_model v).
Proof. unfold assign_model. frame. by apply Inv_model. Qed.

Lemma ov_maintains_assign_export (v : bool) : maintains Inv (assign_export v).
Proof. unfold assign_export. frame. by apply Inv_export. Qed.

Lemma ov_maintains_with_random_init_weights (body : M State unit) :
  maintains Inv body → maintains Inv (with_random_init_weights W body).
Proof.
  intros Hbody s Hs. unfold final, with_random_init_weights.
  rewrite !ov_run_call.
  destruct (fails W (trace s) EvRandomInitEnter); cbn; [by apply Inv_log |].
  specialize (Hbody (log EvRandomInitEnter s) (Inv_log _ _ Hs)). unfold final in Hbody.
  destruct (body (log EvRandomInitEnter s)) as [[[]|ex] s2]; cbn in *;
    rewrite ov_run_call; destruct (fails W (trace s2) EvRandomInitExit); cbn;
    by apply Inv_log.
Qed.

Lemma ov_maintains_validate_task : maintains Inv (validate_task W I).
Proof.
  unfold validate_task. frame; (apply ov_maintains_call || by apply Inv_ovmodel_class).
Qed.

Lemma ov_maintains_create_no_weights_model : maintains Inv (create_no_weights_model W).
Proof.
  unfold create_no_weights_model.
  frame; try apply ov_maintains_attr; try apply ov_maintains_call.
  by apply Inv_no_weights_model.
Qed.

Lemma ov_maintains_load_automodel_from_pretrained :
  maintains Inv (load_automodel_from_pretrained W).
Proof.
  unfold load_automodel_from_pretrained.
  frame; try apply ov_maintains_attr; try apply ov_maintains_call.
  by apply Inv_pretrained_model.
Qed.

Lemma ov_maintains_load_automodel_with_no_weights :
  maintains Inv (load_automodel_with_no_weights W).
Proof.
  unfold load_automodel_with_no_weights.
  frame; try apply ov_maintains_attr; try apply ov_maintains_call.
  - apply ov_maintains_create_no_weights_model.
  - apply ov_maintains_with_random_init_weights.
    frame; try apply ov_maintains_attr; try apply ov_maintains_assign_model.
    apply ov_maintains_load_automodel_from_pretrained.
Qed.

Lemma ov_maintains_load_ovmodel_from_pretrained :
  maintains Inv (load_ovmodel_from_pretrained W I).
Proof.
  unfold load_ovmodel_from_pretrained.
  frame; try apply ov_maintains_attr; try apply ov_maintains_call.
  by apply Inv_pretrained_model.
Qed.

Lemma ov_maintains_load_ovmodel_with_no_weights :
  maintains Inv (load_ovmodel_with_no_weights W I).
Proof.
  unfold load_ovmodel_with_no_weights.
  apply maintains_bind; [apply ov_maintains_create_no_weights_model | intros _].
  apply ov_maintains_with_random_init_weights.
  frame; try apply ov_maintains_attr; try apply ov_maintains_assign_model;
    try apply ov_maintains_assign_export.
  apply ov_maintains_load_ovmodel_from_pretrained.
Qed.

Lemma ov_maintains_quantize_automodel : maintains Inv (quantize_automodel W).
Proof.
  unfold quantize_automodel.
  frame; try apply ov_maintains_attr; try apply ov_maintains_call.
  by apply Inv_quantized_model.
Qed.

Lemma ov_maintains_quantize_and_reload : maintains Inv (quantize_and_reload W I).
Proof.
  unfold quantize_and_reload.
  frame; try apply ov_maintains_attr; try apply ov_maintains_assign_model;
    try apply ov_maintains_assign_export.
  - apply ov_maintains_load_automodel_with_no_weights.
  - apply ov_maintains_load_automodel_from_pretrained.
  - apply ov_maintains_quantize_automodel.
  - apply ov_maintains_load_ovmodel_from_pretrained.
Qed.

Lemma ov_maintains_create_tmpdir : maintains Inv (create_tmpdir W).
Proof.
  unfold create_tmpdir. frame; try apply ov_maintains_call. by apply Inv_tmpdir.
Qed.

Lemma ov_maintains_tmpdir_cleanup : maintains Inv (tmpdir_cleanup W).
Proof.
  unfold tmpdir_cleanup. frame; [apply ov_maintains_attr | apply ov_maintains_call].
Qed.

Lemma ov_maintains_clean : maintains Inv (Backend_clean I) → maintains Inv (clean W I).
Proof.
  intros Hbase. unfold clean. frame; [done | | apply ov_maintains_call].
  apply ov_maintains_tmpdir_cleanup.
Qed.

Lemma ov_maintains_prepare_inputs (inputs : gmap string value) :
  maintains Inv (Backend_prepare_inputs I inputs) →
  maintains Inv (prepare_inputs I inputs).
Proof. intros Hbase. unfold prepare_inputs. by frame. Qed.

(** Lines 41-68, what [__init__] does after the thread count. *)
Lemma ov_maintains_init_tail :
  maintains Inv
    (create_tmpdir W ;;
     c ← gets config ;
     (if quantization c then quantize_and_reload W I
      else if no_weights c then load_ovmodel_with_no_weights W I
      else load_ovmodel_from_pretrained W I) ;;
     tmpdir_cleanup W).
Proof.
  frame.
  - apply ov_maintains_create_tmpdir.
  - apply ov_maintains_quantize_and_reload.
  - apply ov_maintains_load_ovmodel_with_no_weights.
  - apply ov_maintains_load_ovmodel_from_pretrained.
  - apply ov_maintains_tmpdir_cleanup.
Qed.

End Frame.

End OV_facts.

Ltac ov_exec := repeat first
  [ rewrite ov_run_attr | rewrite ov_run_assign_model | rewrite ov_run_assign_export
  | rewrite ov_run_assign_openvino_config | rewrite ov_run_call | progress exec ].
Tactic Notation "ov_exec" "in" hyp(H) := repeat first
  [ rewrite ov_run_attr in H | rewrite ov_run_assign_model in H
  | rewrite ov_run_assign_export in H | rewrite ov_run_assign_openvino_config in H
  | rewrite ov_run_call in H | progress exec in H ].

Section OV_stages.
Import OV.
Variable W : World.
Variable I : Imports.

(** A body under [random_init_weights] that has run to its end. *)
Lemma ov_with_random_init_weights_ok (body : M State unit) (s : State) :
  result (with_random_init_weights W body) s = Ok tt →
  ∃ s2, body (log EvRandomInitEnter s) = (Ok tt, s2)
        ∧ final (with_random_init_weights W body) s = log EvRandomInitExit s2.
Proof.
  unfold result, final, with_random_init_weights. rewrite ov_run_call.
  destruct (fails W (trace s) EvRandomInitEnter); cbn; [done |].
  destruct (body (log EvRandomInitEnter s)) as [[[]|ex] s2]; cbn;
    rewrite ov_run_call; destruct (fails W (trace s2) EvRandomInitExit); cbn; try done.
  intros _. by exists s2.
Qed.

Lemma ov_create_no_weights_model_config (s : State) :
  config (final (create_no_weights_model W) s) = config s.
Proof.
  by apply (ov_maintains_create_no_weights_model W (λ s', config s' = config s)).
Qed.

Lemma ov_load_automodel_from_pretrained_config (s : State) :
  config (final (load_automodel_from_pretrained W) s) = config s.
Proof.
  by apply (ov_maintains_load_automodel_from_pretrained W (λ s', config s' = config s)).
Qed.

Lemma ov_load_ovmodel_from_pretrained_config (s : State) :
  config (final (load_ovmodel_from_pretrained W I) s) = config s.
Proof.
  by apply (ov_maintains_load_ovmodel_from_pretrained W I (λ s', config s' = config s)).
Qed.

Lemma ov_quantize_automodel_config (s : State) :
  config (final (quantize_automodel W) s) = config s.
Proof. by apply (ov_maintains_quantize_automodel W (λ s', config s' = config s)). Qed.

Lemma ov_set_model_model (c : Config) : set_model (model c) c = c.
Proof. by destruct c. Qed.

Lemma ov_set_export_export (c : Config) : set_export (export c) c = c.
Proof. by destruct c. Qed.

(** Lines 91-102, when they run to their end: the configuration is the one
    they started with. *)
Lemma ov_load_automodel_with_no_weights_restores (s : State) :
  result (load_automodel_with_no_weights W) s = Ok tt →
  config (final (load_automodel_with_no_weights W) s) = config s.
Proof.
  unfold result, final. intros H.
  destruct (load_automodel_with_no_weights W s) as [r s'] eqn:Hrun.
  cbn in *. subst r. unfold load_automodel_with_no_weights in Hrun. exec in Hrun.
  run_proc Hrun (create_no_weights_model W)
    ltac:(fun s0 => pose proof (ov_create_no_weights_model_config s0) as Hc1).
  exec in Hrun.
  match type of Hrun with context [with_random_init_weights W ?body ?s0] =>
    pose proof (ov_with_random_init_weights_ok body s0) as Hbody;
    rewrite (run_surjective (with_random_init_weights W body) s0) in Hrun;
    destruct (result (with_random_init_weights W body) s0) as [[]|]; [|done];
    destruct Hbody as (s2 & Hbody & Hfin); [done|]; rewrite Hfin in Hrun; clear Hfin
  end.
  ov_exec in Hbody.
  match type of Hbody with context [no_weights_model ?s0] =>
    destruct (no_weights_model s0) as [dir|]; [|done] end.
  ov_exec in Hbody.
  run_proc Hbody (load_automodel_from_pretrained W)
    ltac:(fun s0 => pose proof (ov_load_automodel_from_pretrained_config s0) as Hc2).
  ov_exec in Hbody. injection Hbody as <-.
  ov_exec in Hrun.
  match type of Hrun with context [pretrained_model ?s0] =>
    destruct (pretrained_model s0); [|done] end.
  ov_exec in Hrun. injection Hrun as _ <-.
  cbn. rewrite Hc2. cbn. rewrite <- Hc1. by destruct (config s0).
Qed.

(** Lines 44-59, when they run to their end: both fields are back. *)
Lemma ov_quantize_and_reload_restores_run (s s' : State) :
  quantize_and_reload W I s = (Ok tt, s') →
  model (config s') = model (config s) ∧ export (config s') = export (config s).
Proof.
  intros H. unfold quantize_and_reload in H. exec in H.
  assert (∃ s1, config s1 = config s ∧
            (quantize_automodel W ;;
             c ← gets config ;
             dir ← attr "quantized_model" quantized_model ;
             let original_model := model c in
             assign_model dir ;;
             c ← gets config ;
             let original_export := export c in
             assign_export false ;;
             load_ovmodel_from_pretrained W I ;;
             assign_model original_model ;;
             assign_export original_export) s1 = (Ok tt, s')) as (s1 & Hc1 & H1).
  { destruct (no_weights (config s)).
    - pose proof (ov_load_automodel_with_no_weights_restores s) as Hr.
      rewrite (run_surjective (load_automodel_with_no_weights W) s) in H.
      destruct (result (load_automodel_with_no_weights W) s) as [[]|]; [|done].
      eexists. split; [by apply Hr | exact H].
    - pose proof (ov_load_automodel_from_pretrained_config s) as Hr.
      rewrite (run_surjective (load_automodel_from_pretrained W) s) in H.
      destruct (result (load_automodel_from_pretrained W) s) as [[]|]; [|done].
      eexists. split; [exact Hr | exact H]. }
  clear H. exec in H1.
  run_proc H1 (quantize_automodel W)
    ltac:(fun s0 => pose proof (ov_quantize_automodel_config s0) as Hc2).
  ov_exec in H1.
  match type of H1 with context [quantized_model ?s0] =>
    destruct (quantized_model s0) as [dir|]; [|done] end.
  ov_exec in H1.
  run_proc H1 (load_ovmodel_from_pretrained W I)
    ltac:(fun s0 => pose proof (ov_load_ovmodel_from_pretrained_config s0) as Hc3).
  ov_exec in H1. injection H1 as <-. cbn. by rewrite Hc2, Hc1.
Qed.

(** Lines 77-89, when they run to their end. *)
Lemma ov_create_no_weights_model_ok (s : State) :
  result (create_no_weights_model W) s = Ok tt →
  ∃ tmp, tmpdir s = Some tmp ∧
    let dir := path_join tmp "no_weights_model" in
    let s' := final (create_no_weights_model W) s in
    no_weights_model s' = Some dir
    ∧ ovmodel_class s' = ovmodel_class s
    ∧ trace s' =
        (trace s ++ [EvMakedirs dir; EvSaveFile (path_join dir "model.safetensors")]
                 ++ (if bool_decide (library (config s) = "transformers")
                     then [EvSavePretrainedConfig dir] else []))%list.
Proof.
  unfold result, final, create_no_weights_model. ov_exec.
  destruct (tmpdir s) as [tmp|]; ov_exec; [|done].
  destruct (fails W (trace s) _); ov_exec; [done|].
  destruct (fails W (trace s ++ _) _); ov_exec; [done|].
  destruct (bool_decide (library (config s) = "transformers")).
  - rewrite when_true. ov_exec.
    destruct (pretrained_config s); ov_exec; [|done].
    destruct (fails W _ _); ov_exec; [done|].
    intros _. exists tmp. by rewrite <- ?app_assoc.
  - rewrite when_false. ov_exec. intros _. exists tmp. by rewrite <- ?app_assoc.
Qed.

(** C10. A no-weights load of the OVModel that returns has asked the
    library for the synthetic directory with [export=True], whatever the
    configuration says, and has left [model] and [export] as it found
    them. *)
Theorem ov_no_weights_load_repoints_and_restores (s : State) :
  result (load_ovmodel_with_no_weights W I) s = Ok tt →
  let s' := final (load_ovmodel_with_no_weights W I) s in
  model (config s') = model (config s)
  ∧ export (config s') = export (config s)
  ∧ ∃ tmp cls,
      tmpdir s = Some tmp ∧ ovmodel_class s = Some cls ∧
      let dir := path_join tmp "no_weights_model" in
      trace s' =
        (trace s
           ++ [EvMakedirs dir; EvSaveFile (path_join dir "model.safetensors")]
           ++ (if bool_decide (library (config s) = "transformers")
               then [EvSavePretrainedConfig dir] else [])
           ++ [EvRandomInitEnter;
               EvOVModelFromPretrained cls
                 {| la_model := dir; la_export := true;
                    la_ov_config := openvino_config (config s);
                    la_device := device (config s);
                    la_hub_kwargs := hub_kwargs (config s);
                    la_kwargs := ovmodel_kwargs I (config s) |};
               EvRandomInitExit])%list.
Proof.
  unfold result, final. intros H.
  destruct (load_ovmodel_with_no_weights W I s) as [r s'] eqn:Hrun.
  cbn in *. subst r. unfold load_ovmodel_with_no_weights in Hrun. exec in Hrun.
  pose proof (ov_create_no_weights_model_ok s) as Hcreate.
  pose proof (ov_create_no_weights_model_config s) as Hc1.
  rewrite (run_surjective (create_no_weights_model W) s) in Hrun.
  destruct (result (create_no_weights_model W) s) as [[]|]; [|done].
  destruct Hcreate as (tmp & Htmp & Hdir & Hcls & Htrace); [done|].
  generalize dependent (final (create_no_weights_model W) s). intros s0 Hrun Hc1 Hdir Hcls Htrace.
  match type of Hrun with context [with_random_init_weights W ?body ?s0] =>
    pose proof (ov_with_random_init_weights_ok body s0) as Hbody;
    rewrite (run_surjective (with_random_init_weights W body) s0) in Hrun;
    destruct (result (with_random_init_weights W body) s0) as [[]|]; [|done];
    destruct Hbody as (s2 & Hbody & Hfin); [done|]; rewrite Hfin in Hrun; clear Hfin
  end.
  injection Hrun as <-.
  ov_exec in Hbody. rewrite Hdir in Hbody. ov_exec in Hbody.
  unfold load_ovmodel_from_pretrained in Hbody. ov_exec in Hbody.
  rewrite Hcls in Hbody.
  destruct (ovmodel_class s) as [cls|]; ov_exec in Hbody; [|done].
  destruct (fails W _ _); ov_exec in Hbody; [done|].
  injection Hbody as <-. cbn. rewrite Hc1, Htrace.
  split_and!; [done..|].
  exists tmp, cls. split_and!; [done..|].
  rewrite <- !app_assoc. cbn. by destruct (bool_decide _).
Qed.

Lemma ov_validate_task_config (s : State) :
  config (final (validate_task W I) s) = config s.
Proof. by apply (ov_maintains_validate_task W I (λ s', config s' = config s)). Qed.

(** C8. Once the task is validated, a thread count in the configuration
    is written into [openvino_config] under openvino's key, and the entry is
    there when [__init__] is over, whether it returned or raised. *)
Theorem ov_init_writes_thread_count (s : State) (n : Z) :
  result (Backend_init I) s = Ok tt →
  let s1 := final (Backend_init I) s in
  result (validate_task W I) s1 = Ok tt →
  inter_op_num_threads (config s1) = Some n →
  openvino_config (config (final (__init__ W I) s)) =
    <[inference_num_threads I := PInt n]> (openvino_config (config s1)).
Proof.
  intros Hbase s1 Htask Hn. unfold final, __init__.
  rewrite run_bind, (run_surjective (Backend_init I) s), Hbase. fold s1.
  rewrite run_bind, (run_surjective (validate_task W I) s1), Htask.
  pose proof (ov_validate_task_config s1) as Hc.
  generalize dependent (final (validate_task W I) s1). intros s2 Hc.
  rewrite run_bind. unfold set_inter_op_num_threads at 1. ov_exec.
  rewrite Hc, Hn. ov_exec.
  by apply (ov_maintains_init_tail W I
              (λ s', openvino_config (config s') =
                     <[inference_num_threads I := PInt n]> (openvino_config (config s1)))).
Qed.

End OV_stages.

(** ** The restore discipline *)

(** C1 (amended). When the Optimize and Quantize stages and the reload
    after them run to their end, [model] and [export] have the values they
    had before: lines 57-74 of the onnxruntime backend, lines 44-59 of the
    openvino backend. *)
Theorem stages_restore_model_and_export_on_success :
  (∀ (W : ORT.World) (I : ORT.Imports) (s : ORT.State),
     result (ORT.optimize_quantize_reload W I) s = Ok tt →
     let s' := final (ORT.optimize_quantize_reload W I) s in
     ORT.model (ORT.config s') = ORT.model (ORT.config s)
     ∧ ORT.export (ORT.config s') = ORT.export (ORT.config s))
  ∧ (∀ (W : OV.World) (I : OV.Imports) (s : OV.State),
       result (OV.quantize_and_reload W I) s = Ok tt →
       let s' := final (OV.quantize_and_reload W I) s in
       OV.model (OV.config s') = OV.model (OV.config s)
       ∧ OV.export (OV.config s') = OV.export (OV.config s)).
Proof.
  split; intros W I s H s'.
  - apply (ort_stages_restore_run W I s s').
    by rewrite (run_surjective (ORT.optimize_quantize_reload W I) s), H.
  - apply (ov_quantize_and_reload_restores_run W I s s').
    by rewrite (run_surjective (OV.quantize_and_reload W I) s), H.
Qed.

Lemma stages_restore_model_and_export_on_success_witness :
  (result (ORT.optimize_quantize_reload Scenario.ort_world Scenario.ort_imports)
     (Scenario.ort_loaded Scenario.ort_config) = Ok tt
   ∧ ORT.model (ORT.config
       (final (ORT.optimize_quantize_reload Scenario.ort_world Scenario.ort_imports)
          (Scenario.ort_loaded Scenario.ort_config))) = "bert-base-uncased"
   ∧ ORT.export (ORT.config
       (final (ORT.optimize_quantize_reload Scenario.ort_world Scenario.ort_imports)
          (Scenario.ort_loaded Scenario.ort_config))) = true)
  ∧ (result (OV.quantize_and_reload Scenario.ov_world Scenario.ov_imports)
       (Scenario.ov_validated Scenario.ov_config) = Ok tt
     ∧ OV.model (OV.config
         (final (OV.quantize_and_reload Scenario.ov_world Scenario.ov_imports)
            (Scenario.ov_validated Scenario.ov_config))) = "bert-base-uncased"
     ∧ OV.export (OV.config
         (final (OV.quantize_and_reload Scenario.ov_world Scenario.ov_imports)
            (Scenario.ov_validated Scenario.ov_config))) = true).
Proof.
  destruct stages_restore_model_and_export_on_success as [Hort Hov].
  split.
  - split; [vm_compute; reflexivity |].
    apply (Hort Scenario.ort_world Scenario.ort_imports
             (Scenario.ort_loaded Scenario.ort_config)).
    vm_compute; reflexivity.
  - split; [vm_compute; reflexivity |].
    apply (Hov Scenario.ov_world Scenario.ov_imports
             (Scenario.ov_validated Scenario.ov_config)).
    vm_compute; reflexivity.
Defined.

(** C1 as stated fails when a stage raises. If the optimizer raises,
    [model] is left at the directory of the exported model. If the
    optimization succeeds and the reload of line 73 raises, [model] is left
    at the optimized directory and [export] at [False]. They were
    ["bert-base-uncased"] and [True]. *)
Lemma stages_leak_model_and_export_on_failure :
  let s := Scenario.ort_loaded Scenario.ort_config in
  let s1 := final (ORT.optimize_quantize_reload Scenario.ort_optimize_fails
                     Scenario.ort_imports) s in
  let s2 := final (ORT.optimize_quantize_reload Scenario.ort_reload_fails
                     Scenario.ort_imports) s in
  ORT.is_optimized (ORT.config s) = true
  ∧ ORT.model (ORT.config s) = "bert-base-uncased"
  ∧ ORT.export (ORT.config s) = true
  ∧ result (ORT.optimize_quantize_reload Scenario.ort_optimize_fails
              Scenario.ort_imports) s = Raise (LibraryError "cannot optimize")
  ∧ ORT.model (ORT.config s1) = "/cache/bert-base-uncased-onnx"
  ∧ result (ORT.optimize_quantize_reload Scenario.ort_reload_fails
              Scenario.ort_imports) s = Raise (LibraryError "cannot load")
  ∧ ORT.model (ORT.config s2) = "/tmp/tmpdir/optimized"
  ∧ ORT.export (ORT.config s2) = false
  ∧ ORT.model (ORT.config s1) ≠ ORT.model (ORT.config s)
  ∧ ORT.model (ORT.config s2) ≠ ORT.model (ORT.config s)
  ∧ ORT.export (ORT.config s2) ≠ ORT.export (ORT.config s).
Proof.
  cbv zeta. split_and!; try (vm_compute; reflexivity); vm_compute; discriminate.
Qed.

(** ** Presets before manual configurations *)

Section ORT_precedence.
Import ORT.
Variable W : World.
Variable I : Imports.

Section Extends.
Variable ok : Event → Prop.
Variable tr0 : list Event.

Lemma extends_refl (s : State) : trace s = tr0 → extends ok tr0 s.
Proof. intros <-. exists []. by rewrite app_nil_r. Qed.

Lemma extends_log (ev : Event) (s : State) :
  ok ev → extends ok tr0 s → extends ok tr0 (log ev s).
Proof.
  intros Hev (new & Htr & Hok). exists (new ++ [ev]). cbn. rewrite Htr, app_assoc.
  split; [done |]. apply Forall_app. split; [done | by constructor].
Qed.

Lemma extends_call (ev : Event) : ok ev → maintains (extends ok tr0) (call W ev).
Proof. intros Hev s Hs. unfold final. rewrite run_call. by apply extends_log. Qed.

Lemma extends_save_preprocessors (dir : string) :
  ok (EvSavePretrainedProcessor dir) → ok (EvSavePretrainedConfig dir) →
  maintains (extends ok tr0) (save_preprocessors W dir).
Proof. intros H1 H2. unfold save_preprocessors. frame; by apply extends_call. Qed.

Lemma extends_process_quantization_config :
  (∀ c, ok (EvQuantizationCfg c)) →
  maintains (extends ok tr0) (process_quantization_config W I).
Proof. intros H. unfold process_quantization_config. frame; by apply extends_call. Qed.

Lemma extends_process_calibration :
  (∀ t d m, ok (EvDatasetGenerator t d m)) → (∀ c, ok (EvCalibrationCfg c)) →
  maintains (extends ok tr0) (process_calibration W I).
Proof.
  intros H1 H2. unfold process_calibration.
  frame; try (by apply extends_call); apply maintains_inputs_names.
Qed.

Lemma extends_quantize_onnx_file qc ds cc (f : string) :
  (∀ m, ok (EvQuantizerFromPretrained m f)) →
  (∀ d g c q, ds = Some d → cc = Some c → qc = Some q → ok (EvFit f d g c q)) →
  (∀ dir q r, qc = Some q → ok (EvQuantize f dir q r)) →
  maintains (extends ok tr0) (quantize_onnx_file W qc ds cc f).
Proof.
  intros H1 H2 H3. unfold quantize_onnx_file.
  destruct qc, ds, cc; frame;
    try apply maintains_attr; try (apply extends_call; by eauto).
Qed.

(** Lines 248-280, once the three locals are known. *)
Lemma extends_quantize_loop qc ds cc :
  (∀ m f, ok (EvQuantizerFromPretrained m f)) →
  (∀ f d g c q, ds = Some d → cc = Some c → qc = Some q → ok (EvFit f d g c q)) →
  (∀ f dir q r, qc = Some q → ok (EvQuantize f dir q r)) →
  (∀ dir, ok (EvSavePretrainedProcessor dir)) →
  (∀ dir, ok (EvSavePretrainedConfig dir)) →
  maintains (extends ok tr0)
    (files ← onnx_files_names W I ;
     for_each files (quantize_onnx_file W qc ds cc) ;;
     dir ← attr "quantized_model" quantized_model ;
     save_preprocessors W dir).
Proof.
  intros H1 H2 H3 H4 H5. frame.
  - apply maintains_onnx_files_names.
  - apply extends_quantize_onnx_file; eauto.
  - apply maintains_attr.
  - by apply extends_save_preprocessors.
Qed.

End Extends.

Lemma is_calibrated_auto (c : Config) (method : string) :
  auto_calibration c = Some method → is_calibrated c = true.
Proof. intros H. unfold is_calibrated. by rewrite H. Qed.

(** The preset for the optimization, lines 174-202. *)
Lemma optimize_uses_preset (s : State) (level : string) :
  auto_optimization (config s) = Some level →
  let a := AutoOptimizationConfig level (bool_decide (device (config s) = "cuda"))
             (auto_optimization_config (config s)) in
  let s' := final (optimize_onnx_files W I) s in
  extends (only_optimization a) (trace s) s'
  ∧ (result (optimize_onnx_files W I) s = Ok tt →
     EvOptimizationCfg a ∈ trace s' ∧ ∃ dir, EvOptimize a dir ∈ trace s').
Proof.
  intros Hauto a s'. subst s'. unfold result, final, optimize_onnx_files.
  ort_exec. destruct (tmpdir s) as [tmp|]; ort_exec;
    [| split; [by apply extends_refl | done]].
  rewrite Hauto. ort_exec. fold a.
  destruct (fails W (trace s) (EvOptimizationCfg a)); ort_exec.
  { split; [| done]. apply extends_log; [done | by apply extends_refl]. }
  match goal with |- context [onnx_files_names W I ?s0] =>
    rewrite (run_surjective (onnx_files_names W I) s0), onnx_files_names_final;
    destruct (result (onnx_files_names W I) s0) as [files|]
  end; ort_exec.
  2: { split; [| done]. apply extends_log; [done | by apply extends_refl]. }
  destruct (fails W _ (EvOptimizerFromPretrained _ _)); ort_exec.
  { split; [| done]. repeat (apply extends_log; [done |]). by apply extends_refl. }
  destruct (fails W _ (EvOptimize _ _)); ort_exec.
  { split; [| done]. repeat (apply extends_log; [done |]). by apply extends_refl. }
  match goal with |- context [save_preprocessors W ?dir ?s0] =>
    pose proof (extends_save_preprocessors (only_optimization a) (trace s) dir
                  ltac:(done) ltac:(done) s0) as Hext;
    pose proof (maintains_save_preprocessors W (λ s1, EvOptimizationCfg a ∈ trace s1)
                  ltac:(by intros; apply elem_of_app; left) dir s0) as Hin1;
    pose proof (maintains_save_preprocessors W (λ s1, EvOptimize a dir ∈ trace s1)
                  ltac:(by intros; apply elem_of_app; left) dir s0) as Hin2
  end.
  unfold final in *. split.
  - apply Hext. repeat (apply extends_log; [done |]). by apply extends_refl.
  - intros _. split; [apply Hin1 | eexists; apply Hin2]; cbn; set_solver.
Qed.

Lemma inputs_names_final (s : State) : final inputs_names s = s.
Proof.
  unfold final, inputs_names. ort_exec.
  destruct (pretrained_model s) as [m|]; ort_exec; [| done].
  destruct (inputs_names_attr m); ort_exec; [done |].
  destruct (input_names_attr m); by ort_exec.
Qed.

(** Lines 223-280 keep whatever the trace has. *)
Lemma maintains_quantize_rest (ev : Event) qc :
  maintains (λ s, ev ∈ trace s)
    ('(ds, cc) ← process_calibration W I ;
     files ← onnx_files_names W I ;
     for_each files (quantize_onnx_file W qc ds cc) ;;
     dir ← attr "quantized_model" quantized_model ;
     save_preprocessors W dir).
Proof.
  assert (Hlog : ∀ ev' s, ev ∈ trace s → ev ∈ trace (log ev' s))
    by (intros; apply elem_of_app; by left).
  frame.
  - by apply maintains_process_calibration.
  - apply maintains_onnx_files_names.
  - by apply maintains_quantize_onnx_file.
  - apply maintains_attr.
  - by apply maintains_save_preprocessors.
Qed.

(** The preset for the quantization, lines 204-280. *)
Lemma quantize_uses_preset (s : State) (preset : string) :
  auto_quantization (config s) = Some preset →
  let a := AutoQuantizationConfig preset
             (format_quantization_config I (auto_quantization_config (config s))) in
  let s' := final (quantize_onnx_files W I) s in
  extends (only_quantization a) (trace s) s'
  ∧ (result (quantize_onnx_files W I) s = Ok tt → EvQuantizationCfg a ∈ trace s').
Proof.
  intros Hauto a s'. subst s'. unfold result, final, quantize_onnx_files.
  ort_exec. destruct (tmpdir s) as [tmp|]; ort_exec;
    [| split; [by apply extends_refl | done]].
  set (s1 := set_quantized_model _ s).
  assert (Hrest : ∀ s2, trace s2 = trace s → config s2 = config s →
    let r := (quantization_config ← process_quantization_config W I ;
              '(ds, cc) ← process_calibration W I ;
              files ← onnx_files_names W I ;
              for_each files (quantize_onnx_file W quantization_config ds cc) ;;
              dir ← attr "quantized_model" quantized_model ;
              save_preprocessors W dir) s2 in
    extends (only_quantization a) (trace s) r.2
    ∧ (r.1 = Ok tt → EvQuantizationCfg a ∈ trace r.2)).
  { intros s2 Htr Hc. cbv zeta. unfold process_quantization_config.
    ort_exec. rewrite Hc, Hauto. ort_exec. fold a. rewrite Htr.
    destruct (fails W (trace s) (EvQuantizationCfg a)); ort_exec.
    { split; [| done]. apply extends_log; [done | by apply extends_refl]. }
    split.
    - apply (maintains_bind _ (process_calibration W I)).
      + by apply extends_process_calibration.
      + intros [ds cc]. apply extends_quantize_loop; try done.
        * by intros ????? _ _ [= <-].
        * by intros ???? [= <-].
      + apply extends_log; [done | by apply extends_refl].
    - intros _. apply (maintains_quantize_rest (EvQuantizationCfg a) (Some a)).
      cbn. set_solver. }
  destruct (is_calibrated (config s)); ort_exec.
  - rewrite (run_surjective (onnx_files_names W I) s1), onnx_files_names_final.
    destruct (result (onnx_files_names W I) s1) as [files|]; ort_exec;
      [| split; [by apply extends_refl | done]].
    destruct (bool_decide (1 < length files)); ort_exec;
      [split; [by apply extends_refl | done] |].
    by apply Hrest.
  - by apply Hrest.
Qed.

(** The preset for the calibration, lines 204-280. *)
Lemma calibrate_uses_preset (s : State) (method : string) :
  auto_calibration (config s) = Some method →
  let kw := auto_calibration_config (config s) in
  let s' := final (quantize_onnx_files W I) s in
  extends (only_auto_calibration method kw) (trace s) s'
  ∧ (result (quantize_onnx_files W I) s = Ok tt →
     ∃ ds, EvCalibrationCfg (AutoCalibrationConfig method ds kw) ∈ trace s').
Proof.
  intros Hauto kw s'. subst s'. unfold result, final, quantize_onnx_files.
  pose proof (is_calibrated_auto _ _ Hauto) as Hcal.
  ort_exec. destruct (tmpdir s) as [tmp|]; ort_exec;
    [| split; [by apply extends_refl | done]].
  set (s1 := set_quantized_model _ s). rewrite Hcal.
  rewrite run_bind, (run_surjective (onnx_files_names W I) s1), onnx_files_names_final.
  destruct (result (onnx_files_names W I) s1) as [files|]; ort_exec;
    [| split; [by apply extends_refl | done]].
  destruct (bool_decide (1 < length files)); ort_exec;
    [split; [by apply extends_refl | done] |].
  pose proof (extends_process_quantization_config (only_auto_calibration method kw)
                (trace s) ltac:(done) s1 ltac:(by apply extends_refl)) as Hext.
  pose proof (maintains_process_quantization_config W I (λ s2, config s2 = config s)
                ltac:(done) s1 ltac:(done)) as Hc.
  rewrite (run_surjective (process_quantization_config W I) s1).
  destruct (result (process_quantization_config W I) s1) as [qc|]; ort_exec;
    [| by split].
  generalize dependent (final (process_quantization_config W I) s1). intros s2 Hext Hc.
  unfold process_calibration. ort_exec. rewrite Hc, Hcal. ort_exec.
  destruct (fails W (trace s2) _); ort_exec.
  { split; [| done]. by apply extends_log. }
  match goal with |- context [inputs_names ?s0] =>
    rewrite (run_surjective inputs_names s0), inputs_names_final;
    destruct (result inputs_names s0) as [names|]
  end; ort_exec.
  2: { split; [| done]. by apply extends_log. }
  rewrite Hauto. ort_exec. fold kw.
  match goal with |- context [EvCalibrationCfg ?c] => set (cc := c) end.
  destruct (fails W _ (EvCalibrationCfg cc)); ort_exec.
  { split; [| done]. apply extends_log; [by eexists |]. by apply extends_log. }
  split.
  - apply extends_quantize_loop; try done.
    + intros ????? _ [= <-] _. by eexists.
    + apply extends_log; [by eexists |]. by apply extends_log.
  - intros _. eexists.
    apply (maintains_quantize_loop W I (λ s3, EvCalibrationCfg cc ∈ trace s3)).
    + intros; apply elem_of_app; by left.
    + cbn. set_solver.
Qed.

End ORT_precedence.

(** ** The onnxruntime stages on concrete runs *)

Lemma quantize_rejects_calibrated_multi_component_witness :
  let s := Scenario.ort_loaded Scenario.ort_config_presets in
  ORT.tmpdir s = Some "/tmp/tmpdir"
  ∧ ORT.is_calibrated (ORT.config s) = true
  ∧ result (ORT.onnx_files_names Scenario.ort_two_graphs Scenario.ort_imports) s =
      Ok ["encoder_model.onnx"; "decoder_model.onnx"]
  ∧ ∃ msg,
      ORT.quantize_onnx_files Scenario.ort_two_graphs Scenario.ort_imports s =
        (Raise (NotImplementedError msg),
         ORT.set_quantized_model ("/tmp/tmpdir" ++ "/quantized_model") s)
      ∧ ORT.trace (final (ORT.quantize_onnx_files Scenario.ort_two_graphs
                            Scenario.ort_imports) s) = ORT.trace s.
Proof.
  cbv zeta. split_and!; [vm_compute; reflexivity ..|].
  apply (quantize_rejects_calibrated_multi_component
           Scenario.ort_two_graphs Scenario.ort_imports
           (Scenario.ort_loaded Scenario.ort_config_presets)
           "/tmp/tmpdir" ["encoder_model.onnx"; "decoder_model.onnx"]);
    [vm_compute; reflexivity .. | simpl; lia].
Defined.

(** C3. Whenever a preset is set, for optimization, quantization or
    calibration, and whatever the manual flag and the manual options are,
    every configuration object of that kind that the stage builds or hands
    to the optimizer or the quantizer is the one built from the preset, and
    a stage that returns has built it. *)
Theorem preset_takes_precedence (W : ORT.World) (I : ORT.Imports) (s : ORT.State) :
  (∀ level, ORT.auto_optimization (ORT.config s) = Some level →
     let a := ORT.AutoOptimizationConfig level
                (bool_decide (ORT.device (ORT.config s) = "cuda"))
                (ORT.auto_optimization_config (ORT.config s)) in
     let s' := final (ORT.optimize_onnx_files W I) s in
     ORT.extends (ORT.only_optimization a) (ORT.trace s) s'
     ∧ (result (ORT.optimize_onnx_files W I) s = Ok tt →
        ORT.EvOptimizationCfg a ∈ ORT.trace s'
        ∧ ∃ dir, ORT.EvOptimize a dir ∈ ORT.trace s'))
  ∧ (∀ preset, ORT.auto_quantization (ORT.config s) = Some preset →
       let a := ORT.AutoQuantizationConfig preset
                  (ORT.format_quantization_config I
                     (ORT.auto_quantization_config (ORT.config s))) in
       let s' := final (ORT.quantize_onnx_files W I) s in
       ORT.extends (ORT.only_quantization a) (ORT.trace s) s'
       ∧ (result (ORT.quantize_onnx_files W I) s = Ok tt →
          ORT.EvQuantizationCfg a ∈ ORT.trace s'))
  ∧ (∀ method, ORT.auto_calibration (ORT.config s) = Some method →
       let kw := ORT.auto_calibration_config (ORT.config s) in
       let s' := final (ORT.quantize_onnx_files W I) s in
       ORT.extends (ORT.only_auto_calibration method kw) (ORT.trace s) s'
       ∧ (result (ORT.quantize_onnx_files W I) s = Ok tt →
          ∃ ds, ORT.EvCalibrationCfg (ORT.AutoCalibrationConfig method ds kw)
                  ∈ ORT.trace s')).
Proof.
  split_and!; intros x Hx.
  - by apply optimize_uses_preset.
  - by apply quantize_uses_preset.
  - by apply calibrate_uses_preset.
Qed.

Lemma preset_takes_precedence_witness :
  let W := Scenario.ort_world in
  let I := Scenario.ort_imports in
  let s := Scenario.ort_loaded Scenario.ort_config_presets in
  (ORT.optimization (ORT.config s) = true
   ∧ ORT.auto_optimization (ORT.config s) = Some "O2"
   ∧ result (ORT.optimize_onnx_files W I) s = Ok tt
   ∧ ORT.extends (ORT.only_optimization (ORT.AutoOptimizationConfig "O2" false ∅))
       [] (final (ORT.optimize_onnx_files W I) s)
   ∧ ORT.EvOptimizationCfg (ORT.AutoOptimizationConfig "O2" false ∅)
       ∈ ORT.trace (final (ORT.optimize_onnx_files W I) s))
  ∧ (ORT.quantization (ORT.config s) = true
     ∧ ORT.auto_quantization (ORT.config s) = Some "avx512_vnni"
     ∧ result (ORT.quantize_onnx_files W I) s = Ok tt
     ∧ ORT.EvQuantizationCfg
         (ORT.AutoQuantizationConfig "avx512_vnni" {["is_static" := PBool true]})
         ∈ ORT.trace (final (ORT.quantize_onnx_files W I) s))
  ∧ (ORT.calibration (ORT.config s) = true
     ∧ ORT.auto_calibration (ORT.config s) = Some "minmax"
     ∧ ORT.extends (ORT.only_auto_calibration "minmax" ∅)
         [] (final (ORT.quantize_onnx_files W I) s)).
Proof.
  cbv zeta.
  destruct (preset_takes_precedence Scenario.ort_world Scenario.ort_imports
              (Scenario.ort_loaded Scenario.ort_config_presets)) as (Hopt & Hq & Hc).
  split_and!; try (vm_compute; reflexivity).
  - apply (Hopt "O2"). vm_compute; reflexivity.
  - apply (Hopt "O2"); vm_compute; reflexivity.
  - apply (Hq "avx512_vnni"); vm_compute; reflexivity.
  - apply (Hc "minmax"). vm_compute; reflexivity.
Defined.

(** ** The openvino backend on concrete runs *)

Lemma ov_no_weights_load_repoints_and_restores_witness :
  let W := Scenario.ov_world in
  let I := Scenario.ov_imports in
  let s := Scenario.ov_validated Scenario.ov_config_no_weights in
  let s' := final (OV.load_ovmodel_with_no_weights W I) s in
  OV.export (OV.config s) = false
  ∧ result (OV.load_ovmodel_with_no_weights W I) s = Ok tt
  ∧ OV.model (OV.config s') = OV.model (OV.config s)
  ∧ OV.export (OV.config s') = OV.export (OV.config s)
  ∧ ∃ tmp cls,
      OV.tmpdir s = Some tmp ∧ OV.ovmodel_class s = Some cls ∧
      let dir := path_join tmp "no_weights_model" in
      OV.trace s' =
        OV.trace s
          ++ [OV.EvMakedirs dir; OV.EvSaveFile (path_join dir "model.safetensors")]
          ++ (if bool_decide (OV.library (OV.config s) = "transformers")
              then [OV.EvSavePretrainedConfig dir] else [])
          ++ [OV.EvRandomInitEnter;
              OV.EvOVModelFromPretrained cls
                {| OV.la_model := dir; OV.la_export := true;
                   OV.la_ov_config := OV.openvino_config (OV.config s);
                   OV.la_device := OV.device (OV.config s);
                   OV.la_hub_kwargs := OV.hub_kwargs (OV.config s);
                   OV.la_kwargs := OV.ovmodel_kwargs I (OV.config s) |};
              OV.EvRandomInitExit].
Proof.
  cbv zeta. split; [vm_compute; reflexivity |].
  split; [vm_compute; reflexivity |].
  apply (ov_no_weights_load_repoints_and_restores Scenario.ov_world Scenario.ov_imports
           (Scenario.ov_validated Scenario.ov_config_no_weights)).
  vm_compute; reflexivity.
Defined.

Lemma ov_init_writes_thread_count_witness :
  let W := Scenario.ov_world in
  let I := Scenario.ov_imports in
  let s := Scenario.ov_created Scenario.ov_config in
  result (OV.Backend_init I) s = Ok tt
  ∧ result (OV.validate_task W I) (final (OV.Backend_init I) s) = Ok tt
  ∧ OV.inter_op_num_threads (OV.config (final (OV.Backend_init I) s)) = Some 4%Z
  ∧ OV.openvino_config (OV.config (final (OV.__init__ W I) s)) =
      <[OV.inference_num_threads I := PInt 4]>
        (OV.openvino_config (OV.config (final (OV.Backend_init I) s))).
Proof.
  cbv zeta. split_and!; [vm_compute; reflexivity ..|].
  apply (ov_init_writes_thread_count Scenario.ov_world Scenario.ov_imports
           (Scenario.ov_created Scenario.ov_config) 4%Z);
    vm_compute; reflexivity.
Defined.

(** The run of the witness: [__init__] returns, the caller's configuration
    holds the thread count, and [model] and [export] are as they were. *)
Example ov_init_run :
  let s' := final (OV.__init__ Scenario.ov_world Scenario.ov_imports)
              (Scenario.ov_created Scenario.ov_config) in
  result (OV.__init__ Scenario.ov_world Scenario.ov_imports)
    (Scenario.ov_created Scenario.ov_config) = Ok tt
  ∧ OV.openvino_config (OV.config s') !! "INFERENCE_NUM_THREADS" = Some (PInt 4)
  ∧ OV.model (OV.config s') = "bert-base-uncased"
  ∧ OV.export (OV.config s') = true.
Proof. cbv zeta. split_and!; vm_compute; reflexivity. Qed.

(** ** Validation of the task *)

Section ORT_validation.
Import ORT.
Variable W : World.
Variable I : Imports.

(** A task in neither table: [__init__] raises right after the base
    class's initializer, in the state that one left. *)
Lemma ort_init_unsupported_task (s : State) :
  result (Backend_init I) s = Ok tt →
  let s1 := final (Backend_init I) s in
  TASKS_TO_ORTSD I !! task (config s1) = None →
  TASKS_TO_ORTMODELS I !! task (config s1) = None →
  __init__ W I s =
    (Raise (NotImplementedError
              ("ORTBackend does not support task " ++ task (config s1))%string), s1).
Proof.
  intros Hbase s1 Hsd Hmodels. unfold __init__.
  rewrite run_bind, (run_surjective (Backend_init I) s), Hbase. fold s1.
  rewrite run_bind. unfold validate_task. ort_exec. by rewrite Hsd, Hmodels.
Qed.

(** A task in one of the tables, the diffusion table first: the class is
    stored in [ortmodel_class], and is there when [__init__] is over. *)
Lemma ort_init_keeps_class (s : State) (path : string) :
  result (Backend_init I) s = Ok tt →
  let s1 := final (Backend_init I) s in
  (TASKS_TO_ORTSD I !! task (config s1) = Some path
   ∨ (TASKS_TO_ORTSD I !! task (config s1) = None
      ∧ TASKS_TO_ORTMODELS I !! task (config s1) = Some path)) →
  fails W (trace s1) (EvGetClass path) = None →
  ortmodel_class (final (__init__ W I) s) = Some path.
Proof.
  intros Hbase s1 Htask Hget. unfold final, __init__.
  rewrite run_bind, (run_surjective (Backend_init I) s), Hbase. fold s1.
  rewrite run_bind.
  assert (validate_task W I s1 =
            (Ok tt, set_ortmodel_class path (log (EvGetClass path) s1))) as ->.
  { unfold validate_task. ort_exec.
    destruct Htask as [-> | [-> ->]]; ort_exec; by rewrite Hget. }
  by apply (maintains_init_tail W I (λ s', ortmodel_class s' = Some path)).
Qed.

End ORT_validation.

Section OV_validation.
Import OV.
Variable W : World.
Variable I : Imports.

Lemma ov_init_unsupported_task (s : State) :
  result (Backend_init I) s = Ok tt →
  let s1 := final (Backend_init I) s in
  TASKS_TO_OVMODEL I !! task (config s1) = None →
  __init__ W I s =
    (Raise (NotImplementedError
              ("OVBackend does not support task " ++ task (config s1))%string), s1).
Proof.
  intros Hbase s1 Htask. unfold __init__.
  rewrite run_bind, (run_surjective (Backend_init I) s), Hbase. fold s1.
  rewrite run_bind. unfold validate_task. ov_exec. by rewrite Htask.
Qed.

Lemma ov_init_keeps_class (s : State) (path : string) :
  result (Backend_init I) s = Ok tt →
  let s1 := final (Backend_init I) s in
  TASKS_TO_OVMODEL I !! task (config s1) = Some path →
  fails W (trace s1) (EvGetClass path) = None →
  ovmodel_class (final (__init__ W I) s) = Some path.
Proof.
  intros Hbase s1 Htask Hget. unfold final, __init__.
  rewrite run_bind, (run_surjective (Backend_init I) s), Hbase. fold s1.
  rewrite run_bind.
  assert (validate_task W I s1 =
            (Ok tt, set_ovmodel_class path (log (EvGetClass path) s1))) as ->.
  { unfold validate_task. ov_exec. rewrite Htask. ov_exec. by rewrite Hget. }
  rewrite run_bind.
  assert (∀ s2, ovmodel_class s2 = Some path →
            ovmodel_class (final (set_inter_op_num_threads I) s2) = Some path
            ∧ result (set_inter_op_num_threads I) s2 = Ok tt) as Hset.
  { intros s2 H2. unfold final, result, set_inter_op_num_threads. ov_exec.
    destruct (inter_op_num_threads (config s2)); by ov_exec. }
  match goal with |- context [set_inter_op_num_threads I ?s2] =>
    destruct (Hset s2) as [Hcls Hok]; [done |];
    rewrite (run_surjective (set_inter_op_num_threads I) s2), Hok
  end.
  by apply (ov_maintains_init_tail W I (λ s', ovmodel_class s' = Some path)).
Qed.

End OV_validation.

(** C6. A task without a loader class makes [__init__] raise
    [NotImplementedError] before it has done anything of its own: the state,
    trace included, is the one the base class's initializer left. For a
    task with a loader class, the class is stored once by [validate_task]
    and is still the one stored when [__init__] is over; [clean] and
    [prepare_inputs] keep it if the base class's methods do. *)
Theorem unsupported_task_raises_first_and_class_is_kept :
  (∀ (W : ORT.World) (I : ORT.Imports) (s : ORT.State),
     result (ORT.Backend_init I) s = Ok tt →
     let s1 := final (ORT.Backend_init I) s in
     (ORT.TASKS_TO_ORTSD I !! ORT.task (ORT.config s1) = None →
      ORT.TASKS_TO_ORTMODELS I !! ORT.task (ORT.config s1) = None →
      ORT.__init__ W I s =
        (Raise (NotImplementedError
                  ("ORTBackend does not support task " ++ ORT.task (ORT.config s1))%string),
         s1))
     ∧ (∀ path,
          (ORT.TASKS_TO_ORTSD I !! ORT.task (ORT.config s1) = Some path
           ∨ (ORT.TASKS_TO_ORTSD I !! ORT.task (ORT.config s1) = None
              ∧ ORT.TASKS_TO_ORTMODELS I !! ORT.task (ORT.config s1) = Some path)) →
          ORT.fails W (ORT.trace s1) (ORT.EvGetClass path) = None →
          ORT.ortmodel_class (final (ORT.__init__ W I) s) = Some path))
  ∧ (∀ (W : ORT.World) (I : ORT.Imports) (path : string),
       let kept := λ s, ORT.ortmodel_class s = Some path in
       (maintains kept (ORT.Backend_clean I) → maintains kept (ORT.clean W I))
       ∧ (∀ inputs, maintains kept (ORT.Backend_prepare_inputs I inputs) →
                    maintains kept (ORT.prepare_inputs I inputs)))
  ∧ (∀ (W : OV.World) (I : OV.Imports) (s : OV.State),
       result (OV.Backend_init I) s = Ok tt →
       let s1 := final (OV.Backend_init I) s in
       (OV.TASKS_TO_OVMODEL I !! OV.task (OV.config s1) = None →
        OV.__init__ W I s =
          (Raise (NotImplementedError
                    ("OVBackend does not support task " ++ OV.task (OV.config s1))%string),
           s1))
       ∧ (∀ path,
            OV.TASKS_TO_OVMODEL I !! OV.task (OV.config s1) = Some path →
            OV.fails W (OV.trace s1) (OV.EvGetClass path) = None →
            OV.ovmodel_class (final (OV.__init__ W I) s) = Some path))
  ∧ (∀ (W : OV.World) (I : OV.Imports) (path : string),
       let kept := λ s, OV.ovmodel_class s = Some path in
       (maintains kept (OV.Backend_clean I) → maintains kept (OV.clean W I))
       ∧ (∀ inputs, maintains kept (OV.Backend_prepare_inputs I inputs) →
                    maintains kept (OV.prepare_inputs I inputs))).
Proof.
  split_and!.
  - intros W I s Hbase s1. split.
    + by apply ort_init_unsupported_task.
    + intros path. by apply ort_init_keeps_class.
  - intros W I path kept. split.
    + by apply maintains_clean.
    + intros inputs. by apply maintains_prepare_inputs.
  - intros W I s Hbase s1. split.
    + by apply ov_init_unsupported_task.
    + intros path. by apply ov_init_keeps_class.
  - intros W I path kept. split.
    + by apply ov_maintains_clean.
    + intros inputs. by apply ov_maintains_prepare_inputs.
Qed.

Lemma unsupported_task_raises_first_and_class_is_kept_witness :
  let bad := Scenario.ort_created
               (Scenario.ort_config_plain "audio-xvector" "CPUExecutionProvider") in
  let good := Scenario.ort_created
                (Scenario.ort_config_plain "text-classification" "CPUExecutionProvider") in
  let ov_bad := Scenario.ov_created (Scenario.ov_config_plain "audio-xvector") in
  let ov_good := Scenario.ov_created (Scenario.ov_config_plain "text-classification") in
  ORT.__init__ Scenario.ort_world Scenario.ort_imports bad =
    (Raise (NotImplementedError "ORTBackend does not support task audio-xvector"), bad)
  ∧ ORT.ortmodel_class (final (ORT.__init__ Scenario.ort_world Scenario.ort_imports) good) =
      Some "optimum.onnxruntime.ORTModelForSequenceClassification"
  ∧ maintains (λ s, ORT.ortmodel_class s =
                      Some "optimum.onnxruntime.ORTModelForSequenceClassification")
      (ORT.clean Scenario.ort_world Scenario.ort_imports)
  ∧ OV.__init__ Scenario.ov_world Scenario.ov_imports ov_bad =
      (Raise (NotImplementedError "OVBackend does not support task audio-xvector"), ov_bad)
  ∧ OV.ovmodel_class (final (OV.__init__ Scenario.ov_world Scenario.ov_imports) ov_good) =
      Some "optimum.intel.openvino.OVModelForSequenceClassification"
  ∧ maintains (λ s, OV.ovmodel_class s =
                      Some "optimum.intel.openvino.OVModelForSequenceClassification")
      (OV.clean Scenario.ov_world Scenario.ov_imports).
Proof.
  cbv zeta.
  destruct unsupported_task_raises_first_and_class_is_kept as (Hort & Hort' & Hov & Hov').
  split_and!.
  - apply (Hort Scenario.ort_world Scenario.ort_imports
             (Scenario.ort_created
                (Scenario.ort_config_plain "audio-xvector" "CPUExecutionProvider")));
      vm_compute; reflexivity.
  - apply (Hort Scenario.ort_world Scenario.ort_imports
             (Scenario.ort_created
                (Scenario.ort_config_plain "text-classification" "CPUExecutionProvider")));
      [vm_compute; reflexivity | right; split; vm_compute; reflexivity
      | vm_compute; reflexivity].
  - apply (Hort' Scenario.ort_world Scenario.ort_imports). intros s Hs. exact Hs.
  - apply (Hov Scenario.ov_world Scenario.ov_imports
             (Scenario.ov_created (Scenario.ov_config_plain "audio-xvector")));
      vm_compute; reflexivity.
  - apply (Hov Scenario.ov_world Scenario.ov_imports
             (Scenario.ov_created (Scenario.ov_config_plain "text-classification")));
      vm_compute; reflexivity.
  - apply (Hov' Scenario.ov_world Scenario.ov_imports). intros s Hs. exact Hs.
Defined.

(** ** Cleaning *)

(** Lines 312-319: after the base class's [clean], the workspace of a
    backend that has one is cleaned up, and then the garbage is collected;
    if the cleanup raises, that is where [clean] ends. *)
Lemma clean_releases_workspace
    (W : ORT.World) (I : ORT.Imports) (s s1 : ORT.State) (tmp : string) :
  ORT.Backend_clean I s = (Ok tt, s1) →
  ORT.tmpdir s1 = Some tmp →
  ORT.trace (final (ORT.clean W I) s) =
    ORT.trace s1 ++ [ORT.EvTmpdirCleanup tmp]
      ++ match ORT.fails W (ORT.trace s1) (ORT.EvTmpdirCleanup tmp) with
         | Some _ => []
         | None => [ORT.EvGcCollect]
         end.
Proof.
  intros Hbase Htmp. unfold final, ORT.clean. rewrite run_bind, Hbase.
  ort_exec. rewrite Htmp. cbn. rewrite when_true.
  unfold ORT.tmpdir_cleanup. ort_exec. rewrite Htmp. ort_exec.
  destruct (ORT.fails W (ORT.trace s1) (ORT.EvTmpdirCleanup tmp)); ort_exec.
  - done.
  - by rewrite <- app_assoc.
Qed.

(** ** Validation of the provider *)

(** C5 (amended). For a loaded model that reports at least one provider,
    [validate_provider] raises the [ValueError] exactly when the first one
    is not the configured provider, and changes nothing. In lines 76-77 of
    [__init__] the workspace is cleaned up after a check that passed; a check
    that raises ends [__init__] with no call made, the cleanup included. *)
Theorem provider_is_validated_then_workspace_cleaned
    (W : ORT.World) (s : ORT.State) (m : ORT.LoadedModel)
    (first : string) (rest : list string) (tmp : string) :
  ORT.pretrained_model s = Some m →
  ORT.providers m = first :: rest →
  ORT.tmpdir s = Some tmp →
  let c := ORT.config s in
  let mismatch :=
    ValueError (ORT.provider c ++ " is not first in providers list: "
                ++ repr_list (first :: rest))%string in
  (ORT.validate_provider s = (Raise mismatch, s) ↔ first ≠ ORT.provider c)
  ∧ (ORT.validate_provider s = (Ok tt, s) ↔ first = ORT.provider c)
  ∧ (first ≠ ORT.provider c →
     (ORT.validate_provider ;; ORT.tmpdir_cleanup W) s = (Raise mismatch, s))
  ∧ (first = ORT.provider c →
     ORT.trace (final (ORT.validate_provider ;; ORT.tmpdir_cleanup W) s) =
       ORT.trace s ++ [ORT.EvTmpdirCleanup tmp]).
Proof.
  intros Hm Hp Htmp c mismatch.
  assert (Hrun : ORT.validate_provider s =
                 (if decide (first = ORT.provider c) then Ok tt else Raise mismatch, s)).
  { unfold ORT.validate_provider. ort_exec. rewrite Hm. ort_exec. rewrite Hp.
    fold c. by destruct (decide (first = ORT.provider c)). }
  split_and!.
  - rewrite Hrun. destruct (decide (first = ORT.provider c)); naive_solver.
  - rewrite Hrun. destruct (decide (first = ORT.provider c)); naive_solver.
  - intros Hne. rewrite run_bind, Hrun. by destruct (decide (first = ORT.provider c)).
  - intros Heq. unfold final. rewrite run_bind, Hrun.
    destruct (decide (first = ORT.provider c)); [| done].
    unfold ORT.tmpdir_cleanup. ort_exec. rewrite Htmp. by ort_exec.
Qed.

Lemma provider_is_validated_then_workspace_cleaned_witness :
  let W := Scenario.ort_world in
  let s := Scenario.ort_loaded
             (Scenario.ort_config_plain "text-classification" "CPUExecutionProvider") in
  let mismatch :=
    ValueError "CPUExecutionProvider is not first in providers list: ['CPUExecutionProvider']" in
  (ORT.validate_provider s = (Raise mismatch, s)
   ↔ "CPUExecutionProvider" ≠ ORT.provider (ORT.config s))
  ∧ (ORT.validate_provider s = (Ok tt, s)
     ↔ "CPUExecutionProvider" = ORT.provider (ORT.config s))
  ∧ ("CPUExecutionProvider" ≠ ORT.provider (ORT.config s) →
     (ORT.validate_provider ;; ORT.tmpdir_cleanup W) s = (Raise mismatch, s))
  ∧ ("CPUExecutionProvider" = ORT.provider (ORT.config s) →
     ORT.trace (final (ORT.validate_provider ;; ORT.tmpdir_cleanup W) s) =
       ORT.trace s ++ [ORT.EvTmpdirCleanup "/tmp/tmpdir"]).
Proof.
  cbv zeta.
  apply (provider_is_validated_then_workspace_cleaned Scenario.ort_world
           (Scenario.ort_loaded
              (Scenario.ort_config_plain "text-classification" "CPUExecutionProvider"))
           Scenario.ort_model "CPUExecutionProvider" [] "/tmp/tmpdir");
    vm_compute; reflexivity.
Defined.

(** C5 as stated fails on its last part. The model comes back with the CPU
    provider first while the configuration asks for CUDA: [__init__] raises
    the [ValueError], and the calls it has made end with the load; the
    workspace it created is not cleaned up. *)
Lemma provider_mismatch_skips_workspace_cleanup :
  let s := Scenario.ort_created
             (Scenario.ort_config_plain "text-classification" "CUDAExecutionProvider") in
  let s' := final (ORT.__init__ Scenario.ort_world Scenario.ort_imports) s in
  result (ORT.__init__ Scenario.ort_world Scenario.ort_imports) s =
    Raise (ValueError
             "CUDAExecutionProvider is not first in providers list: ['CPUExecutionProvider']")
  ∧ ORT.tmpdir s' = Some "/tmp/tmpdir"
  ∧ ORT.trace s' =
      [ORT.EvGetClass "optimum.onnxruntime.ORTModelForSequenceClassification";
       ORT.EvSessionOptions;
       ORT.EvTemporaryDirectory;
       ORT.EvFromPretrained "optimum.onnxruntime.ORTModelForSequenceClassification"
         {| ORT.la_model := "bert-base-uncased"; ORT.la_export := true;
            ORT.la_session_options := ∅; ORT.la_provider_options := ∅;
            ORT.la_use_io_binding := false;
            ORT.la_provider := "CUDAExecutionProvider";
            ORT.la_hub_kwargs := ∅; ORT.la_kwargs := ∅ |}]
  ∧ ∀ name, ORT.EvTmpdirCleanup name ∉ ORT.trace s'.
Proof.
  cbv zeta.
  assert (Htrace : ORT.trace
            (final (ORT.__init__ Scenario.ort_world Scenario.ort_imports)
               (Scenario.ort_created
                  (Scenario.ort_config_plain "text-classification"
                     "CUDAExecutionProvider"))) =
          [ORT.EvGetClass "optimum.onnxruntime.ORTModelForSequenceClassification";
           ORT.EvSessionOptions;
           ORT.EvTemporaryDirectory;
           ORT.EvFromPretrained "optimum.onnxruntime.ORTModelForSequenceClassification"
             {| ORT.la_model := "bert-base-uncased"; ORT.la_export := true;
                ORT.la_session_options := ∅; ORT.la_provider_options := ∅;
                ORT.la_use_io_binding := false;
                ORT.la_provider := "CUDAExecutionProvider";
                ORT.la_hub_kwargs := ∅; ORT.la_kwargs := ∅ |}])
    by (vm_compute; reflexivity).
  split_and!; [vm_compute; reflexivity | vm_compute; reflexivity | exact Htrace |].
  intros name Hin. rewrite Htrace in Hin.
  repeat (apply elem_of_cons in Hin as [Hin | Hin]; [discriminate Hin |]).
  by apply elem_of_nil in Hin.
Qed.

(** ** The inputs *)

Section ORT_inputs.
Import ORT.
Variable I : Imports.

(** The loop of lines 288-292 over the entries of a dictionary, when it
    returns: the entries it has gone through are as [prepared] says, the
    others are as they were. *)
Lemma prepare_items_ok (s : State) (names : list string) items :
  result inputs_names s = Ok names →
  ∀ (acc r : gmap string value) (s' : State),
    NoDup items.*1 →
    (∀ k v, (k, v) ∈ items → acc !! k = Some v) →
    prepare_items items acc s = (Ok r, s') →
    s' = s ∧
    ∀ k, r !! k =
         match (list_to_map items : gmap string value) !! k with
         | Some v => prepared names (device (config s)) k v
         | None => acc !! k
         end.
Proof.
  intros Hnames.
  assert (Hin : inputs_names s = (Ok names, s)).
  { by rewrite (run_surjective inputs_names s), inputs_names_final, Hnames. }
  induction items as [|[k0 v0] items IH]; intros acc r s' Hnodup Hacc Hrun.
  { cbn in Hrun. exec in Hrun. by injection Hrun as <- <-. }
  cbn in Hnodup. apply NoDup_cons in Hnodup as [Hk0 Hnodup].
  assert (Hrest : ∀ acc' : gmap string value, (∀ k, k ≠ k0 → acc' !! k = acc !! k) →
            ∀ k v, (k, v) ∈ items → acc' !! k = Some v).
  { intros acc' Hacc' k v Hkv. rewrite Hacc'.
    - apply Hacc. by right.
    - intros ->. apply Hk0. apply list_elem_of_fmap. by exists (k0, v). }
  assert (Hnone : (list_to_map items : gmap string value) !! k0 = None)
    by (by apply not_elem_of_list_to_map_1).
  cbn [prepare_items] in Hrun. unfold prepared.
  destruct (decide (k0 ∈ PROBLEMATIC_INPUTS)) as [Hprob | Hprob].
  - rewrite bool_decide_eq_false_2 in Hrun by (by intros ?).
    rewrite run_bind, Hin in Hrun.
    destruct (decide (k0 ∈ names)) as [Hdecl | Hdecl].
    + rewrite bool_decide_eq_false_2 in Hrun by (by intros ?).
      destruct (IH acc r s' Hnodup (Hrest acc (λ _ _, eq_refl)) Hrun) as [-> Hr].
      split; [done |]. intros k. rewrite Hr. cbn [list_to_map foldr].
      destruct (decide (k = k0)) as [-> | Hne].
      * rewrite Hnone, lookup_insert_eq. unfold prepared.
        rewrite !decide_True by done. apply Hacc. by left.
      * by rewrite lookup_insert_ne.
    + rewrite bool_decide_eq_true_2 in Hrun by done.
      destruct (IH (delete k0 acc) r s' Hnodup
                  (Hrest _ (λ k Hk, lookup_delete_ne acc k0 k (not_eq_sym Hk))) Hrun)
        as [-> Hr].
      split; [done |]. intros k. rewrite Hr. cbn [list_to_map foldr].
      destruct (decide (k = k0)) as [-> | Hne].
      * rewrite Hnone, lookup_insert_eq, lookup_delete_eq. unfold prepared.
        by rewrite decide_True, decide_False.
      * by rewrite lookup_insert_ne, lookup_delete_ne.
  - rewrite bool_decide_eq_true_2 in Hrun by done. exec in Hrun.
    destruct v0 as [data dev | t]; exec in Hrun; [| done].
    destruct (IH (<[k0 := Tensor data (device (config s))]> acc) r s' Hnodup
                (Hrest _ (λ k Hk, lookup_insert_ne acc k0 k _ (not_eq_sym Hk))) Hrun)
      as [-> Hr].
    split; [done |]. intros k. rewrite Hr. cbn [list_to_map foldr].
    destruct (decide (k = k0)) as [-> | Hne].
    + rewrite Hnone, !lookup_insert_eq. unfold prepared. by rewrite decide_False.
    + by rewrite !lookup_insert_ne.
Qed.

(** The loop returns when the entries it moves are tensors. *)
Lemma prepare_items_total (s : State) (names : list string) items :
  result inputs_names s = Ok names →
  (∀ k v, (k, v) ∈ items → k ∉ PROBLEMATIC_INPUTS → ∃ data dev, v = Tensor data dev) →
  ∀ acc : gmap string value, ∃ r, prepare_items items acc s = (Ok r, s).
Proof.
  intros Hnames.
  assert (Hin : inputs_names s = (Ok names, s)).
  { by rewrite (run_surjective inputs_names s), inputs_names_final, Hnames. }
  induction items as [|[k0 v0] items IH]; intros Htensors acc.
  { by exists acc. }
  assert (Hrest : ∀ k v, (k, v) ∈ items → k ∉ PROBLEMATIC_INPUTS →
                         ∃ data dev, v = Tensor data dev).
  { intros k v Hkv. apply Htensors. by right. }
  cbn [prepare_items].
  destruct (decide (k0 ∈ PROBLEMATIC_INPUTS)) as [Hprob | Hprob].
  - rewrite bool_decide_eq_false_2 by (by intros ?). rewrite run_bind, Hin.
    destruct (bool_decide (k0 ∉ names)); by apply IH.
  - rewrite bool_decide_eq_true_2 by done.
    destruct (Htensors k0 v0) as (data & dev & ->); [by left | done |].
    exec. by apply IH.
Qed.

(** Lines 282-294 for a library other than diffusers: what the base class
    hands over, entry by entry as [prepared] says. *)
Lemma ort_prepare_inputs_entries (s s0 : State) (inputs inputs0 : gmap string value)
    (names : list string) :
  Backend_prepare_inputs I inputs s = (Ok inputs0, s0) →
  library (config s0) ≠ "diffusers" →
  result inputs_names s0 = Ok names →
  (∀ k v, inputs0 !! k = Some v → k ∉ PROBLEMATIC_INPUTS → ∃ data dev, v = Tensor data dev) →
  prepare_inputs I inputs s =
    (Ok (map_imap (prepared names (device (config s0))) inputs0), s0).
Proof.
  intros Hbase Hlib Hnames Htensors. unfold prepare_inputs.
  rewrite run_bind, Hbase. exec. rewrite bool_decide_eq_false_2 by done.
  destruct (prepare_items_total s0 names (map_to_list inputs0) Hnames) with (acc := inputs0)
    as [r Hr].
  { intros k v Hkv. apply Htensors. by apply elem_of_map_to_list. }
  rewrite Hr. do 2 f_equal. apply map_eq. intros k.
  destruct (prepare_items_ok s0 names (map_to_list inputs0) Hnames inputs0 r s0) as [_ Hk];
    [apply NoDup_fst_map_to_list | by intros ?? ?%elem_of_map_to_list | done |].
  rewrite Hk, list_to_map_to_list, map_lookup_imap. by destruct (inputs0 !! k).
Qed.

(** Lines 285-286: the diffusers pipelines get the prompt and nothing
    else. *)
Lemma ort_prepare_inputs_diffusers (s s0 : State) (inputs inputs0 : gmap string value) :
  Backend_prepare_inputs I inputs s = (Ok inputs0, s0) →
  library (config s0) = "diffusers" →
  prepare_inputs I inputs s =
    (match inputs0 !! "prompt" with
     | Some prompt => Ok {["prompt" := prompt]}
     | None => Raise (KeyError "prompt")
     end, s0).
Proof.
  intros Hbase Hlib. unfold prepare_inputs.
  rewrite run_bind, Hbase. exec. rewrite bool_decide_eq_true_2 by done.
  by destruct (inputs0 !! "prompt").
Qed.

End ORT_inputs.

(** C7 (amended). What [prepare_inputs] makes of the mapping the base class
    hands over. For diffusers, both backends return the prompt alone (and
    raise [KeyError] without one). Otherwise the openvino backend returns the
    mapping as it is; the onnxruntime backend, when the inputs outside the
    problematic set are tensors, keeps each of those with the tensor moved to
    the configured device, and keeps an input of the problematic set exactly
    when the model declares it. *)
Theorem prepare_inputs_adapts_the_inputs :
  (∀ (I : ORT.Imports) (s s0 : ORT.State) (inputs inputs0 : gmap string value),
     ORT.Backend_prepare_inputs I inputs s = (Ok inputs0, s0) →
     (ORT.library (ORT.config s0) = "diffusers" →
      ORT.prepare_inputs I inputs s =
        (match inputs0 !! "prompt" with
         | Some prompt => Ok {["prompt" := prompt]}
         | None => Raise (KeyError "prompt")
         end, s0))
     ∧ (ORT.library (ORT.config s0) ≠ "diffusers" →
        ∀ names,
          result ORT.inputs_names s0 = Ok names →
          (∀ k v, inputs0 !! k = Some v → k ∉ ORT.PROBLEMATIC_INPUTS →
                  ∃ data dev, v = Tensor data dev) →
          ∃ r, ORT.prepare_inputs I inputs s = (Ok r, s0) ∧
               ∀ k,
                 (k ∉ ORT.PROBLEMATIC_INPUTS →
                  r !! k = ORT.on_device (ORT.device (ORT.config s0)) <$> inputs0 !! k)
                 ∧ (k ∈ ORT.PROBLEMATIC_INPUTS →
                    (is_Some (r !! k) ↔ is_Some (inputs0 !! k) ∧ k ∈ names))))
  ∧ (∀ (I : OV.Imports) (s s0 : OV.State) (inputs inputs0 : gmap string value),
       OV.Backend_prepare_inputs I inputs s = (Ok inputs0, s0) →
       (OV.library (OV.config s0) = "diffusers" →
        OV.prepare_inputs I inputs s =
          (match inputs0 !! "prompt" with
           | Some prompt => Ok {["prompt" := prompt]}
           | None => Raise (KeyError "prompt")
           end, s0))
       ∧ (OV.library (OV.config s0) ≠ "diffusers" →
          OV.prepare_inputs I inputs s = (Ok inputs0, s0))).
Proof.
  split.
  - intros I s s0 inputs inputs0 Hbase. split.
    + by apply ort_prepare_inputs_diffusers.
    + intros Hlib names Hnames Htensors. eexists. split.
      * by apply (ort_prepare_inputs_entries I s s0 inputs inputs0 names).
      * intros k. rewrite map_lookup_imap. unfold ORT.prepared.
        split; intros Hk.
        -- destruct (inputs0 !! k); cbn; [| done]. by rewrite decide_False.
        -- destruct (inputs0 !! k) as [v|]; cbn;
             [rewrite decide_True by done; destruct (decide (k ∈ names)) |].
           ++ split; [intros _; split; [by eexists | done] | intros _; by eexists].
           ++ split; [by intros ?%is_Some_None | by intros [_ ?]].
           ++ split; [by intros ?%is_Some_None | by intros [?%is_Some_None _]].
  - intros I s s0 inputs inputs0 Hbase. unfold OV.prepare_inputs.
    rewrite run_bind, Hbase. exec. split; intros Hlib.
    + rewrite bool_decide_eq_true_2 by done. by destruct (inputs0 !! "prompt").
    + by rewrite bool_decide_eq_false_2.
Qed.

Lemma prepare_inputs_adapts_the_inputs_witness :
  let s := Scenario.ort_ready
             (Scenario.ort_config_plain "text-classification" "CUDAExecutionProvider")
             Scenario.ort_model in
  let sov := Scenario.ov_validated (Scenario.ov_config_plain "text-classification") in
  (∃ r, ORT.prepare_inputs Scenario.ort_imports Scenario.text_inputs s = (Ok r, s) ∧
        ∀ k,
          (k ∉ ORT.PROBLEMATIC_INPUTS →
           r !! k = ORT.on_device (ORT.device (ORT.config s)) <$> Scenario.text_inputs !! k)
          ∧ (k ∈ ORT.PROBLEMATIC_INPUTS →
             (is_Some (r !! k) ↔
              is_Some (Scenario.text_inputs !! k) ∧ k ∈ ["input_ids"; "attention_mask"])))
  ∧ OV.prepare_inputs Scenario.ov_imports Scenario.text_inputs sov =
      (Ok Scenario.text_inputs, sov).
Proof.
  cbv zeta. destruct prepare_inputs_adapts_the_inputs as [Hort Hov]. split.
  - eapply (Hort Scenario.ort_imports); [reflexivity | | vm_compute; reflexivity |].
    + vm_compute. discriminate.
    + intros k v Hkv _. apply elem_of_map_to_list in Hkv.
      replace (map_to_list Scenario.text_inputs)
        with [("input_ids", Tensor [101; 7592; 102]%Z "cpu");
              ("attention_mask", Tensor [1; 1; 1]%Z "cpu");
              ("token_type_ids", Tensor [0; 0; 0]%Z "cpu")] in Hkv
        by (vm_compute; reflexivity).
      repeat (apply elem_of_cons in Hkv as [[= _ ->] | Hkv]; [by eexists _, _ |]).
      by apply elem_of_nil in Hkv.
  - eapply (Hov Scenario.ov_imports); [reflexivity |]. vm_compute. discriminate.
Defined.

(** C7 as stated fails for the openvino backend, which moves nothing: with
    the library transformers and the device ["gpu"], the tensors come back on
    the device they came in on. *)
Lemma ov_prepare_inputs_moves_nothing :
  let s := Scenario.ov_validated (Scenario.ov_config_plain "text-classification") in
  OV.library (OV.config s) = "transformers"
  ∧ OV.device (OV.config s) = "gpu"
  ∧ ∃ r, OV.prepare_inputs Scenario.ov_imports Scenario.text_inputs s = (Ok r, s)
         ∧ r !! "input_ids" = Some (Tensor [101; 7592; 102]%Z "cpu")
         ∧ r !! "input_ids" ≠ Some (Tensor [101; 7592; 102]%Z "gpu").
Proof.
  cbv zeta. split_and!; [vm_compute; reflexivity ..|].
  exists Scenario.text_inputs. split_and!; [vm_compute; reflexivity ..|].
  vm_compute. discriminate.
Qed.

(** The onnxruntime loop on the same inputs, the device being ["cuda"]: for
    a model that declares [token_type_ids] that tensor is kept where it was,
    the others are moved; for a model that does not, it is dropped. *)
Example ort_prepare_inputs_run :
  let c := Scenario.ort_config_plain "text-classification" "CUDAExecutionProvider" in
  let r1 := result (ORT.prepare_inputs Scenario.ort_imports Scenario.text_inputs)
              (Scenario.ort_ready c Scenario.ort_model_with_token_types) in
  let r2 := result (ORT.prepare_inputs Scenario.ort_imports Scenario.text_inputs)
              (Scenario.ort_ready c Scenario.ort_model) in
  r1 = Ok {["input_ids" := Tensor [101; 7592; 102]%Z "cuda";
            "attention_mask" := Tensor [1; 1; 1]%Z "cuda";
            "token_type_ids" := Tensor [0; 0; 0]%Z "cpu"]}
  ∧ r2 = Ok {["input_ids" := Tensor [101; 7592; 102]%Z "cuda";
              "attention_mask" := Tensor [1; 1; 1]%Z "cuda"]}.
Proof. cbv zeta. split; vm_compute; reflexivity. Qed.

(** C9. A loaded model with neither [inputs_names] nor [input_names]: the
    backend's list of input names is empty, and whatever [prepare_inputs]
    returns holds no input of the problematic set; for a library other than
    diffusers and tensor inputs it does return, and with the other inputs
    all there. *)
Theorem undeclared_input_names_drop_the_problematic_inputs
    (I : ORT.Imports) (s s0 : ORT.State) (inputs inputs0 : gmap string value)
    (m : ORT.LoadedModel) :
  ORT.Backend_prepare_inputs I inputs s = (Ok inputs0, s0) →
  ORT.pretrained_model s0 = Some m →
  ORT.inputs_names_attr m = None →
  ORT.input_names_attr m = None →
  ORT.inputs_names s0 = (Ok [], s0)
  ∧ (∀ r s', ORT.prepare_inputs I inputs s = (Ok r, s') →
             ∀ k, k ∈ ORT.PROBLEMATIC_INPUTS → r !! k = None)
  ∧ (ORT.library (ORT.config s0) ≠ "diffusers" →
     (∀ k v, inputs0 !! k = Some v → k ∉ ORT.PROBLEMATIC_INPUTS →
             ∃ data dev, v = Tensor data dev) →
     ∃ r, ORT.prepare_inputs I inputs s = (Ok r, s0)
          ∧ (∀ k, k ∈ ORT.PROBLEMATIC_INPUTS → r !! k = None)
          ∧ (∀ k, k ∉ ORT.PROBLEMATIC_INPUTS → is_Some (r !! k) ↔ is_Some (inputs0 !! k))).
Proof.
  intros Hbase Hm H1 H2.
  assert (Hnames : ORT.inputs_names s0 = (Ok [], s0)).
  { unfold ORT.inputs_names. ort_exec. rewrite Hm. ort_exec. by rewrite H1, H2. }
  assert (Hres : result ORT.inputs_names s0 = Ok []) by (unfold result; by rewrite Hnames).
  split_and!; [done | |].
  - intros r s' Hrun k Hk. unfold ORT.prepare_inputs in Hrun.
    rewrite run_bind, Hbase in Hrun. exec in Hrun.
    destruct (bool_decide (ORT.library (ORT.config s0) = "diffusers")).
    + destruct (inputs0 !! "prompt"); exec in Hrun; [| done].
      injection Hrun as <- <-. apply lookup_singleton_ne.
      intros <-. vm_compute in Hk.
      repeat (apply elem_of_cons in Hk as [[=] | Hk]). by apply elem_of_nil in Hk.
    + destruct (prepare_items_ok s0 [] (map_to_list inputs0) Hres inputs0 r s') as [_ Hr];
        [apply NoDup_fst_map_to_list | by intros ?? ?%elem_of_map_to_list | done |].
      rewrite Hr, list_to_map_to_list. destruct (inputs0 !! k); [| done].
      unfold ORT.prepared. rewrite decide_True by done. apply decide_False.
      by intros ?%elem_of_nil.
  - intros Hlib Htensors. eexists. split_and!.
    + by apply (ort_prepare_inputs_entries I s s0 inputs inputs0 []).
    + intros k Hk. rewrite map_lookup_imap. destruct (inputs0 !! k); [| done]. cbn.
      unfold ORT.prepared. rewrite decide_True by done. apply decide_False.
      by intros ?%elem_of_nil.
    + intros k Hk. rewrite map_lookup_imap. destruct (inputs0 !! k); cbn; [| done].
      unfold ORT.prepared. rewrite decide_False by done. split; intros _; by eexists.
Qed.

Lemma undeclared_input_names_drop_the_problematic_inputs_witness :
  let s := Scenario.ort_ready
             (Scenario.ort_config_plain "text-classification" "CUDAExecutionProvider")
             Scenario.ort_model_without_names in
  Scenario.text_inputs !! "token_type_ids" = Some (Tensor [0; 0; 0]%Z "cpu")
  ∧ ORT.inputs_names s = (Ok [], s)
  ∧ (∀ r s', ORT.prepare_inputs Scenario.ort_imports Scenario.text_inputs s = (Ok r, s') →
             ∀ k, k ∈ ORT.PROBLEMATIC_INPUTS → r !! k = None)
  ∧ (ORT.library (ORT.config s) ≠ "diffusers" →
     (∀ k v, Scenario.text_inputs !! k = Some v → k ∉ ORT.PROBLEMATIC_INPUTS →
             ∃ data dev, v = Tensor data dev) →
     ∃ r, ORT.prepare_inputs Scenario.ort_imports Scenario.text_inputs s = (Ok r, s)
          ∧ (∀ k, k ∈ ORT.PROBLEMATIC_INPUTS → r !! k = None)
          ∧ (∀ k, k ∉ ORT.PROBLEMATIC_INPUTS →
                  is_Some (r !! k) ↔ is_Some (Scenario.text_inputs !! k))).
Proof.
  cbv zeta. split; [vm_compute; reflexivity |].
  apply (undeclared_input_names_drop_the_problematic_inputs Scenario.ort_imports
           _ _ Scenario.text_inputs Scenario.text_inputs
           Scenario.ort_model_without_names);
    vm_compute; reflexivity.
Defined.

(** * Further properties of the code *)

(** ** The driver, run by run *)

(** X1. When no call raises, [run_experiment] returns, having made each of its
    calls once and in order: the backend is cleaned once, and nothing is
    logged as an error. *)
Theorem run_experiment_returns (W : Main.World) (x : Main.ExperimentConfig) :
  (∀ tr ev, W tr ev = None) →
  Main.run_experiment W x Main.initial =
    (Ok tt,
     {| Main.trace := Observed.setup_calls x ++ Observed.run_calls;
        Main.raised_error := Some false;
        Main.e := None |}).
Proof.
  intros Hnone. unfold Main.run_experiment, Main.try_except_Exception_as_e, Main.call.
  exec. repeat (rewrite Hnone; exec). done.
Qed.

Lemma run_experiment_returns_witness :
  Main.run_experiment (λ _ _, None) Scenario.experiment Main.initial =
    (Ok tt,
     {| Main.trace := Observed.setup_calls Scenario.experiment ++ Observed.run_calls;
        Main.raised_error := Some false;
        Main.e := None |}).
Proof. apply (run_experiment_returns (λ _ _, None) Scenario.experiment). reflexivity. Defined.

(** X2. A run that returns has made every call: there is no way to the end of
    [run_experiment] that skips a step or goes through the handler. *)
Theorem run_experiment_returns_only_after_every_call
    (W : Main.World) (x : Main.ExperimentConfig) :
  result (Main.run_experiment W x) Main.initial = Ok tt →
  Main.trace (final (Main.run_experiment W x) Main.initial) =
    Observed.setup_calls x ++ Observed.run_calls.
Proof.
  unfold result, final, Main.run_experiment, Main.try_except_Exception_as_e, Main.call.
  exec.
  repeat (match goal with
          | |- context [is_Exception ?ex] => destruct (is_Exception ex)
          | |- context [W ?tr ?ev] => destruct (W tr ev) eqn:?
          end; exec; try done).
Qed.

Lemma run_experiment_returns_only_after_every_call_witness :
  Main.trace (final (Main.run_experiment (λ _ _, None) Scenario.experiment) Main.initial) =
    Observed.setup_calls Scenario.experiment ++ Observed.run_calls.
Proof.
  apply (run_experiment_returns_only_after_every_call (λ _ _, None) Scenario.experiment).
  vm_compute. reflexivity.
Defined.

(** X3. An exception that is not an [Exception] (a [KeyboardInterrupt], say),
    raised by one of the calls of the [try] body while every other call
    returns, goes through [except Exception] untouched: the caller gets it,
    the calls stop there, nothing is logged, and unless it was [clean] itself
    that raised, the backend is not cleaned. *)
Theorem run_experiment_lets_base_exceptions_through
    (W : Main.World) (x : Main.ExperimentConfig) (ev0 : Main.Event) (ex : Exn) :
  ev0 ∈ Observed.run_calls →
  is_Exception ex = false →
  (∀ tr, W tr ev0 = Some ex) →
  (∀ tr ev, ev ≠ ev0 → W tr ev = None) →
  let s' := final (Main.run_experiment W x) Main.initial in
  result (Main.run_experiment W x) Main.initial = Raise ex
  ∧ Main.trace s' = Observed.setup_calls x ++ Observed.until ev0 Observed.run_calls
  ∧ (ev0 ≠ Main.EvBackendClean → Main.EvBackendClean ∉ Main.trace s').
Proof.
  intros Hev Hex Hfail Hother. cbv zeta.
  unfold result, final, Main.run_experiment, Main.try_except_Exception_as_e, Main.call.
  unfold Observed.run_calls in Hev.
  repeat (apply elem_of_cons in Hev as [-> | Hev]);
    [.. | by apply elem_of_nil in Hev];
    exec; repeat (rewrite Hother by done; exec); rewrite Hfail; exec; rewrite Hex; exec;
    (split_and!; [done | done |]); intros Hne Hin; try done;
    repeat (apply elem_of_cons in Hin as [[=] | Hin]); by apply elem_of_nil in Hin.
Qed.

Lemma run_experiment_lets_base_exceptions_through_witness :
  let W : Main.World := λ _ ev,
    if decide (ev = Main.EvBenchmarkRun) then Some KeyboardInterrupt else None in
  let s' := final (Main.run_experiment W Scenario.experiment) Main.initial in
  result (Main.run_experiment W Scenario.experiment) Main.initial = Raise KeyboardInterrupt
  ∧ Main.trace s' =
      Observed.setup_calls Scenario.experiment
        ++ Observed.until Main.EvBenchmarkRun Observed.run_calls
  ∧ (Main.EvBenchmarkRun ≠ Main.EvBackendClean → Main.EvBackendClean ∉ Main.trace s').
Proof.
  cbv zeta.
  apply (run_experiment_lets_base_exceptions_through _ Scenario.experiment
           Main.EvBenchmarkRun KeyboardInterrupt).
  - vm_compute. set_solver.
  - reflexivity.
  - intros tr. reflexivity.
  - intros tr ev Hne. by rewrite decide_False.
Defined.

(** X4. An [Exception] raised by [backend.configure], [benchmark.run] or
    [benchmark.save], every other call returning: the calls stop there, the
    error is logged, the backend is cleaned exactly once, and what the caller
    gets is the [UnboundLocalError] of line 134. *)
Theorem run_experiment_cleans_once_and_raises_unbound_e
    (W : Main.World) (x : Main.ExperimentConfig) (ev0 : Main.Event) (ex : Exn) :
  ev0 ∈ [Main.EvBackendConfigure; Main.EvBenchmarkRun; Main.EvBenchmarkSave] →
  is_Exception ex = true →
  (∀ tr, W tr ev0 = Some ex) →
  (∀ tr ev, ev ≠ ev0 → W tr ev = None) →
  Main.run_experiment W x Main.initial =
    (Raise (UnboundLocalError "e"),
     {| Main.trace :=
          Observed.setup_calls x ++ Observed.until ev0 Observed.run_calls
            ++ [Main.EvLogError ex; Main.EvBackendClean];
        Main.raised_error := Some true;
        Main.e := None |}).
Proof.
  intros Hev Hex Hfail Hother.
  unfold Main.run_experiment, Main.try_except_Exception_as_e, Main.call.
  repeat (apply elem_of_cons in Hev as [-> | Hev]);
    [.. | by apply elem_of_nil in Hev];
    exec; repeat (rewrite Hother by done; exec); rewrite Hfail; exec; rewrite Hex; exec;
    repeat (rewrite Hother by done; exec); done.
Qed.

Lemma run_experiment_cleans_once_and_raises_unbound_e_witness :
  let W : Main.World := λ _ ev,
    if decide (ev = Main.EvBenchmarkSave) then Some (LibraryError "disk full") else None in
  Main.run_experiment W Scenario.experiment Main.initial =
    (Raise (UnboundLocalError "e"),
     {| Main.trace :=
          Observed.setup_calls Scenario.experiment
            ++ Observed.until Main.EvBenchmarkSave Observed.run_calls
            ++ [Main.EvLogError (LibraryError "disk full"); Main.EvBackendClean];
        Main.raised_error := Some true;
        Main.e := None |}).
Proof.
  cbv zeta.
  apply (run_experiment_cleans_once_and_raises_unbound_e _ Scenario.experiment
           Main.EvBenchmarkSave (LibraryError "disk full")).
  - vm_compute. set_solver.
  - reflexivity.
  - intros tr. reflexivity.
  - intros tr ev Hne. by rewrite decide_False.
Defined.

(** X5. When it is [backend.clean] that raises an [Exception], at the end of
    the [try] body and again in the handler, the backend has been cleaned
    twice, and the caller gets the exception of the second attempt: the
    handler does not get to line 131. *)
Theorem run_experiment_retries_a_failing_clean
    (W : Main.World) (x : Main.ExperimentConfig) (ex : Exn) :
  is_Exception ex = true →
  (∀ tr, W tr Main.EvBackendClean = Some ex) →
  (∀ tr ev, ev ≠ Main.EvBackendClean → W tr ev = None) →
  Main.run_experiment W x Main.initial =
    (Raise ex,
     {| Main.trace :=
          Observed.setup_calls x ++ Observed.run_calls
            ++ [Main.EvLogError ex; Main.EvBackendClean];
        Main.raised_error := None;
        Main.e := None |}).
Proof.
  intros Hex Hfail Hother.
  unfold Main.run_experiment, Main.try_except_Exception_as_e, Main.call.
  exec. repeat (rewrite Hother by done; exec). rewrite Hfail. exec. rewrite Hex. exec.
  rewrite Hother by done. exec. rewrite Hfail. by exec.
Qed.

Lemma run_experiment_retries_a_failing_clean_witness :
  let W : Main.World := λ _ ev,
    if decide (ev = Main.EvBackendClean) then Some (LibraryError "busy") else None in
  Main.run_experiment W Scenario.experiment Main.initial =
    (Raise (LibraryError "busy"),
     {| Main.trace :=
          Observed.setup_calls Scenario.experiment ++ Observed.run_calls
            ++ [Main.EvLogError (LibraryError "busy"); Main.EvBackendClean];
        Main.raised_error := None;
        Main.e := None |}).
Proof.
  cbv zeta.
  apply (run_experiment_retries_a_failing_clean _ Scenario.experiment (LibraryError "busy")).
  - reflexivity.
  - intros tr. reflexivity.
  - intros tr ev Hne. by rewrite decide_False.
Defined.

(** ** The graph files *)

Lemma string_app_cons (a : Ascii.ascii) (s t : string) :
  (String a s ++ t = String a (s ++ t))%string.
Proof. reflexivity. Qed.

Lemma substring_all (s : string) : String.substring 0 (String.length s) s = s.
Proof. induction s as [|a s IH]; [done |]. cbn. by rewrite IH. Qed.

Lemma substring_app_drop (p suffix : string) :
  String.substring (String.length p) (String.length suffix) (p ++ suffix)%string = suffix.
Proof.
  induction p as [|a p IH]; [apply substring_all | by rewrite string_app_cons].
Qed.

Lemma substring_split (s : string) (i : nat) :
  (i ≤ String.length s)%nat →
  s = (String.substring 0 i s ++ String.substring i (String.length s - i) s)%string.
Proof.
  revert i. induction s as [|a s IH]; intros i Hi.
  - by destruct i.
  - destruct i as [|i]; cbn.
    + by rewrite substring_all.
    + cbn in Hi. rewrite string_app_cons. f_equal. apply IH. lia.
Qed.

Lemma string_length_app (p q : string) :
  String.length (p ++ q)%string = (String.length p + String.length q)%nat.
Proof. induction p; [done | rewrite string_app_cons; cbn; by f_equal]. Qed.

(** [endswith] holds of the strings that are something followed by the
    suffix. *)
Lemma endswith_spec (s suffix : string) :
  endswith s suffix = true ↔ ∃ stem, s = (stem ++ suffix)%string.
Proof.
  unfold endswith. rewrite andb_true_iff, Nat.leb_le, String.eqb_eq. split.
  - intros [Hle Hsub]. remember (String.length suffix) as k eqn:Hk. clear Hk.
    exists (String.substring 0 (String.length s - k) s). rewrite <- Hsub.
    pose proof (substring_split s (String.length s - k)) as Hsplit.
    replace (String.length s - (String.length s - k))%nat with k in Hsplit by lia.
    apply Hsplit. lia.
  - intros [p ->]. rewrite string_length_app. split; [lia |].
    replace (String.length p + String.length suffix - String.length suffix)%nat
      with (String.length p) by lia.
    apply substring_app_drop.
Qed.

(** X6. Lines 153-163. [onnx_files_names] changes nothing. On a path that is
    not a directory it raises [AssertionError]. On a directory it returns, in
    the order of the listing, the entries whose name is a stem followed by
    [.onnx], without the two decoder files when [use_merged] is set. *)
Theorem onnx_files_names_lists_the_graph_files
    (W : ORT.World) (I : ORT.Imports) (s : ORT.State) :
  final (ORT.onnx_files_names W I) s = s
  ∧ match ORT.listdir W (ORT.trace s) (ORT.model (ORT.config s)) with
    | None =>
        result (ORT.onnx_files_names W I) s =
          Raise (AssertionError (ORT.model (ORT.config s) ++ " is not a directory")%string)
    | Some entries =>
        ∃ files,
          result (ORT.onnx_files_names W I) s = Ok files
          ∧ files `sublist_of` entries
          ∧ ∀ f, f ∈ files ↔
                 f ∈ entries
                 ∧ (∃ stem, f = (stem ++ ".onnx")%string)
                 ∧ (ORT.use_merged (ORT.config s) = true →
                    f ≠ ORT.ONNX_DECODER_NAME I ∧ f ≠ ORT.ONNX_DECODER_WITH_PAST_NAME I)
    end.
Proof.
  split; [apply onnx_files_names_final |].
  unfold result, ORT.onnx_files_names. exec.
  destruct (ORT.listdir W _ _) as [entries|]; exec; [| done].
  destruct (ORT.use_merged (ORT.config s)); exec; eexists;
    (split_and!; [done | apply sublist_filter |]); intros f;
    rewrite list_elem_of_filter, endswith_spec.
  - rewrite !not_elem_of_cons. split.
    + intros [[(Hd & Hp & _) Hstem] Hin]. by repeat split.
    + intros (Hin & Hstem & Hnot). destruct Hnot as [Hd Hp]; [done |].
      repeat split; try done. apply not_elem_of_nil.
  - split.
    + intros [Hstem Hin]. by repeat split.
    + intros (Hin & Hstem & _). by split.
Qed.

(** ** The session options *)

Section ORT_session_options.
Import ORT.
Variable W : World.

(** The loop of lines 44-45, when it returns: every entry has been set on
    the [SessionOptions] object, one call per entry, in the order of the
    entries. *)
Lemma set_session_options_loop (items : list (string * pyval)) :
  ∀ (s : State) (acc : kwargs),
    self_session_options s = Some acc →
    result (for_each items
              (λ '(key, v),
                 call W (EvSetattr key v) ;;
                 so ← attr "session_options" self_session_options ;
                 modify (set_self_session_options (<[key := v]> so)))) s = Ok tt →
    let s' := final (for_each items
                       (λ '(key, v),
                          call W (EvSetattr key v) ;;
                          so ← attr "session_options" self_session_options ;
                          modify (set_self_session_options (<[key := v]> so)))) s in
    self_session_options s' = Some (list_to_map (reverse items) ∪ acc)
    ∧ trace s' = trace s ++ map (λ kv, EvSetattr kv.1 kv.2) items
    ∧ config s' = config s.
Proof.
  induction items as [|[k v] items IH]; intros s acc Hacc.
  { intros _. cbn. by rewrite (left_id_L ∅ (∪)), app_nil_r. }
  unfold result, final. cbn [for_each]. ort_exec. rewrite Hacc.
  destruct (fails W (trace s) (EvSetattr k v)); ort_exec; [done |].
  match goal with |- context [for_each items ?body ?s0] =>
    specialize (IH s0 (<[k := v]> acc) eq_refl) end.
  unfold result, final in IH. intros Hok. destruct (IH Hok) as (Hso & Htr & Hc).
  rewrite Hso, Htr, Hc. split_and!; [| cbn; by rewrite <- app_assoc | done].
  change (rev_append items [(k, v)]) with (reverse ((k, v) :: items)).
  rewrite reverse_cons, list_to_map_app. f_equal.
  change (list_to_map [(k, v)]) with (<[k := v]> (∅ : kwargs)).
  by rewrite insert_empty, <- (assoc_L (∪)), <- insert_union_singleton_l.
Qed.

(** X7. Lines 41-45. When the session options have been processed, the
    [SessionOptions] object of the backend holds the configured entries and
    nothing else; it was created first and each entry was set by one call. *)
Theorem session_options_are_the_configured_ones (s : State) :
  result (process_session_options W) s = Ok tt →
  let s' := final (process_session_options W) s in
  self_session_options s' = Some (session_options (config s))
  ∧ config s' = config s
  ∧ ∃ sets,
      trace s' = trace s ++ EvSessionOptions :: sets
      ∧ sets ≡ₚ map (λ kv, EvSetattr kv.1 kv.2) (map_to_list (session_options (config s))).
Proof.
  unfold result, final, process_session_options. ort_exec.
  destruct (fails W (trace s) EvSessionOptions); ort_exec; [done |].
  destruct (decide (session_options (config s) = ∅)) as [Hempty | Hne].
  - rewrite bool_decide_eq_false_2 by (by intros ?). rewrite when_false. ort_exec.
    intros _. rewrite Hempty. split_and!; [done | done |].
    exists []. by rewrite map_to_list_empty.
  - rewrite bool_decide_eq_true_2 by done. rewrite when_true. intros Hok.
    match type of Hok with context [for_each ?items ?body ?s0] =>
      destruct (set_session_options_loop items s0 ∅ eq_refl Hok) as (Hso & Htr & Hc) end.
    unfold final in *. rewrite Hso, Htr, Hc. cbn. split_and!; [| done |].
    + rewrite (right_id_L ∅ (∪)).
      rewrite <- (list_to_map_proper (map_to_list (session_options (config s)))).
      * by rewrite list_to_map_to_list.
      * apply NoDup_fst_map_to_list.
      * symmetry. apply reverse_Permutation.
    + eexists. split; [by rewrite <- app_assoc | done].
Qed.

End ORT_session_options.

Lemma session_options_are_the_configured_ones_witness :
  let s := Scenario.ort_created Fixture.ort_config_threads in
  let s' := final (ORT.process_session_options Scenario.ort_world) s in
  ORT.self_session_options s' = Some (ORT.session_options (ORT.config s))
  ∧ ORT.config s' = ORT.config s
  ∧ ∃ sets,
      ORT.trace s' = ORT.trace s ++ ORT.EvSessionOptions :: sets
      ∧ sets ≡ₚ map (λ kv, ORT.EvSetattr kv.1 kv.2)
                  (map_to_list (ORT.session_options (ORT.config s))).
Proof.
  cbv zeta.
  apply (session_options_are_the_configured_ones Scenario.ort_world
           (Scenario.ort_created Fixture.ort_config_threads)).
  vm_compute. reflexivity.
Defined.

(** ** Loading without weights *)

Section ORT_no_weights.
Import ORT.
Variable W : World.
Variable I : Imports.

(** [with random_init_weights(): body] when entering and leaving the
    context raise nothing: the body decides. *)
Lemma ort_with_random_init_weights_run (body : M State unit) (s s2 : State) (r : Res unit) :
  fails W (trace s) EvRandomInitEnter = None →
  body (log EvRandomInitEnter s) = (r, s2) →
  with_random_init_weights W body s =
    (match fails W (trace s2) EvRandomInitExit with Some ex => Raise ex | None => r end,
     log EvRandomInitExit s2).
Proof.
  intros Henter Hbody. unfold with_random_init_weights.
  rewrite run_call, Henter, Hbody, run_call.
  destruct r as [[]|ex], (fails W (trace s2) EvRandomInitExit); done.
Qed.

Lemma ort_with_random_init_weights_ok (body : M State unit) (s : State) :
  result (with_random_init_weights W body) s = Ok tt →
  ∃ s2, body (log EvRandomInitEnter s) = (Ok tt, s2)
        ∧ final (with_random_init_weights W body) s = log EvRandomInitExit s2.
Proof.
  unfold result, final, with_random_init_weights. rewrite run_call.
  destruct (fails W (trace s) EvRandomInitEnter); cbn; [done |].
  destruct (body (log EvRandomInitEnter s)) as [[[]|ex] s2]; cbn;
    rewrite run_call; destruct (fails W (trace s2) EvRandomInitExit); cbn; try done.
  intros _. by exists s2.
Qed.

(** Lines 95-107, when they run to their end. *)
Lemma ort_create_no_weights_model_ok (s : State) :
  result (create_no_weights_model W) s = Ok tt →
  ∃ tmp, tmpdir s = Some tmp ∧
    let dir := path_join tmp "no_weights_model" in
    final (create_no_weights_model W) s =
      set_no_weights_model dir
        (foldl (λ s' ev, log ev s') s
           ([EvMakedirs dir; EvSaveFile (path_join dir "model.safetensors")]
              ++ (if bool_decide (library (config s) = "transformers")
                  then [EvSavePretrainedConfig dir] else []))).
Proof.
  unfold result, final, create_no_weights_model. ort_exec.
  destruct (tmpdir s) as [tmp|]; ort_exec; [|done].
  destruct (fails W (trace s) _); ort_exec; [done|].
  destruct (fails W (trace s ++ _) _); ort_exec; [done|].
  destruct (bool_decide (library (config s) = "transformers")).
  - rewrite when_true. ort_exec.
    destruct (pretrained_config s); ort_exec; [|done].
    destruct (fails W _ _); ort_exec; [done|].
    intros _. by exists tmp.
  - rewrite when_false. ort_exec. intros _. by exists tmp.
Qed.

Lemma ort_set_model_model (c : Config) : set_model (model c) c = c.
Proof. by destruct c. Qed.

Lemma ort_set_export_export (c : Config) : set_export (export c) c = c.
Proof. by destruct c. Qed.

Lemma ort_set_config_config (s : State) : set_config (config s) s = s.
Proof. by destruct s. Qed.

(** X8. Lines 109-117. A no-weights load that returns has made the synthetic
    directory, has loaded the model from it inside [random_init_weights]
    with the [export] flag of the configuration, and has left the whole
    configuration as it found it. *)
Theorem ort_no_weights_load_goes_through_the_synthetic_directory (s : State) :
  result (load_ortmodel_with_no_weights W I) s = Ok tt →
  let s' := final (load_ortmodel_with_no_weights W I) s in
  config s' = config s
  ∧ ∃ tmp cls so,
      tmpdir s = Some tmp ∧ ortmodel_class s = Some cls ∧ self_session_options s = Some so ∧
      let dir := path_join tmp "no_weights_model" in
      let loaded :=
        trace s
          ++ [EvMakedirs dir; EvSaveFile (path_join dir "model.safetensors")]
          ++ (if bool_decide (library (config s) = "transformers")
              then [EvSavePretrainedConfig dir] else [])
          ++ [EvRandomInitEnter;
              EvFromPretrained cls
                {| la_model := dir; la_export := export (config s);
                   la_session_options := so;
                   la_provider_options := provider_options (config s);
                   la_use_io_binding := use_io_binding (config s);
                   la_provider := provider (config s);
                   la_hub_kwargs := hub_kwargs (config s);
                   la_kwargs := ortmodel_kwargs I (config s) |}] in
      no_weights_model s' = Some dir
      ∧ pretrained_model s' = Some (loaded_model W loaded)
      ∧ trace s' = loaded ++ [EvRandomInitExit].
Proof.
  unfold result, final. intros H.
  destruct (load_ortmodel_with_no_weights W I s) as [r s'] eqn:Hrun.
  cbn in *. subst r. unfold load_ortmodel_with_no_weights in Hrun. exec in Hrun.
  pose proof (ort_create_no_weights_model_ok s) as Hcreate.
  rewrite (run_surjective (create_no_weights_model W) s) in Hrun.
  destruct (result (create_no_weights_model W) s) as [[]|]; [|done].
  destruct Hcreate as (tmp & Htmp & Hfin); [done|]. cbv zeta in Hfin.
  rewrite Hfin in Hrun. clear Hfin.
  match type of Hrun with context [with_random_init_weights W ?body ?s0] =>
    pose proof (ort_with_random_init_weights_ok body s0) as Hbody;
    rewrite (run_surjective (with_random_init_weights W body) s0) in Hrun;
    destruct (result (with_random_init_weights W body) s0) as [[]|]; [|done];
    destruct Hbody as (s2 & Hbody & Hfin); [done|]; rewrite Hfin in Hrun; clear Hfin
  end.
  injection Hrun as <-.
  unfold load_ortmodel_from_pretrained in Hbody.
  destruct (bool_decide (library (config s) = "transformers"));
    ort_exec in Hbody;
    (destruct (ortmodel_class s) as [cls|]; ort_exec in Hbody; [|done]);
    (destruct (self_session_options s) as [so|]; ort_exec in Hbody; [|done]);
    (destruct (fails W _ _); ort_exec in Hbody; [done|]);
    injection Hbody as <-; cbn;
    (split; [by destruct (config s) |]); exists tmp, cls, so;
    rewrite <- ?app_assoc; by split_and!.
Qed.

(** X9. Lines 113-117, when the load raises. The context manager is left, the
    exception goes on to the caller, and line 117 has not run: the
    configuration still names the synthetic directory as its model. The
    model the backend held before, if any, is the one it still holds. *)
Theorem ort_no_weights_load_failure_leaves_the_model_repointed
    (s : State) (tmp cls : string) (so : kwargs) (ex : Exn) :
  result (create_no_weights_model W) s = Ok tt →
  tmpdir s = Some tmp → ortmodel_class s = Some cls → self_session_options s = Some so →
  let dir := path_join tmp "no_weights_model" in
  let created :=
    trace s
      ++ [EvMakedirs dir; EvSaveFile (path_join dir "model.safetensors")]
      ++ (if bool_decide (library (config s) = "transformers")
          then [EvSavePretrainedConfig dir] else []) in
  let load :=
    EvFromPretrained cls
      {| la_model := dir; la_export := export (config s);
         la_session_options := so;
         la_provider_options := provider_options (config s);
         la_use_io_binding := use_io_binding (config s);
         la_provider := provider (config s);
         la_hub_kwargs := hub_kwargs (config s);
         la_kwargs := ortmodel_kwargs I (config s) |} in
  fails W created EvRandomInitEnter = None →
  fails W (created ++ [EvRandomInitEnter]) load = Some ex →
  let s' := final (load_ortmodel_with_no_weights W I) s in
  result (load_ortmodel_with_no_weights W I) s =
    Raise (match fails W (created ++ [EvRandomInitEnter; load]) EvRandomInitExit with
           | Some ex' => ex'
           | None => ex
           end)
  ∧ config s' = set_model dir (config s)
  ∧ pretrained_model s' = pretrained_model s
  ∧ trace s' = created ++ [EvRandomInitEnter; load; EvRandomInitExit].
Proof.
  intros Hok Htmp Hcls Hso dir created load Henter Hload.
  destruct (ort_create_no_weights_model_ok s Hok) as (tmp' & Htmp' & Hfin).
  rewrite Htmp in Htmp'. injection Htmp' as <-. cbv zeta in Hfin. fold dir in Hfin.
  unfold result, final, load_ortmodel_with_no_weights.
  rewrite run_bind, (run_surjective (create_no_weights_model W) s), Hok, Hfin.
  remember (set_no_weights_model dir _) as s0 eqn:Hs0.
  assert (Hfacts : trace s0 = created ∧ config s0 = config s
                   ∧ pretrained_model s0 = pretrained_model s
                   ∧ ortmodel_class s0 = Some cls ∧ self_session_options s0 = Some so
                   ∧ no_weights_model s0 = Some dir).
  { subst s0 created. cbn. destruct (bool_decide _); cbn; by rewrite <- ?app_assoc. }
  clear Hs0. destruct Hfacts as (Htr0 & Hc0 & Hpm0 & Hcls0 & Hso0 & Hnw0).
  erewrite ort_with_random_init_weights_run; [| by rewrite Htr0 |].
  2: { unfold load_ortmodel_from_pretrained. ort_exec.
       rewrite Hnw0. ort_exec. rewrite Hcls0. ort_exec. rewrite Hso0. ort_exec.
       rewrite Hc0, Htr0.
       change (ortmodel_kwargs I (set_model dir (config s)))
         with (ortmodel_kwargs I (config s)).
       fold load.
       rewrite Hload. reflexivity. }
  cbn. rewrite Htr0, Hpm0, <- !app_assoc. cbn.
  split_and!; [| done..].
  by destruct (fails W _ EvRandomInitExit).
Qed.

End ORT_no_weights.

Lemma ort_no_weights_load_goes_through_the_synthetic_directory_witness :
  let W := Scenario.ort_world in
  let I := Scenario.ort_imports in
  let s := Scenario.ort_loaded
             (Scenario.ort_config_plain "text-classification" "CPUExecutionProvider") in
  let s' := final (ORT.load_ortmodel_with_no_weights W I) s in
  result (ORT.load_ortmodel_with_no_weights W I) s = Ok tt
  ∧ ORT.config s' = ORT.config s
  ∧ ORT.no_weights_model s' = Some "/tmp/tmpdir/no_weights_model".
Proof.
  cbv zeta.
  assert (Hok : result (ORT.load_ortmodel_with_no_weights Scenario.ort_world
                          Scenario.ort_imports)
                  (Scenario.ort_loaded
                     (Scenario.ort_config_plain "text-classification"
                        "CPUExecutionProvider")) = Ok tt)
    by (vm_compute; reflexivity).
  destruct (ort_no_weights_load_goes_through_the_synthetic_directory
              Scenario.ort_world Scenario.ort_imports _ Hok)
    as (Hc & tmp & cls & so & Htmp & _ & _ & Hdir & _).
  injection Htmp as <-. by split_and!.
Defined.

Lemma ort_no_weights_load_failure_leaves_the_model_repointed_witness :
  let W := Scenario.ort_reload_fails in
  let I := Scenario.ort_imports in
  let s := Scenario.ort_loaded Scenario.ort_config_presets in
  let s' := final (ORT.load_ortmodel_with_no_weights W I) s in
  result (ORT.load_ortmodel_with_no_weights W I) s = Raise (LibraryError "cannot load")
  ∧ ORT.model (ORT.config s) = "/cache/bert-base-uncased-onnx"
  ∧ ORT.model (ORT.config s') = "/tmp/tmpdir/no_weights_model".
Proof.
  cbv zeta.
  destruct (ort_no_weights_load_failure_leaves_the_model_repointed
              Scenario.ort_reload_fails Scenario.ort_imports
              (Scenario.ort_loaded Scenario.ort_config_presets)
              "/tmp/tmpdir" "optimum.onnxruntime.ORTModelForSequenceClassification"
              ∅ (LibraryError "cannot load"))
    as (Hr & Hc & _ & _); try (vm_compute; reflexivity).
  split_and!; [by rewrite Hr | done | by rewrite Hc].
Defined.

(** ** The reload after the stages *)

(** A goal about the state a program ends in, when the property holds of
    the state it starts in and the program keeps it. *)
Ltac by_frame :=
  lazymatch goal with
  | |- ?f (snd (?m ?s0)) = ?v =>
      let Hm := fresh "Hm" in
      assert (Hm : maintains (λ s', f s' = v) m); [| exact (Hm s0 eq_refl)]
  end.

Section ORT_reload.
Import ORT.
Variable W : World.
Variable I : Imports.

(** The output directories are named first, lines 176 and 206, whatever
    happens afterwards. *)
Lemma optimize_onnx_files_names_its_output (s : State) (tmp : string) :
  tmpdir s = Some tmp →
  optimized_model (final (optimize_onnx_files W I) s) = Some (path_join tmp "optimized").
Proof.
  intros Htmp. unfold final, optimize_onnx_files.
  rewrite run_bind, run_attr, Htmp. cbv beta iota.
  rewrite run_bind, run_modify. cbv beta iota.
  by_frame.
  frame; try apply maintains_attr; try apply maintains_call;
    try apply maintains_onnx_files_names; try apply maintains_save_preprocessors;
    by intros.
Qed.

Lemma quantize_onnx_files_names_its_output (s : State) (tmp : string) :
  tmpdir s = Some tmp →
  quantized_model (final (quantize_onnx_files W I) s) = Some (tmp ++ "/quantized_model")%string.
Proof.
  intros Htmp. unfold final, quantize_onnx_files.
  rewrite run_bind, run_attr, Htmp. cbv beta iota.
  rewrite run_bind, run_modify. cbv beta iota.
  by_frame.
  frame; try apply maintains_attr; try apply maintains_onnx_files_names;
    try apply maintains_process_quantization_config;
    try apply maintains_process_calibration;
    try apply maintains_quantize_onnx_file;
    try apply maintains_save_preprocessors;
    by intros.
Qed.

Lemma optimize_onnx_files_needs_workspace (s : State) :
  result (optimize_onnx_files W I) s = Ok tt → is_Some (tmpdir s).
Proof.
  unfold result, optimize_onnx_files. rewrite run_bind, run_attr.
  by destruct (tmpdir s).
Qed.

Lemma quantize_onnx_files_needs_workspace (s : State) :
  result (quantize_onnx_files W I) s = Ok tt → is_Some (tmpdir s).
Proof.
  unfold result, quantize_onnx_files. rewrite run_bind, run_attr.
  by destruct (tmpdir s).
Qed.

Lemma optimize_onnx_files_frame (s : State) :
  Stage.untouched s (final (optimize_onnx_files W I) s).
Proof. by apply (maintains_optimize_onnx_files W I (Stage.untouched s)). Qed.

Lemma quantize_onnx_files_frame (s : State) :
  Stage.untouched s (final (quantize_onnx_files W I) s).
Proof. by apply (maintains_quantize_onnx_files W I (Stage.untouched s)). Qed.

(** Lines 60-63 and 65-68, when they return: a stage that runs points
    [model] at its output directory. *)
Lemma optimize_stage_ok (b : bool) (s0 : State) :
  let stage := when b (optimize_onnx_files W I ;;
                       dir ← attr "optimized_model" optimized_model ;
                       assign_model dir) in
  result stage s0 = Ok tt →
  let s1 := final stage s0 in
  tmpdir s1 = tmpdir s0 ∧ ortmodel_class s1 = ortmodel_class s0
  ∧ self_session_options s1 = self_session_options s0
  ∧ if b then ∃ tmp, tmpdir s0 = Some tmp
                     ∧ config s1 = set_model (path_join tmp "optimized") (config s0)
    else config s1 = config s0.
Proof.
  cbv zeta. destruct b; [rewrite when_true | by rewrite when_false].
  unfold result, final.
  rewrite run_bind, (run_surjective (optimize_onnx_files W I) s0).
  pose proof (optimize_onnx_files_frame s0) as (Hc & Htmp & Hcls & Hso).
  pose proof (optimize_onnx_files_needs_workspace s0) as Hws.
  pose proof (optimize_onnx_files_names_its_output s0) as Hout.
  destruct (result (optimize_onnx_files W I) s0) as [[]|]; [| done].
  destruct Hws as [tmp Hws]; [done |]. specialize (Hout tmp Hws).
  generalize dependent (final (optimize_onnx_files W I) s0). intros s1 Hc Htmp Hcls Hso Hout.
  ort_exec. rewrite Hout. ort_exec. intros _. split_and!; [done..|].
  exists tmp. by rewrite Hc.
Qed.

Lemma quantize_stage_ok (b : bool) (s0 : State) :
  let stage := when b (quantize_onnx_files W I ;;
                       dir ← attr "quantized_model" quantized_model ;
                       assign_model dir) in
  result stage s0 = Ok tt →
  let s1 := final stage s0 in
  tmpdir s1 = tmpdir s0 ∧ ortmodel_class s1 = ortmodel_class s0
  ∧ self_session_options s1 = self_session_options s0
  ∧ if b then ∃ tmp, tmpdir s0 = Some tmp
                     ∧ config s1 = set_model (tmp ++ "/quantized_model")%string (config s0)
    else config s1 = config s0.
Proof.
  cbv zeta. destruct b; [rewrite when_true | by rewrite when_false].
  unfold result, final.
  rewrite run_bind, (run_surjective (quantize_onnx_files W I) s0).
  pose proof (quantize_onnx_files_frame s0) as (Hc & Htmp & Hcls & Hso).
  pose proof (quantize_onnx_files_needs_workspace s0) as Hws.
  pose proof (quantize_onnx_files_names_its_output s0) as Hout.
  destruct (result (quantize_onnx_files W I) s0) as [[]|]; [| done].
  destruct Hws as [tmp Hws]; [done |]. specialize (Hout tmp Hws).
  generalize dependent (final (quantize_onnx_files W I) s0). intros s1 Hc Htmp Hcls Hso Hout.
  ort_exec. rewrite Hout. ort_exec. intros _. split_and!; [done..|].
  exists tmp. by rewrite Hc.
Qed.

(** X10. Lines 57-74. When a stage has run and the reload has returned, the
    model the backend holds was loaded last, with [export=False], from the
    directory of the last stage that ran: the quantized model if the
    configuration asks for quantization, the optimized one otherwise. The
    configuration is the one the stages started with. *)
Theorem reload_takes_the_last_artifact (s s' : State) :
  is_optimized (config s) || is_quantized (config s) = true →
  optimize_quantize_reload W I s = (Ok tt, s') →
  ∃ tmp cls so tr,
    tmpdir s = Some tmp ∧ ortmodel_class s = Some cls ∧ self_session_options s = Some so ∧
    let artifact :=
      if is_quantized (config s) then (tmp ++ "/quantized_model")%string
      else path_join tmp "optimized" in
    let load :=
      EvFromPretrained cls
        {| la_model := artifact; la_export := false;
           la_session_options := so;
           la_provider_options := provider_options (config s);
           la_use_io_binding := use_io_binding (config s);
           la_provider := provider (config s);
           la_hub_kwargs := hub_kwargs (config s);
           la_kwargs := ortmodel_kwargs I (config s) |} in
    trace s' = tr ++ [load]
    ∧ pretrained_model s' = Some (loaded_model W (tr ++ [load]))
    ∧ config s' = config s.
Proof.
  intros E H. unfold optimize_quantize_reload in H. exec in H. rewrite E in H.
  ort_exec in H.
  destruct (pretrained_model s) as [m|]; ort_exec in H; [|done].
  change (is_optimized (set_model (model_save_dir m) (config s)))
    with (is_optimized (config s)) in H.
  match type of H with context [when ?b ?body ?s0] =>
    pose proof (optimize_stage_ok b s0) as Hopt; cbv zeta in Hopt;
    rewrite (run_surjective (when b body) s0) in H;
    destruct (result (when b body) s0) as [[]|]; [|done];
    destruct (Hopt eq_refl) as (Htmp1 & Hcls1 & Hso1 & Hc1); clear Hopt;
    generalize dependent (final (when b body) s0); intros s1 ? ? ? ? ?
  end.
  cbn in Htmp1, Hcls1, Hso1, Hc1. exec in H.
  assert (Hq1 : is_quantized (config s1) = is_quantized (config s)).
  { destruct (is_optimized (config s)); [destruct Hc1 as (? & _ & ->) | rewrite Hc1]; done. }
  rewrite Hq1 in H.
  match type of H with context [when ?b ?body ?s0] =>
    pose proof (quantize_stage_ok b s0) as Hqu; cbv zeta in Hqu;
    rewrite (run_surjective (when b body) s0) in H;
    destruct (result (when b body) s0) as [[]|]; [|done];
    destruct (Hqu eq_refl) as (Htmp2 & Hcls2 & Hso2 & Hc2); clear Hqu;
    generalize dependent (final (when b body) s0); intros s2 ? ? ? ? ?
  end.
  exec in H.
  assert (Hart : ∃ tmp, tmpdir s = Some tmp ∧
            config s2 =
              set_model (if is_quantized (config s) then (tmp ++ "/quantized_model")%string
                         else path_join tmp "optimized") (config s)).
  { destruct (is_quantized (config s)).
    - destruct Hc2 as (tmp & Htmp & ->). exists tmp. split; [congruence |].
      destruct (is_optimized (config s)); [destruct Hc1 as (? & _ & ->) | rewrite Hc1];
        by destruct (config s).
    - rewrite Hc2. rewrite orb_false_r in E. rewrite E in Hc1.
      destruct Hc1 as (tmp & Htmp & ->). exists tmp. split; [done |].
      by destruct (config s). }
  destruct Hart as (tmp & Htmp & Hc).
  rewrite Hc in H.
  change (is_optimized (set_model ?v (config s))) with (is_optimized (config s)) in H.
  change (is_quantized (set_model ?v (config s))) with (is_quantized (config s)) in H.
  rewrite E, when_true in H. unfold load_ortmodel_from_pretrained in H.
  ort_exec in H. rewrite Hc, Hcls2, Hcls1 in H. cbn in H.
  destruct (ortmodel_class s) as [cls|]; ort_exec in H; [|done].
  rewrite Hso2, Hso1 in H. cbn in H.
  destruct (self_session_options s) as [so|]; ort_exec in H; [|done].
  destruct (fails W _ _); ort_exec in H; [done|].
  injection H as <-. cbn.
  exists tmp, cls, so, (trace s2). split_and!; try done.
  by destruct (config s).
Qed.

End ORT_reload.

Lemma reload_takes_the_last_artifact_witness :
  let W := Scenario.ort_world in
  let I := Scenario.ort_imports in
  let s := Scenario.ort_loaded Scenario.ort_config_presets in
  let s' := final (ORT.optimize_quantize_reload W I) s in
  ∃ tr,
    ORT.trace s' =
      tr ++ [ORT.EvFromPretrained "optimum.onnxruntime.ORTModelForSequenceClassification"
               {| ORT.la_model := "/tmp/tmpdir/quantized_model"; ORT.la_export := false;
                  ORT.la_session_options := ∅; ORT.la_provider_options := ∅;
                  ORT.la_use_io_binding := false;
                  ORT.la_provider := "CPUExecutionProvider";
                  ORT.la_hub_kwargs := ∅; ORT.la_kwargs := ∅ |}]
    ∧ ORT.config s' = ORT.config s.
Proof.
  cbv zeta.
  destruct (reload_takes_the_last_artifact Scenario.ort_world Scenario.ort_imports
              (Scenario.ort_loaded Scenario.ort_config_presets)
              (final (ORT.optimize_quantize_reload Scenario.ort_world Scenario.ort_imports)
                 (Scenario.ort_loaded Scenario.ort_config_presets)))
    as (tmp & cls & so & tr & Htmp & Hcls & Hso & Htr & _ & Hc).
  - vm_compute. reflexivity.
  - vm_compute. reflexivity.
  - injection Htmp as <-. injection Hcls as <-. injection Hso as <-.
    exists tr. split; [exact Htr | exact Hc].
Defined.

(** ** Quantization without calibration *)

Section ORT_dynamic.
Import ORT.
Variable W : World.
Variable I : Imports.

Lemma maintains_and {S A} (P Q : S → Prop) (m : M S A) :
  maintains P m → maintains Q m → maintains (λ s, P s ∧ Q s) m.
Proof. intros HP HQ s [Hp Hq]. split; [by apply HP | by apply HQ]. Qed.

(** X11. Lines 204-280. When the configuration asks for no calibration,
    [quantize_onnx_files] generates no dataset, builds no calibration
    configuration, fits no range, and hands the quantizer no range: this
    holds of every call it makes, however it ends. *)
Theorem quantization_without_calibration_is_dynamic (s : State) :
  is_calibrated (config s) = false →
  extends Stage.dynamic (trace s) (final (quantize_onnx_files W I) s).
Proof.
  intros Hcal.
  set (Inv := λ s', config s' = config s ∧ extends Stage.dynamic (trace s) s').
  assert (Hlog : ∀ ev s', Stage.dynamic ev → Inv s' → Inv (log ev s')).
  { intros ev s' Hev [Hc Hext]. split; [done | by apply extends_log]. }
  assert (Hcall : ∀ ev, Stage.dynamic ev → maintains Inv (call W ev)).
  { intros ev Hev s' Hs'. unfold final. rewrite run_call. by apply Hlog. }
  assert (Hfile : ∀ qc ds cc f, maintains Inv (quantize_onnx_file W qc ds cc f)).
  { intros qc ds cc f s' [Hc Hext]. unfold final, quantize_onnx_file. ort_exec.
    rewrite Hc, Hcal.
    destruct (fails W (trace s') _); ort_exec; [by apply Hlog |].
    destruct (quantized_model s') as [dir|]; ort_exec; [| by apply Hlog].
    destruct qc as [q|]; ort_exec; [| by apply Hlog].
    by repeat apply Hlog. }
  assert (Hcalib : maintains Inv (process_calibration W I)).
  { intros s' [Hc Hext]. unfold final, process_calibration. ort_exec.
    by rewrite Hc, Hcal. }
  enough (Hm : maintains Inv (quantize_onnx_files W I))
    by (apply Hm; split; [done | by apply extends_refl]).
  unfold quantize_onnx_files.
  frame; try apply maintains_attr; try apply maintains_onnx_files_names;
    try apply Hfile; try apply Hcalib.
  - match goal with H : Inv _ |- _ => destruct H as [Hc Hext] end. by split.
  - unfold process_quantization_config. frame; by apply Hcall.
  - unfold save_preprocessors. frame; by apply Hcall.
Qed.

End ORT_dynamic.

Lemma quantization_without_calibration_is_dynamic_witness :
  ORT.extends Stage.dynamic []
    (final (ORT.quantize_onnx_files Scenario.ort_two_graphs Scenario.ort_imports)
       (Scenario.ort_loaded Fixture.ort_config_dynamic)).
Proof.
  apply (quantization_without_calibration_is_dynamic Scenario.ort_two_graphs
           Scenario.ort_imports (Scenario.ort_loaded Fixture.ort_config_dynamic)).
  vm_compute. reflexivity.
Defined.

(** ** One quantizer per graph file *)

Lemma run_bind_ok {S A B} (m : M S A) (k : A → M S B) (s s' : S) (b : B) :
  (m ≫= k) s = (Ok b, s') → ∃ a s1, m s = (Ok a, s1) ∧ k a s1 = (Ok b, s').
Proof.
  rewrite run_bind. destruct (m s) as [[a|ex] s1]; [| done]. intros H. by exists a, s1.
Qed.

Lemma maintains_run {S A} (Inv : S → Prop) (m : M S A) (s s1 : S) (r : Res A) :
  maintains Inv m → m s = (r, s1) → Inv s → Inv s1.
Proof. intros Hm Hrun Hs. specialize (Hm s Hs). unfold final in Hm. by rewrite Hrun in Hm. Qed.

Section ORT_files.
Import ORT.
Variable W : World.
Variable I : Imports.

(** One round of the loop, lines 249-276, when it returns. *)
Lemma quantize_onnx_file_ok qc ds cc (f : string) (s s' : State) :
  quantize_onnx_file W qc ds cc f s = (Ok tt, s') →
  config s' = config s
  ∧ Stage.quantized_files (trace s') = Stage.quantized_files (trace s) ++ [f]
  ∧ Stage.quantizer_files (trace s') = Stage.quantizer_files (trace s) ++ [f].
Proof.
  unfold quantize_onnx_file. ort_exec.
  destruct (fails W (trace s) _); ort_exec; [done |].
  destruct (is_calibrated (config s)); ort_exec.
  - destruct ds as [d|]; ort_exec; [| done].
    destruct cc as [c|]; ort_exec; [| done].
    destruct qc as [q|]; ort_exec; [| done].
    match goal with |- context [fails W ?tr ?ev] => destruct (fails W tr ev) end;
      ort_exec; [done |].
    destruct (quantized_model s) as [dir|]; ort_exec; [| done].
    match goal with |- context [fails W ?tr ?ev] => destruct (fails W tr ev) end;
      ort_exec; [done |].
    intros [= <-]. cbn. unfold Stage.quantized_files, Stage.quantizer_files.
    rewrite !omap_app. cbn. by rewrite !app_nil_r, <- ?app_assoc.
  - destruct (quantized_model s) as [dir|]; ort_exec; [| done].
    destruct qc as [q|]; ort_exec; [| done].
    match goal with |- context [fails W ?tr ?ev] => destruct (fails W tr ev) end;
      ort_exec; [done |].
    intros [= <-]. cbn. unfold Stage.quantized_files, Stage.quantizer_files.
    rewrite !omap_app. cbn. by rewrite !app_nil_r, <- ?app_assoc.
Qed.

Lemma quantize_loop_ok qc ds cc (files : list string) :
  ∀ s s',
    for_each files (quantize_onnx_file W qc ds cc) s = (Ok tt, s') →
    config s' = config s
    ∧ Stage.quantized_files (trace s') = Stage.quantized_files (trace s) ++ files
    ∧ Stage.quantizer_files (trace s') = Stage.quantizer_files (trace s) ++ files.
Proof.
  induction files as [|f files IH]; intros s s' H.
  { cbn in H. injection H as <-. by rewrite !app_nil_r. }
  cbn [for_each] in H. apply run_bind_ok in H as ([] & s1 & H1 & H).
  apply quantize_onnx_file_ok in H1 as (Hc1 & Hq1 & Hz1).
  apply IH in H as (Hc & Hq & Hz).
  rewrite Hc, Hq, Hz, Hc1, Hq1, Hz1, <- !app_assoc. done.
Qed.

(** X12. Lines 204-280, for a model directory whose listing does not change
    while the stage runs. When [quantize_onnx_files] returns, it has created
    one quantizer for each graph file of the directory and has run it once,
    file by file in the order of the listing; there is no other
    quantization. *)
Theorem every_graph_file_is_quantized_once (s s' : State) (entries : list string) :
  (∀ tr, listdir W tr (model (config s)) = Some entries) →
  quantize_onnx_files W I s = (Ok tt, s') →
  ∃ files,
    result (onnx_files_names W I) s = Ok files
    ∧ Stage.quantizer_files (trace s') = Stage.quantizer_files (trace s) ++ files
    ∧ Stage.quantized_files (trace s') = Stage.quantized_files (trace s) ++ files.
Proof.
  intros Hlist H.
  set (Q := λ s0, config s0 = config s
                  ∧ Stage.quantizer_files (trace s0) = Stage.quantizer_files (trace s)
                  ∧ Stage.quantized_files (trace s0) = Stage.quantized_files (trace s)).
  assert (Hcall : ∀ ev,
            match ev with
            | EvQuantize _ _ _ _ | EvQuantizerFromPretrained _ _ => False
            | _ => True
            end → maintains Q (call W ev)).
  { intros ev Hev s0 (Hc & Hz & Hq). unfold final. rewrite run_call. cbn.
    unfold Q, Stage.quantized_files, Stage.quantizer_files in *. cbn.
    rewrite !omap_app. cbn. destruct ev; try done; cbn; by rewrite !app_nil_r. }
  assert (Hfiles : ∀ s0, config s0 = config s →
            result (onnx_files_names W I) s0 = result (onnx_files_names W I) s).
  { intros s0 Hc. unfold result, onnx_files_names. exec. rewrite Hc, !Hlist.
    by destruct (use_merged (config s)). }
  unfold quantize_onnx_files in H.
  apply run_bind_ok in H as (tmp & s1 & H1 & H).
  apply (maintains_run Q) in H1; [| apply maintains_attr | done].
  apply run_bind_ok in H as ([] & s2 & H2 & H).
  apply (maintains_run Q) in H2; [| by frame | done].
  apply run_bind_ok in H as (c & s3 & H3 & H).
  apply (maintains_run Q) in H3; [| by frame | done].
  apply run_bind_ok in H as ([] & s4 & H4 & H).
  apply (maintains_run Q) in H4; [| frame; apply maintains_onnx_files_names | done].
  apply run_bind_ok in H as (qc & s5 & H5 & H).
  apply (maintains_run Q) in H5;
    [| unfold process_quantization_config; frame; by apply Hcall | done].
  apply run_bind_ok in H as ([ds cc] & s6 & H6 & H).
  apply (maintains_run Q) in H6;
    [| unfold process_calibration; frame; try apply maintains_inputs_names; by apply Hcall
     | done].
  apply run_bind_ok in H as (files & s7 & H7 & H).
  pose proof (onnx_files_names_final W I s6) as Hfin.
  pose proof (Hfiles s6 (proj1 H6)) as Hres.
  unfold final, result in Hfin, Hres. rewrite H7 in Hfin, Hres. cbn in Hfin, Hres. subst s7.
  apply run_bind_ok in H as ([] & s8 & H8 & H).
  apply quantize_loop_ok in H8 as (Hc8 & Hz8 & Hq8).
  assert (Q8 : config s8 = config s
               ∧ Stage.quantizer_files (trace s8) = Stage.quantizer_files (trace s) ++ files
               ∧ Stage.quantized_files (trace s8) = Stage.quantized_files (trace s) ++ files).
  { destruct H6 as (Hc6 & Hz6 & Hq6). by rewrite Hc8, Hz8, Hq8, Hc6, Hz6, Hq6. }
  clear Hc8 Hz8 Hq8.
  exists files. split; [done |].
  assert (Hcall' : ∀ ev,
            match ev with
            | EvQuantize _ _ _ _ | EvQuantizerFromPretrained _ _ => False
            | _ => True
            end →
            maintains (λ s0, Stage.quantizer_files (trace s0) =
                               Stage.quantizer_files (trace s) ++ files
                             ∧ Stage.quantized_files (trace s0) =
                               Stage.quantized_files (trace s) ++ files) (call W ev)).
  { intros ev Hev s0 (Hz & Hq). unfold final. rewrite run_call. cbn.
    unfold Stage.quantized_files, Stage.quantizer_files in *.
    rewrite !omap_app, Hz, Hq. cbn. destruct ev; try done; cbn; by rewrite !app_nil_r. }
  eapply (maintains_run
            (λ s0, Stage.quantizer_files (trace s0) = Stage.quantizer_files (trace s) ++ files
                   ∧ Stage.quantized_files (trace s0) =
                     Stage.quantized_files (trace s) ++ files));
    [| exact H | exact (proj2 Q8)].
  frame; [apply maintains_attr |]. unfold save_preprocessors. frame; by apply Hcall'.
Qed.

End ORT_files.

Lemma every_graph_file_is_quantized_once_witness :
  let W := Scenario.ort_two_graphs in
  let I := Scenario.ort_imports in
  let s := Scenario.ort_loaded Fixture.ort_config_dynamic in
  let s' := final (ORT.quantize_onnx_files W I) s in
  Stage.quantizer_files (ORT.trace s') = ["encoder_model.onnx"; "decoder_model.onnx"]
  ∧ Stage.quantized_files (ORT.trace s') = ["encoder_model.onnx"; "decoder_model.onnx"].
Proof.
  cbv zeta.
  destruct (every_graph_file_is_quantized_once Scenario.ort_two_graphs Scenario.ort_imports
              (Scenario.ort_loaded Fixture.ort_config_dynamic)
              (final (ORT.quantize_onnx_files Scenario.ort_two_graphs Scenario.ort_imports)
                 (Scenario.ort_loaded Fixture.ort_config_dynamic))
              ["config.json"; "encoder_model.onnx"; "decoder_model.onnx"])
    as (files & Hfiles & Hz & Hq).
  - intros tr. reflexivity.
  - vm_compute. reflexivity.
  - assert (files = ["encoder_model.onnx"; "decoder_model.onnx"]) as ->.
    { vm_compute in Hfiles. by injection Hfiles as <-. }
    split; [exact Hz | exact Hq].
Defined.

(** ** The calibration dataset *)

Lemma filter_not_removed (names l' l : list string) :
  l ⊆ l' →
  filter (λ c, c ∉ filter (λ col, col ∉ names) l') l = filter (λ c, c ∈ names) l.
Proof.
  induction l as [|x l IH]; intros Hsub; [done |].
  assert (Hx : x ∈ l') by (apply Hsub; by left).
  assert (Hl : l ⊆ l') by (intros y Hy; apply Hsub; by right).
  rewrite !filter_cons. destruct (decide (x ∈ names)) as [Hin | Hout].
  - rewrite decide_True; [by rewrite IH |].
    rewrite list_elem_of_filter. by intros [? _].
  - rewrite decide_False; [by apply IH |].
    intros Hn. apply Hn. by apply list_elem_of_filter.
Qed.

(** [remove_columns] of the columns that are not among [names] keeps the
    columns that are, in their order. *)
Lemma remove_columns_keeps (d : Dataset) (names : list string) :
  column_names (remove_columns d (filter (λ c, c ∉ names) (column_names d))) =
    filter (λ c, c ∈ names) (column_names d).
Proof. unfold remove_columns. cbn. by apply filter_not_removed. Qed.

Section ORT_calibration.
Import ORT.
Variable W : World.
Variable I : Imports.

Lemma inputs_names_ext (s1 s2 : State) :
  pretrained_model s1 = pretrained_model s2 →
  result inputs_names s1 = result inputs_names s2.
Proof.
  intros Hm. unfold result, inputs_names. ort_exec. rewrite Hm.
  destruct (pretrained_model s2) as [m|]; ort_exec; [| done].
  by destruct (inputs_names_attr m), (input_names_attr m).
Qed.

(** X13. Lines 223-246. With calibration on, when the locals
    [calibration_dataset] and [calibration_config] have been computed: the
    dataset is the generated one with the columns the model does not take as
    inputs removed, the others in their order; a preset builds the
    configuration from that dataset and the preset's options, and without a
    preset the configuration is built from the dataset's split, size and
    configuration name and the options as the configuration has them (what
    [format_calibration_config] returned at line 239 is overwritten at
    line 240). *)
Theorem calibration_dataset_keeps_only_the_model_inputs
    (s : State) (ods : option Dataset) (occ : option CalibrationCfg) :
  is_calibrated (config s) = true →
  result (process_calibration W I) s = Ok (ods, occ) →
  ∃ names ds,
    result inputs_names s = Ok names ∧ ods = Some ds ∧
    let c := config s in
    let generated :=
      generated_dataset W
        (trace s ++ [EvDatasetGenerator (task c)
                       (model_shapes s
                          ∪ <["sequence_length" := PInt 1]> (<["dataset_size" := PInt 1]> ∅))
                       (model_shapes s)]) in
    column_names ds = filter (λ col, col ∈ names) (column_names generated)
    ∧ split ds = split generated
    ∧ num_rows ds = num_rows generated
    ∧ config_name ds = config_name generated
    ∧ occ = Some
              match auto_calibration c with
              | Some method => AutoCalibrationConfig method ds (auto_calibration_config c)
              | None =>
                  CalibrationConfig "calibration_dataset" (split ds) (num_rows ds)
                    (config_name ds) (calibration_config c)
              end.
Proof.
  intros Hcal H. unfold result, process_calibration in H. ort_exec in H.
  rewrite Hcal in H. ort_exec in H.
  destruct (fails W (trace s) _); ort_exec in H; [done |].
  match type of H with context [inputs_names ?s0] =>
    assert (Hn : result inputs_names s0 = result inputs_names s)
      by (by apply inputs_names_ext);
    rewrite (run_surjective inputs_names s0), inputs_names_final, Hn in H
  end.
  destruct (result inputs_names s) as [names|]; ort_exec in H; [| done].
  assert (Hcfg : ∃ cfg, auto_calibration (config s) = cfg
            ∧ (cfg = None → calibration (config s) = true)) .
  { eexists. split; [done |]. intros Hauto. unfold is_calibrated in Hcal.
    rewrite Hauto in Hcal. by rewrite bool_decide_eq_false_2 in Hcal by (by intros ?). }
  destruct Hcfg as (cfg & Hauto & Hman). cbv zeta. rewrite Hauto in H |- *.
  destruct cfg as [method|]; [| rewrite Hman in H by done]; ort_exec in H;
    (match type of H with context [fails W ?tr ?ev] => destruct (fails W tr ev) end);
    ort_exec in H; try done;
    injection H as <- <-; eexists names, _; (split_and!; try done);
    apply remove_columns_keeps.
Qed.

End ORT_calibration.

Lemma calibration_dataset_keeps_only_the_model_inputs_witness :
  let W := Scenario.ort_world in
  let I := Scenario.ort_imports in
  let s := Scenario.ort_loaded Scenario.ort_config_presets in
  ∃ ds occ,
    result (ORT.process_calibration W I) s = Ok (Some ds, occ)
    ∧ column_names ds = ["input_ids"; "attention_mask"].
Proof.
  cbv zeta.
  destruct (ORT.process_calibration Scenario.ort_world Scenario.ort_imports
              (Scenario.ort_loaded Scenario.ort_config_presets)) as [[[ods occ]|ex] s1] eqn:Hrun;
    [| by vm_compute in Hrun].
  assert (Hres : result (ORT.process_calibration Scenario.ort_world Scenario.ort_imports)
                   (Scenario.ort_loaded Scenario.ort_config_presets) = Ok (ods, occ))
    by (unfold result; by rewrite Hrun).
  destruct (calibration_dataset_keeps_only_the_model_inputs Scenario.ort_world
              Scenario.ort_imports (Scenario.ort_loaded Scenario.ort_config_presets)
              ods occ)
    as (names & ds & Hnames & -> & Hcols & _); [vm_compute; reflexivity | exact Hres |].
  exists ds, occ. split; [exact Hres |].
  rewrite Hcols. vm_compute in Hnames. injection Hnames as <-.
  vm_compute. reflexivity.
Defined.

(** ** Inputs that are not tensors *)

Section ORT_text_inputs.
Import ORT.
Variable I : Imports.

(** The loop of lines 288-292 stops at the first entry outside the
    problematic set whose value has no method [to]. *)
Lemma prepare_items_text (s : State) (m : LoadedModel) (key t : string) items :
  pretrained_model s = Some m →
  (key, Text t) ∈ items → key ∉ PROBLEMATIC_INPUTS →
  ∀ acc, prepare_items items acc s = (Raise (AttributeError "to"), s).
Proof.
  intros Hm Hin Hkey.
  assert (Hnames : ∃ names, inputs_names s = (Ok names, s)).
  { unfold inputs_names. ort_exec. rewrite Hm. ort_exec.
    destruct (inputs_names_attr m), (input_names_attr m); by eexists. }
  destruct Hnames as [names Hnames].
  induction items as [|[k0 v0] items IH]; intros acc; [by apply elem_of_nil in Hin |].
  cbn [prepare_items].
  destruct (decide (k0 ∈ PROBLEMATIC_INPUTS)) as [Hprob | Hprob].
  - rewrite bool_decide_eq_false_2 by (by intros ?). rewrite run_bind, Hnames.
    apply elem_of_cons in Hin as [[= -> <-] | Hin]; [done |].
    destruct (bool_decide (k0 ∉ names)); by apply IH.
  - rewrite bool_decide_eq_true_2 by done. exec.
    destruct v0 as [data dev | t0]; exec; [| done].
    apply elem_of_cons in Hin as [[=] | Hin]. by apply IH.
Qed.

(** X14. Lines 287-292. Outside diffusers the onnxruntime backend takes every
    input that is not in the problematic set for a tensor: if the base class
    hands over a string under such a key, [prepare_inputs] raises the
    [AttributeError] of [str.to] and nothing of the backend has changed. For
    diffusers the same string under [prompt] is what it returns. *)
Theorem ort_prepare_inputs_takes_the_inputs_for_tensors
    (s s0 : State) (inputs inputs0 : gmap string value) (m : LoadedModel) (key t : string) :
  Backend_prepare_inputs I inputs s = (Ok inputs0, s0) →
  pretrained_model s0 = Some m →
  inputs0 !! key = Some (Text t) →
  key ∉ PROBLEMATIC_INPUTS →
  prepare_inputs I inputs s =
    (if decide (library (config s0) = "diffusers") then
       match inputs0 !! "prompt" with
       | Some prompt => Ok {["prompt" := prompt]}
       | None => Raise (KeyError "prompt")
       end
     else Raise (AttributeError "to"), s0).
Proof.
  intros Hbase Hm Hkey Hprob. unfold prepare_inputs. rewrite run_bind, Hbase. exec.
  destruct (decide (library (config s0) = "diffusers")) as [Hlib | Hlib].
  - rewrite bool_decide_eq_true_2 by done. by destruct (inputs0 !! "prompt").
  - rewrite bool_decide_eq_false_2 by done.
    apply (prepare_items_text s0 m key t); [done | | done].
    by apply elem_of_map_to_list.
Qed.

End ORT_text_inputs.

Lemma ort_prepare_inputs_takes_the_inputs_for_tensors_witness :
  let s := Scenario.ort_ready
             (Scenario.ort_config_plain "text-classification" "CUDAExecutionProvider")
             Scenario.ort_model_with_token_types in
  ORT.prepare_inputs Scenario.ort_imports Fixture.prompt_inputs s =
    (Raise (AttributeError "to"), s).
Proof.
  cbv zeta.
  rewrite (ort_prepare_inputs_takes_the_inputs_for_tensors Scenario.ort_imports
             (Scenario.ort_ready
                (Scenario.ort_config_plain "text-classification" "CUDAExecutionProvider")
                Scenario.ort_model_with_token_types)
             (Scenario.ort_ready
                (Scenario.ort_config_plain "text-classification" "CUDAExecutionProvider")
                Scenario.ort_model_with_token_types)
             Fixture.prompt_inputs Fixture.prompt_inputs
             Scenario.ort_model_with_token_types "prompt" "a photo of a cat").
  - reflexivity.
  - reflexivity.
  - reflexivity.
  - vm_compute. reflexivity.
  - intros Hin. repeat (apply elem_of_cons in Hin as [[=] | Hin]).
    by apply elem_of_nil in Hin.
Defined.

(** ** The openvino backend: quantization *)

Section OV_quantization.
Import OV.
Variable W : World.
Variable I : Imports.

Lemma ov_set_model_set_model (v : string) (c : Config) :
  set_model (model c) (set_model v c) = c.
Proof. by destruct c. Qed.

(** X15. Lines 91-102. A no-weights load of the AutoModel that returns has made
    the synthetic directory, has loaded the model from it inside
    [random_init_weights], and has tied the weights of that model once the
    context was left; the configuration is as it was. *)
Theorem ov_no_weights_automodel_is_tied_after_the_context (s : State) :
  result (load_automodel_with_no_weights W) s = Ok tt →
  let s' := final (load_automodel_with_no_weights W) s in
  config s' = config s
  ∧ ∃ tmp cls,
      tmpdir s = Some tmp ∧ automodel_class s = Some cls ∧
      let dir := path_join tmp "no_weights_model" in
      let loaded :=
        trace s
          ++ [EvMakedirs dir; EvSaveFile (path_join dir "model.safetensors")]
          ++ (if bool_decide (library (config s) = "transformers")
              then [EvSavePretrainedConfig dir] else [])
          ++ [EvRandomInitEnter;
              EvAutoModelFromPretrained cls dir (hub_kwargs (config s))] in
      pretrained_model s' = Some (loaded_model W loaded)
      ∧ trace s' = loaded ++ [EvRandomInitExit; EvTieWeights (loaded_model W loaded)].
Proof.
  unfold result, final. intros H.
  destruct (load_automodel_with_no_weights W s) as [r s'] eqn:Hrun.
  cbn in *. subst r. unfold load_automodel_with_no_weights in Hrun. exec in Hrun.
  pose proof (ov_create_no_weights_model_ok W s) as Hcreate.
  pose proof (ov_create_no_weights_model_config W s) as Hc1.
  pose proof (ov_maintains_create_no_weights_model W
                (λ s0, automodel_class s0 = automodel_class s)
                ltac:(done) ltac:(done) s eq_refl) as Hcls.
  rewrite (run_surjective (create_no_weights_model W) s) in Hrun.
  destruct (result (create_no_weights_model W) s) as [[]|]; [|done].
  destruct Hcreate as (tmp & Htmp & Hdir & _ & Htrace); [done|].
  generalize dependent (final (create_no_weights_model W) s).
  intros s0 Hrun Hc1 Hcls Hdir Htrace. exec in Hrun.
  match type of Hrun with context [with_random_init_weights W ?body ?s0] =>
    pose proof (ov_with_random_init_weights_ok W body s0) as Hbody;
    rewrite (run_surjective (with_random_init_weights W body) s0) in Hrun;
    destruct (result (with_random_init_weights W body) s0) as [[]|]; [|done];
    destruct Hbody as (s2 & Hbody & Hfin); [done|]; rewrite Hfin in Hrun; clear Hfin
  end.
  unfold load_automodel_from_pretrained in Hbody.
  ov_exec in Hbody. rewrite Hdir in Hbody. ov_exec in Hbody. rewrite Hcls in Hbody.
  destruct (automodel_class s) as [cls|]; ov_exec in Hbody; [|done].
  match type of Hbody with context [fails W ?tr ?ev] => destruct (fails W tr ev) end;
    ov_exec in Hbody; [done|].
  injection Hbody as <-. ov_exec in Hrun.
  match type of Hrun with context [fails W ?tr ?ev] => destruct (fails W tr ev) end;
    ov_exec in Hrun; [done|].
  injection Hrun as <-. cbn. rewrite Hc1, Htrace.
  split; [by destruct (config s) |].
  exists tmp, cls. split_and!; [done | done | |].
  - do 2 f_equal. rewrite <- !app_assoc. cbn. by destruct (bool_decide _).
  - rewrite <- !app_assoc. cbn. destruct (bool_decide _); cbn; by rewrite <- ?app_assoc.
Qed.

(** The output directory is named first, line 141. *)
Lemma ov_quantize_automodel_names_its_output (s : State) (tmp : string) :
  tmpdir s = Some tmp →
  quantized_model (final (quantize_automodel W) s) = Some (tmp ++ "/quantized_model")%string.
Proof.
  intros Htmp. unfold final, quantize_automodel.
  rewrite run_bind, ov_run_attr, Htmp. cbv beta iota.
  rewrite run_bind, run_modify. cbv beta iota.
  by_frame.
  frame; try apply ov_maintains_attr; try apply ov_maintains_call; by intros.
Qed.

Lemma ov_quantize_automodel_needs_workspace (s : State) :
  result (quantize_automodel W) s = Ok tt → is_Some (tmpdir s).
Proof.
  unfold result, quantize_automodel. rewrite run_bind, ov_run_attr.
  by destruct (tmpdir s).
Qed.

(** X16. Lines 139-169. A quantization that returns has built the quantization
    configuration and the quantizer, and has then called [quantize] once, as
    the last thing it did. Without calibration no dataset is generated and
    [quantize] gets [None]; with calibration it gets the generated dataset
    without the columns that are not among the quantizer's input names, the
    others in their order. *)
Theorem ov_quantize_automodel_prunes_the_calibration_dataset (s : State) :
  result (quantize_automodel W) s = Ok tt →
  let s' := final (quantize_automodel W) s in
  ∃ tmp m ods,
    tmpdir s = Some tmp ∧ pretrained_model s = Some m ∧
    let c := config s in
    let made :=
      trace s ++ [EvOVQuantizationConfig (quantization_config c);
                  EvQuantizerFromPretrained m (task c) (seed c)] in
    let gen :=
      EvDatasetGenerator (task c)
        (model_shapes s ∪ <["sequence_length" := PInt 1]> (<["dataset_size" := PInt 1]> ∅))
        (model_shapes s) in
    let generated := generated_dataset W (made ++ [gen]) in
    config s' = c
    ∧ trace s' =
        made ++ (if calibration c then [gen] else [])
             ++ [EvQuantize (tmp ++ "/quantized_model")%string (quantization_config c) ods]
    ∧ if calibration c then
        ∃ ds, ods = Some ds
              ∧ column_names ds =
                  filter (λ col, col ∈ export_input_names W made) (column_names generated)
              ∧ split ds = split generated ∧ num_rows ds = num_rows generated
              ∧ config_name ds = config_name generated
      else ods = None.
Proof.
  unfold result, final, quantize_automodel. ov_exec.
  destruct (tmpdir s) as [tmp|]; ov_exec; [| done].
  destruct (fails W (trace s) _); ov_exec; [done |].
  destruct (pretrained_model s) as [m|]; ov_exec; [| done].
  match goal with |- context [fails W ?tr ?ev] => destruct (fails W tr ev) end;
    ov_exec; [done |].
  destruct (calibration (config s)); ov_exec.
  - match goal with |- context [fails W ?tr ?ev] => destruct (fails W tr ev) end;
      ov_exec; [done |].
    match goal with |- context [fails W ?tr ?ev] => destruct (fails W tr ev) end;
      ov_exec; [done |].
    intros _. eexists tmp, m, _. split_and!; [done | done | done | | ].
    + by rewrite <- !app_assoc.
    + eexists. split; [done |]. rewrite <- !app_assoc. split_and!; try done.
      apply remove_columns_keeps.
  - match goal with |- context [fails W ?tr ?ev] => destruct (fails W tr ev) end;
      ov_exec; [done |].
    intros _. eexists tmp, m, _. split_and!; [done | done | done | | done].
    by rewrite <- !app_assoc.
Qed.

(** Lines 44-59, when they run to their end. *)
Lemma ov_quantize_and_reload_ok (s s' : State) :
  quantize_and_reload W I s = (Ok tt, s') →
  ∃ tmp cls tr,
    tmpdir s = Some tmp ∧ ovmodel_class s = Some cls ∧
    let load :=
      EvOVModelFromPretrained cls
        {| la_model := (tmp ++ "/quantized_model")%string; la_export := false;
           la_ov_config := openvino_config (config s);
           la_device := device (config s);
           la_hub_kwargs := hub_kwargs (config s);
           la_kwargs := ovmodel_kwargs I (config s) |} in
    trace s' = tr ++ [load]
    ∧ pretrained_model s' = Some (loaded_model W (tr ++ [load]))
    ∧ config s' = config s.
Proof.
  intros H. unfold quantize_and_reload in H. exec in H.
  set (kept := λ s0 : State, tmpdir s0 = tmpdir s ∧ ovmodel_class s0 = ovmodel_class s).
  assert (∃ s1, config s1 = config s ∧ kept s1 ∧
            (quantize_automodel W ;;
             c ← gets config ;
             dir ← attr "quantized_model" quantized_model ;
             let original_model := model c in
             assign_model dir ;;
             c ← gets config ;
             let original_export := export c in
             assign_export false ;;
             load_ovmodel_from_pretrained W I ;;
             assign_model original_model ;;
             assign_export original_export) s1 = (Ok tt, s')) as (s1 & Hc1 & Hk1 & H1).
  { destruct (no_weights (config s)).
    - pose proof (ov_load_automodel_with_no_weights_restores W s) as Hr.
      pose proof (ov_maintains_load_automodel_with_no_weights W kept
                    ltac:(done) ltac:(done) ltac:(done) ltac:(done) s ltac:(done)) as Hk.
      rewrite (run_surjective (load_automodel_with_no_weights W) s) in H.
      destruct (result (load_automodel_with_no_weights W) s) as [[]|]; [|done].
      eexists. split; [by apply Hr | split; [exact Hk | exact H]].
    - pose proof (ov_load_automodel_from_pretrained_config W s) as Hr.
      pose proof (ov_maintains_load_automodel_from_pretrained W kept
                    ltac:(done) ltac:(done) s ltac:(done)) as Hk.
      rewrite (run_surjective (load_automodel_from_pretrained W) s) in H.
      destruct (result (load_automodel_from_pretrained W) s) as [[]|]; [|done].
      eexists. split; [exact Hr | split; [exact Hk | exact H]]. }
  clear H. destruct Hk1 as [Htmp1 Hcls1]. exec in H1.
  pose proof (ov_quantize_automodel_config W s1) as Hc2.
  pose proof (ov_quantize_automodel_needs_workspace s1) as Hws.
  pose proof (ov_quantize_automodel_names_its_output s1) as Hout.
  pose proof (ov_maintains_quantize_automodel W kept
                ltac:(done) ltac:(done) s1 ltac:(done)) as [Htmp2 Hcls2].
  rewrite (run_surjective (quantize_automodel W) s1) in H1.
  destruct (result (quantize_automodel W) s1) as [[]|]; [| done].
  destruct Hws as [tmp Hws]; [done |]. specialize (Hout tmp Hws).
  generalize dependent (final (quantize_automodel W) s1). intros s2 H1 Hc2 Hout Htmp2 Hcls2.
  ov_exec in H1. rewrite Hout in H1. ov_exec in H1.
  unfold load_ovmodel_from_pretrained in H1. ov_exec in H1.
  rewrite Hcls2 in H1.
  destruct (ovmodel_class s) as [cls|]; ov_exec in H1; [|done].
  match type of H1 with context [fails W ?tr ?ev] => destruct (fails W tr ev) end;
    ov_exec in H1; [done|].
  injection H1 as <-. cbn. rewrite Hc2, Hc1.
  exists tmp, cls, (trace s2). split_and!; try done.
  - congruence.
  - by destruct (config s).
Qed.

(** X17. Lines 44-59. When the quantization branch of [__init__] returns, the
    last call was the load of the OVModel from the directory the quantizer
    wrote to, with [export=False]; the backend holds that model, and the
    configuration is the one the branch started with. *)
Theorem ov_reload_takes_the_quantized_model (s s' : State) :
  quantize_and_reload W I s = (Ok tt, s') →
  ∃ tmp cls tr,
    tmpdir s = Some tmp ∧ ovmodel_class s = Some cls ∧
    let load :=
      EvOVModelFromPretrained cls
        {| la_model := (tmp ++ "/quantized_model")%string; la_export := false;
           la_ov_config := openvino_config (config s);
           la_device := device (config s);
           la_hub_kwargs := hub_kwargs (config s);
           la_kwargs := ovmodel_kwargs I (config s) |} in
    trace s' = tr ++ [load]
    ∧ pretrained_model s' = Some (loaded_model W (tr ++ [load]))
    ∧ config s' = config s.
Proof. apply ov_quantize_and_reload_ok. Qed.

End OV_quantization.

Lemma ov_no_weights_automodel_is_tied_after_the_context_witness :
  let W := Scenario.ov_world in
  let s := Scenario.ov_validated Scenario.ov_config in
  let s' := final (OV.load_automodel_with_no_weights W) s in
  OV.config s' = OV.config s
  ∧ ∃ tr, OV.trace s' = tr ++ [OV.EvRandomInitExit; OV.EvTieWeights {| OV.handle := "model" |}].
Proof.
  cbv zeta.
  destruct (ov_no_weights_automodel_is_tied_after_the_context Scenario.ov_world
              (Scenario.ov_validated Scenario.ov_config))
    as (Hc & tmp & cls & _ & _ & _ & Htr); [vm_compute; reflexivity |].
  split; [exact Hc |]. eexists. exact Htr.
Defined.

Lemma ov_quantize_automodel_prunes_the_calibration_dataset_witness :
  let W := Scenario.ov_world in
  let s := Fixture.ov_loaded Fixture.ov_config_calibrated in
  let s' := final (OV.quantize_automodel W) s in
  ∃ ds tr,
    OV.trace s' = tr ++ [OV.EvQuantize "/tmp/tmpdir/quantized_model" ∅ (Some ds)]
    ∧ column_names ds = ["input_ids"; "attention_mask"].
Proof.
  cbv zeta.
  destruct (ov_quantize_automodel_prunes_the_calibration_dataset Scenario.ov_world
              (Fixture.ov_loaded Fixture.ov_config_calibrated))
    as (tmp & m & ods & Htmp & Hm & _ & Htr & ds & -> & Hcols & _);
    [vm_compute; reflexivity |].
  injection Htmp as <-. exists ds. eexists. split.
  - rewrite app_assoc in Htr. exact Htr.
  - rewrite Hcols. vm_compute. reflexivity.
Defined.

Lemma ov_reload_takes_the_quantized_model_witness :
  let W := Scenario.ov_world in
  let I := Scenario.ov_imports in
  let s := Scenario.ov_validated Scenario.ov_config in
  let s' := final (OV.quantize_and_reload W I) s in
  ∃ tr,
    OV.trace s' =
      tr ++ [OV.EvOVModelFromPretrained
               "optimum.intel.openvino.OVModelForSequenceClassification"
               {| OV.la_model := "/tmp/tmpdir/quantized_model"; OV.la_export := false;
                  OV.la_ov_config := ∅; OV.la_device := "gpu";
                  OV.la_hub_kwargs := ∅; OV.la_kwargs := ∅ |}]
    ∧ OV.config s' = OV.config s.
Proof.
  cbv zeta.
  destruct (ov_reload_takes_the_quantized_model Scenario.ov_world Scenario.ov_imports
              (Scenario.ov_validated Scenario.ov_config)
              (final (OV.quantize_and_reload Scenario.ov_world Scenario.ov_imports)
                 (Scenario.ov_validated Scenario.ov_config)))
    as (tmp & cls & tr & Htmp & Hcls & Htr & _ & Hc); [vm_compute; reflexivity |].
  injection Htmp as <-. injection Hcls as <-.
  exists tr. split; [exact Htr | exact Hc].
Defined.

(** ** The openvino backend: preparing for inference *)

#[local] Arguments OVInference.call : simpl never.
#[local] Arguments OVInference.attr : simpl never.

Section OV_inference.
Import OVInference.
Variable W : World.

Lemma ovi_run_call (ev : Event) (s : State) :
  call W ev s =
  (match W (trace s) ev with Some ex => Raise ex | None => Ok tt end, log ev s).
Proof. unfold call. by destruct (W (trace s) ev). Qed.

Lemma ovi_run_attr {A} (name : string) (f : State → option A) (s : State) :
  attr name f s =
  (match f s with Some a => Ok a | None => Raise (AttributeError name) end, s).
Proof. unfold attr. exec. by destruct (f s). Qed.

(** X18. Lines 173-177. The static shapes are taken from the keyword arguments:
    they have an entry exactly for the keys that are arguments of the
    model's [reshape], and except for [sequence_length] the entry is the
    keyword argument itself. *)
Theorem static_shapes_are_the_reshape_arguments (args : list string) (kw : kwargs) :
  (∀ key, is_Some (static_shapes args kw !! key) ↔ key ∈ args ∧ is_Some (kw !! key))
  ∧ (∀ key, key ≠ "sequence_length" → key ∈ args → static_shapes args kw !! key = kw !! key).
Proof.
  assert (Hf : ∀ key,
            (filter (λ kv : string * pyval, kv.1 ∈ args) kw : kwargs) !! key =
              if decide (key ∈ args) then kw !! key else None).
  { intros key. destruct (decide (key ∈ args)) as [Hin | Hout].
    - destruct (kw !! key) as [v|] eqn:Hk.
      + by apply map_lookup_filter_Some.
      + apply map_lookup_filter_None. left. done.
    - apply map_lookup_filter_None. right. intros v _. done. }
  unfold static_shapes. cbv zeta. split; intros key.
  - destruct (bool_decide _) eqn:Hb.
    + apply bool_decide_eq_true in Hb as [_ Hseq]. rewrite Hf in Hseq.
      destruct (decide (key = "sequence_length")) as [-> | Hne].
      * rewrite lookup_insert_eq. destruct (decide ("sequence_length" ∈ args)); [| by destruct Hseq].
        split; [by intros _ | by intros _; eexists].
      * rewrite lookup_insert_ne by done. rewrite Hf.
        destruct (decide (key ∈ args)); [naive_solver |].
        split; [by intros [] | by intros []].
    + rewrite Hf. destruct (decide (key ∈ args)); [naive_solver |].
      split; [by intros [] | by intros []].
  - intros Hne Hin. destruct (bool_decide _).
    + rewrite lookup_insert_ne by done. by rewrite Hf, decide_True.
    + by rewrite Hf, decide_True.
Qed.

(** X19. Lines 178-179. When [reshape] takes a height and a sequence length and
    the keyword arguments give both, the height not being [None], the
    sequence length handed to [reshape] is the number of channels of the
    keyword arguments, and 3 when they give none. Without a height the
    sequence length is the one of the keyword arguments. *)
Theorem static_shapes_of_an_image_model
    (args : list string) (kw : kwargs) (h n : pyval) :
  "sequence_length" ∈ args →
  kw !! "sequence_length" = Some n →
  (* with a height *)
  ("height" ∈ args → kw !! "height" = Some h → h ≠ PNone →
   static_shapes args kw !! "sequence_length" = Some (default (PInt 3) (kw !! "num_channels")))
  (* without *)
  ∧ ("height" ∉ args ∨ kw !! "height" = None ∨ kw !! "height" = Some PNone →
     static_shapes args kw !! "sequence_length" = Some n).
Proof.
  intros Hseq Hn.
  assert (Hf : ∀ key, key ∈ args →
            (filter (λ kv : string * pyval, kv.1 ∈ args) kw : kwargs) !! key = kw !! key).
  { intros key Hin. destruct (kw !! key) as [v|] eqn:Hk.
    - by apply map_lookup_filter_Some.
    - apply map_lookup_filter_None. by left. }
  unfold static_shapes. cbv zeta. split.
  - intros Hh Hkh Hnone. rewrite bool_decide_eq_true_2.
    + by rewrite lookup_insert_eq.
    + rewrite !Hf, Hkh, Hn by done. split; [done | by eexists].
  - intros Hno. rewrite bool_decide_eq_false_2.
    + by rewrite Hf.
    + intros [Hh _]. destruct Hno as [Hout | [Hnone | Hnone]].
      * rewrite (proj2 (map_lookup_filter_None _ _ _)) in Hh; [done |].
        right. intros v _. done.
      * rewrite (proj2 (map_lookup_filter_None _ _ _)) in Hh; [done |]. by left.
      * destruct (decide ("height" ∈ args)) as [Hin | Hout].
        -- by rewrite Hf, Hnone in Hh.
        -- rewrite (proj2 (map_lookup_filter_None _ _ _)) in Hh; [done |].
           right. intros v _. done.
Qed.

(** X20. Lines 171-190. Without [reshape] and [half] the method does nothing,
    loaded model or not. Otherwise, when it returns, it has reshaped the
    model with the static shapes if [reshape] is set, then converted it to
    half precision if [half] is set, and compiled it last, once. *)
Theorem prepare_for_inference_compiles_last (kw : kwargs) (s : State) :
  (reshape (config s) = false → half (config s) = false →
   prepare_for_inference W kw s = (Ok tt, s))
  ∧ (result (prepare_for_inference W kw) s = Ok tt →
     reshape (config s) || half (config s) = true →
     ∃ m, pretrained_model s = Some m
          ∧ final (prepare_for_inference W kw) s =
              foldl (λ s' ev, log ev s') s
                ((if reshape (config s)
                  then [EvReshape (static_shapes (reshape_args m) kw)] else [])
                 ++ (if half (config s) then [EvHalf] else [])
                 ++ [EvCompile])).
Proof.
  unfold result, final, prepare_for_inference. split.
  - intros Hr Hh. exec. rewrite Hr, when_false. exec. rewrite Hh, when_false. exec.
    by rewrite Hr, Hh, when_false.
  - destruct (pretrained_model s) as [m|] eqn:Hm,
             (reshape (config s)) eqn:Hr, (half (config s)) eqn:Hh;
      repeat first
        [ rewrite ovi_run_attr | rewrite ovi_run_call | rewrite Hr | rewrite Hh
        | rewrite Hm | rewrite when_true | rewrite when_false | progress exec ];
      try done;
      repeat (match goal with |- context [W ?tr ?ev] => destruct (W tr ev) end;
              repeat first
                [ rewrite ovi_run_attr | rewrite ovi_run_call | rewrite Hr | rewrite Hh
                | rewrite Hm | rewrite when_true | rewrite when_false | progress exec ];
              try done);
      intros _ _; by exists m.
Qed.

End OV_inference.

Lemma static_shapes_of_an_image_model_witness :
  OVInference.static_shapes (OVInference.reshape_args Fixture.image_model)
    Fixture.image_shapes !! "sequence_length" = Some (PInt 3)
  ∧ OVInference.static_shapes (OVInference.reshape_args Fixture.image_model)
      Fixture.image_shapes !! "height" = Some (PInt 224)
  ∧ OVInference.static_shapes (OVInference.reshape_args Fixture.image_model)
      Fixture.image_shapes !! "num_choices" = None.
Proof.
  destruct (static_shapes_of_an_image_model
              (OVInference.reshape_args Fixture.image_model) Fixture.image_shapes
              (PInt 224) (PInt 16)) as [Himage _].
  - apply (proj1 (bool_decide_eq_true _)). vm_compute. reflexivity.
  - reflexivity.
  - split; [| split; vm_compute; reflexivity].
    rewrite Himage; [reflexivity | | reflexivity | done].
    apply (proj1 (bool_decide_eq_true _)). vm_compute. reflexivity.
Defined.

Lemma prepare_for_inference_compiles_last_witness :
  let W : OVInference.World := λ _ _, None in
  OVInference.prepare_for_inference W Fixture.image_shapes
    (Fixture.ov_inference false false None) =
    (Ok tt, Fixture.ov_inference false false None)
  ∧ OVInference.trace
      (final (OVInference.prepare_for_inference W Fixture.image_shapes)
         (Fixture.ov_inference true true (Some Fixture.pipeline))) =
      [OVInference.EvReshape
         {["batch_size" := PInt 1; "height" := PInt 224; "width" := PInt 224]};
       OVInference.EvHalf; OVInference.EvCompile].
Proof.
  cbv zeta. split.
  - apply (prepare_for_inference_compiles_last (λ _ _, None) Fixture.image_shapes
             (Fixture.ov_inference false false None)); reflexivity.
  - destruct (prepare_for_inference_compiles_last (λ _ _, None) Fixture.image_shapes
                (Fixture.ov_inference true true (Some Fixture.pipeline))) as [_ Hrun].
    destruct Hrun as (m & Hm & Hfin); [vm_compute; reflexivity | reflexivity |].
    injection Hm as <-. rewrite Hfin. vm_compute. reflexivity.
Defined.

(** ** A constructor that returns *)

Section ORT_init.
Import ORT.
Variable W : World.
Variable I : Imports.

(** A configuration is known by its fields [model] and [export] and by
    what it is without them. *)
Lemma config_eq_from_parts (c1 c2 : Config) :
  set_model "" (set_export false c1) = set_model "" (set_export false c2) →
  model c1 = model c2 → export c1 = export c2 → c1 = c2.
Proof. destruct c1, c2. cbn. intros [= -> -> -> -> -> -> -> -> -> -> -> -> -> -> -> -> -> -> -> -> -> -> ->] -> ->. done. Qed.

(** Nothing in the backend writes to another field of the configuration. *)
Lemma stages_write_model_and_export_only (s : State) :
  set_model "" (set_export false (config (final (optimize_quantize_reload W I) s))) =
    set_model "" (set_export false (config s)).
Proof.
  by apply (maintains_optimize_quantize_reload W I
              (λ s', set_model "" (set_export false (config s')) =
                     set_model "" (set_export false (config s)))).
Qed.

Lemma create_no_weights_model_config (s : State) :
  config (final (create_no_weights_model W) s) = config s.
Proof. by apply (maintains_create_no_weights_model W (λ s', config s' = config s)). Qed.

(** Lines 109-117, when they run to their end. *)
Lemma load_ortmodel_with_no_weights_restores (s : State) :
  result (load_ortmodel_with_no_weights W I) s = Ok tt →
  config (final (load_ortmodel_with_no_weights W I) s) = config s.
Proof.
  unfold result, final. intros H.
  destruct (load_ortmodel_with_no_weights W I s) as [r s'] eqn:Hrun.
  cbn in *. subst r. unfold load_ortmodel_with_no_weights in Hrun. exec in Hrun.
  run_proc Hrun (create_no_weights_model W)
    ltac:(fun s0 => pose proof (create_no_weights_model_config s0) as Hc1).
  match type of Hrun with context [with_random_init_weights W ?body ?s0] =>
    pose proof (ort_with_random_init_weights_ok W body s0) as Hbody;
    rewrite (run_surjective (with_random_init_weights W body) s0) in Hrun;
    destruct (result (with_random_init_weights W body) s0) as [[]|]; [|done];
    destruct Hbody as (s2 & Hbody & Hfin); [done|]; rewrite Hfin in Hrun; clear Hfin
  end.
  injection Hrun as <-. ort_exec in Hbody.
  match type of Hbody with context [no_weights_model ?s0] =>
    destruct (no_weights_model s0) as [dir|]; [|done] end.
  ort_exec in Hbody.
  run_proc Hbody (load_ortmodel_from_pretrained W I)
    ltac:(fun s0 => pose proof (load_ortmodel_from_pretrained_config W I s0) as Hc2).
  ort_exec in Hbody. injection Hbody as <-.
  cbn. rewrite Hc2. cbn. rewrite <- Hc1. by destruct (config s0).
Qed.

(** X21. Lines 37-77. When [__init__] returns: the configuration is the one
    the base class's initializer left, all fields; the backend holds a
    model whose first provider is the configured one; and the last call was
    the cleanup of the workspace the backend still names. *)
Theorem ort_init_returns_with_a_validated_model (s s' : State) :
  __init__ W I s = (Ok tt, s') →
  let s1 := final (Backend_init I) s in
  config s' = config s1
  ∧ ∃ tmp m rest tr,
      tmpdir s' = Some tmp
      ∧ pretrained_model s' = Some m
      ∧ providers m = provider (config s1) :: rest
      ∧ trace s' = tr ++ [EvTmpdirCleanup tmp].
Proof.
  intros H s1. unfold __init__ in H.
  apply run_bind_ok in H as ([] & s1' & H1 & H).
  assert (s1' = s1) as -> by (subst s1; unfold final; by rewrite H1). clear H1.
  apply run_bind_ok in H as ([] & s2 & H2 & H).
  apply (maintains_run (λ s0, config s0 = config s1)) in H2;
    [| by apply maintains_validate_task | done].
  apply run_bind_ok in H as ([] & s3 & H3 & H).
  apply (maintains_run (λ s0, config s0 = config s1)) in H3;
    [| by apply maintains_process_session_options | done].
  apply run_bind_ok in H as ([] & s4 & H4 & H).
  assert (Hc4 : config s4 = config s1).
  { eapply (maintains_run (λ s0, config s0 = config s1)); [| exact H4 | done].
    by apply maintains_create_tmpdir. }
  assert (Htmp4 : is_Some (tmpdir s4)).
  { unfold create_tmpdir in H4. ort_exec in H4.
    destruct (fails W (trace s3) EvTemporaryDirectory); ort_exec in H4; [done |].
    injection H4 as <-. by eexists. }
  destruct Htmp4 as [tmp Htmp4]. clear H4.
  apply run_bind_ok in H as (c & s4' & Hg & H). exec in Hg. injection Hg as <- <-.
  apply run_bind_ok in H as ([] & s5 & H5 & H).
  assert (Hc5 : config s5 = config s1 ∧ tmpdir s5 = Some tmp).
  { split.
    - destruct (no_weights (config s4)).
      + pose proof (load_ortmodel_with_no_weights_restores s4) as Hr.
        unfold result, final in Hr. rewrite H5 in Hr. cbn in Hr. by rewrite Hr.
      + pose proof (load_ortmodel_from_pretrained_config W I s4) as Hr.
        unfold final in Hr. rewrite H5 in Hr. cbn in Hr. by rewrite Hr.
    - eapply (maintains_run (λ s0, tmpdir s0 = Some tmp)); [| exact H5 | done].
      destruct (no_weights (config s4));
        [by apply maintains_load_ortmodel_with_no_weights
        | by apply maintains_load_ortmodel_from_pretrained]. }
  clear H5. destruct Hc5 as [Hc5 Htmp5].
  apply run_bind_ok in H as ([] & s6 & H6 & H).
  assert (Hc6 : config s6 = config s1 ∧ tmpdir s6 = Some tmp).
  { split.
    - rewrite <- Hc5. apply config_eq_from_parts.
      + pose proof (stages_write_model_and_export_only s5) as Hk.
        unfold final in Hk. by rewrite H6 in Hk.
      + by apply (ort_stages_restore_run W I s5 s6).
      + by apply (ort_stages_restore_run W I s5 s6).
    - eapply (maintains_run (λ s0, tmpdir s0 = Some tmp)); [| exact H6 | done].
      by apply maintains_optimize_quantize_reload. }
  clear H6. destruct Hc6 as [Hc6 Htmp6].
  apply run_bind_ok in H as ([] & s7 & H7 & H).
  unfold validate_provider in H7. ort_exec in H7.
  destruct (pretrained_model s6) as [m|] eqn:Hm; ort_exec in H7; [| done].
  destruct (providers m) as [|first rest] eqn:Hp; ort_exec in H7; [done |].
  destruct (decide (first = provider (config s6))) as [-> | Hne]; ort_exec in H7; [| done].
  injection H7 as <-.
  unfold tmpdir_cleanup in H. ort_exec in H. rewrite Htmp6 in H. ort_exec in H.
  destruct (fails W (trace s6) (EvTmpdirCleanup tmp)); ort_exec in H; [done |].
  injection H as <-. cbn. split; [done |].
  exists tmp, m, rest, (trace s6). by rewrite Hp, Hc6.
Qed.

End ORT_init.

Lemma ort_init_returns_with_a_validated_model_witness :
  let W := Scenario.ort_world in
  let I := Scenario.ort_imports in
  let s := Scenario.ort_created Scenario.ort_config in
  let s' := final (ORT.__init__ W I) s in
  ORT.config s' = Scenario.ort_config
  ∧ ∃ tr, ORT.trace s' = tr ++ [ORT.EvTmpdirCleanup "/tmp/tmpdir"].
Proof.
  cbv zeta.
  destruct (ort_init_returns_with_a_validated_model Scenario.ort_world Scenario.ort_imports
              (Scenario.ort_created Scenario.ort_config)
              (final (ORT.__init__ Scenario.ort_world Scenario.ort_imports)
                 (Scenario.ort_created Scenario.ort_config)))
    as (Hc & tmp & m & rest & tr & Htmp & _ & _ & Htr); [vm_compute; reflexivity |].
  split; [exact Hc |].
  assert (tmp = "/tmp/tmpdir") as ->.
  { vm_compute in Htmp. by injection Htmp as <-. }
  by exists tr.
Defined.

Section OV_init.
Import OV.
Variable W : World.
Variable I : Imports.

Lemma ov_config_eq_from_parts (c1 c2 : Config) :
  set_model "" (set_export false c1) = set_model "" (set_export false c2) →
  model c1 = model c2 → export c1 = export c2 → c1 = c2.
Proof. destruct c1, c2. cbn. intros [= -> -> -> -> -> -> -> -> -> -> -> -> ->] -> ->. done. Qed.

Lemma holds_ovmodel_log (ev : Event) (s : State) :
  Stage.holds_ovmodel W s → Stage.holds_ovmodel W (log ev s).
Proof.
  intros (loaded & cls & args & Hm & Hpre). exists loaded, cls, args.
  split; [done |]. cbn. by apply prefix_app_r.
Qed.

Lemma holds_ovmodel_set_config (c : Config) (s : State) :
  Stage.holds_ovmodel W s → Stage.holds_ovmodel W (set_config c s).
Proof. done. Qed.

(** Lines 119-127, when they return. *)
Lemma ov_load_ovmodel_from_pretrained_ok (s s' : State) :
  load_ovmodel_from_pretrained W I s = (Ok tt, s') →
  Stage.holds_ovmodel W s' ∧ config s' = config s ∧ tmpdir s' = tmpdir s.
Proof.
  unfold load_ovmodel_from_pretrained. ov_exec.
  destruct (ovmodel_class s) as [cls|]; ov_exec; [| done].
  destruct (fails W (trace s) _); ov_exec; [done |].
  intros [= <-]. split; [| done]. by eexists _, _, _.
Qed.

(** Lines 107-117, when they return. *)
Lemma ov_load_ovmodel_with_no_weights_ok (s s' : State) :
  load_ovmodel_with_no_weights W I s = (Ok tt, s') →
  Stage.holds_ovmodel W s' ∧ config s' = config s ∧ tmpdir s' = tmpdir s.
Proof.
  intros Hrun. unfold load_ovmodel_with_no_weights in Hrun.
  apply run_bind_ok in Hrun as ([] & s0 & Hcreate & Hrun).
  assert (Hc0 : config s0 = config s ∧ tmpdir s0 = tmpdir s).
  { eapply (maintains_run (λ s1, config s1 = config s ∧ tmpdir s1 = tmpdir s));
      [| exact Hcreate | done].
    by apply ov_maintains_create_no_weights_model. }
  clear Hcreate. destruct Hc0 as [Hc0 Htmp0].
  match type of Hrun with with_random_init_weights W ?body ?s0 = _ =>
    pose proof (ov_with_random_init_weights_ok W body s0) as Hbody;
    unfold result, final in Hbody; rewrite Hrun in Hbody; cbn in Hbody;
    destruct Hbody as (s2 & Hbody & Hfin); [done |]; subst s'
  end.
  apply run_bind_ok in Hbody as (c & s3 & Hg & Hbody). exec in Hg. injection Hg as <- <-.
  apply run_bind_ok in Hbody as (dir & s3 & Hd & Hbody).
  rewrite ov_run_attr in Hd. cbn in Hd.
  destruct (no_weights_model s0); [| done]. injection Hd as <- <-.
  ov_exec in Hbody.
  match type of Hbody with context [load_ovmodel_from_pretrained W I ?s4] =>
    pose proof (ov_load_ovmodel_from_pretrained_ok s4) as Hload;
    destruct (load_ovmodel_from_pretrained W I s4) as [[[]|ex] s5]; [| done];
    destruct (Hload s5 eq_refl) as (Hj & Hc5 & Htmp5); clear Hload
  end.
  ov_exec in Hbody. injection Hbody as <-. cbn in *. split_and!.
  - by apply holds_ovmodel_log, holds_ovmodel_set_config.
  - rewrite Hc5, <- Hc0. by destruct (config s0).
  - by rewrite Htmp5.
Qed.

(** X22. Lines 33-68. When [__init__] returns: the configuration is the one
    the base class's initializer left, with the thread count written into
    [openvino_config] if there is one; the model the backend holds was
    loaded by the OVModel class, whichever way the constructor took; and
    the last call was the cleanup of the workspace the backend still
    names. *)
Theorem ov_init_returns_with_an_ovmodel (s s' : State) :
  __init__ W I s = (Ok tt, s') →
  let s1 := final (Backend_init I) s in
  config s' =
    match inter_op_num_threads (config s1) with
    | Some n =>
        set_openvino_config
          (<[inference_num_threads I := PInt n]> (openvino_config (config s1))) (config s1)
    | None => config s1
    end
  ∧ Stage.holds_ovmodel W s'
  ∧ ∃ tmp tr, tmpdir s' = Some tmp ∧ trace s' = tr ++ [EvTmpdirCleanup tmp].
Proof.
  intros H s1. unfold __init__ in H.
  apply run_bind_ok in H as ([] & s1' & H1 & H).
  assert (s1' = s1) as -> by (subst s1; unfold final; by rewrite H1). clear H1.
  apply run_bind_ok in H as ([] & s2 & H2 & H).
  apply (maintains_run (λ s0, config s0 = config s1)) in H2;
    [| by apply ov_maintains_validate_task | done].
  apply run_bind_ok in H as ([] & s3 & H3 & H).
  assert (Hc3 : config s3 =
                match inter_op_num_threads (config s1) with
                | Some n =>
                    set_openvino_config
                      (<[inference_num_threads I := PInt n]> (openvino_config (config s1)))
                      (config s1)
                | None => config s1
                end).
  { unfold set_inter_op_num_threads in H3. ov_exec in H3. rewrite H2 in H3.
    destruct (inter_op_num_threads (config s1)); ov_exec in H3; injection H3 as <-;
      cbn; by rewrite ?H2. }
  clear H2 H3. rewrite <- Hc3. clear Hc3.
  apply run_bind_ok in H as ([] & s4 & H4 & H).
  assert (Hc4 : config s4 = config s3).
  { eapply (maintains_run (λ s0, config s0 = config s3)); [| exact H4 | done].
    by apply ov_maintains_create_tmpdir. }
  assert (Htmp4 : is_Some (tmpdir s4)).
  { unfold create_tmpdir in H4. ov_exec in H4.
    destruct (fails W (trace s3) EvTemporaryDirectory); ov_exec in H4; [done |].
    injection H4 as <-. by eexists. }
  destruct Htmp4 as [tmp Htmp4]. clear H4. rewrite <- Hc4. clear Hc4.
  apply run_bind_ok in H as (c & s4' & Hg & H). exec in Hg. injection Hg as <- <-.
  apply run_bind_ok in H as ([] & s5 & H5 & H).
  assert (H5' : Stage.holds_ovmodel W s5 ∧ config s5 = config s4 ∧ tmpdir s5 = tmpdir s4).
  { destruct (quantization (config s4)); [| destruct (no_weights (config s4))].
    - destruct (ov_quantize_and_reload_ok W I s4 s5 H5)
        as (tmp' & cls & tr & _ & _ & Htr & Hm & Hc).
      split_and!; [| done |].
      + eexists tr, cls, _. split; [exact Hm |]. by rewrite Htr.
      + eapply (maintains_run (λ s0, tmpdir s0 = tmpdir s4)); [| exact H5 | done].
        by apply ov_maintains_quantize_and_reload.
    - by apply ov_load_ovmodel_with_no_weights_ok.
    - by apply ov_load_ovmodel_from_pretrained_ok. }
  clear H5. destruct H5' as (Hj & Hc5 & Htmp5).
  unfold tmpdir_cleanup in H. ov_exec in H. rewrite Htmp5, Htmp4 in H. ov_exec in H.
  destruct (fails W (trace s5) (EvTmpdirCleanup tmp)); ov_exec in H; [done |].
  injection H as <-. cbn. split_and!.
  - done.
  - by apply holds_ovmodel_log.
  - exists tmp, (trace s5). split; [congruence | done].
Qed.

End OV_init.

Lemma ov_init_returns_with_an_ovmodel_witness :
  let W := Scenario.ov_world in
  let I := Scenario.ov_imports in
  let s := Scenario.ov_created Scenario.ov_config in
  let s' := final (OV.__init__ W I) s in
  OV.config s' =
    OV.set_openvino_config {["INFERENCE_NUM_THREADS" := PInt 4]} Scenario.ov_config
  ∧ Stage.holds_ovmodel W s'
  ∧ ∃ tr, OV.trace s' = tr ++ [OV.EvTmpdirCleanup "/tmp/tmpdir"].
Proof.
  cbv zeta.
  destruct (ov_init_returns_with_an_ovmodel Scenario.ov_world Scenario.ov_imports
              (Scenario.ov_created Scenario.ov_config)
              (final (OV.__init__ Scenario.ov_world Scenario.ov_imports)
                 (Scenario.ov_created Scenario.ov_config)))
    as (Hc & Hj & tmp & tr & Htmp & Htr); [vm_compute; reflexivity |].
  split_and!; [exact Hc | exact Hj |].
  assert (tmp = "/tmp/tmpdir") as ->.
  { vm_compute in Htmp. by injection Htmp as <-. }
  by exists tr.
Defined.

(** ** Locals that are read are bound *)

Section Keeps.
Import Hoare.
Context {S : Type} (P : S → Prop) (E : Exn → Prop).

Lemma keeps_ret {A} (a : A) (R : A → Prop) : R a → keeps P E (mret a) R.
Proof. by intros Ha s Hs. Qed.

Lemma keeps_raise {A} (e : Exn) (R : A → Prop) : E e → keeps P E (raise e) R.
Proof. by intros He s Hs. Qed.

Lemma keeps_bind {A B} (m : M S A) (k : A → M S B) (R : A → Prop) (R' : B → Prop) :
  keeps P E m R → (∀ a, R a → keeps P E (k a) R') → keeps P E (m ≫= k) R'.
Proof.
  intros Hm Hk s Hs. specialize (Hm s Hs). rewrite run_bind.
  destruct (m s) as [[a|e] s1]; [| done]. destruct Hm as [Hs1 Ha]. by apply Hk.
Qed.

Lemma keeps_weaken {A} (m : M S A) (R R' : A → Prop) :
  (∀ a, R a → R' a) → keeps P E m R → keeps P E m R'.
Proof.
  intros HR Hm s Hs. specialize (Hm s Hs). destruct (m s) as [[a|e] s1]; [| done].
  destruct Hm. split; [done | by apply HR].
Qed.

Lemma keeps_gets {A} (f : S → A) : keeps P E (gets f) (λ a, ∃ s, P s ∧ a = f s).
Proof. intros s Hs. split; [done | by exists s]. Qed.

Lemma keeps_modify (f : S → S) :
  (∀ s, P s → P (f s)) → keeps P E (modify f) (λ _, True).
Proof. intros Hf s Hs. split; [by apply Hf | done]. Qed.

Lemma keeps_deref {A} (ex : Exn) (o : option A) :
  (o = None → E ex) → keeps P E (deref ex o) (λ a, o = Some a).
Proof. intros He s Hs. destruct o; cbn; [done | by apply He]. Qed.

Lemma keeps_when (c : bool) (body : M S unit) :
  (c = true → keeps P E body (λ _, True)) → keeps P E (when c body) (λ _, True).
Proof. destruct c; [by intros H; apply H | intros _; by apply keeps_ret]. Qed.

Lemma keeps_for_each {A} (xs : list A) (body : A → M S unit) :
  (∀ x, keeps P E (body x) (λ _, True)) → keeps P E (for_each xs body) (λ _, True).
Proof.
  intros Hbody. induction xs as [|x xs IH]; [by apply keeps_ret |].
  cbn [for_each]. eapply keeps_bind; [apply Hbody | by intros _ _].
Qed.

Lemma keeps_result {A} (m : M S A) (R : A → Prop) (s : S) (e : Exn) :
  keeps P E m R → P s → result m s = Raise e → E e.
Proof.
  intros Hm Hs. specialize (Hm s Hs). unfold result.
  destruct (m s) as [[a|e'] s1]; [done |]. by intros [= <-].
Qed.

End Keeps.

(** One step along the structure of a program, for the steps that need no
    fact about a procedure. *)
Ltac keep_step :=
  lazymatch goal with
  | |- Hoare.keeps _ _ (mret _) _ => apply keeps_ret; try done
  | |- Hoare.keeps _ _ (raise _) _ => apply keeps_raise; try done
  | |- Hoare.keeps _ _ (gets _ ≫= _) _ =>
      let H := fresh "Hstate" in
      eapply keeps_bind; [apply keeps_gets | intros ? (? & H & ->); cbv beta in H]
  | |- Hoare.keeps _ _ (modify _ ≫= _) _ =>
      eapply keeps_bind; [apply keeps_modify; by intros | intros _ _]
  | |- Hoare.keeps _ _ (modify _) _ => apply keeps_modify; by intros
  | |- Hoare.keeps _ _ (when _ _) _ => apply keeps_when; intros ?
  | |- Hoare.keeps _ _ (for_each _ _) _ => apply keeps_for_each; intros ?
  end.

Section ORT_bound.
Import ORT Hoare.
Variable W : World.
Variable I : Imports.
Hypothesis Hw : ∀ tr ev e, fails W tr ev = Some e → bound e.
Variable k : Config.

(** The configuration is [k] up to [model] and [export]: the flags and
    presets are the ones of [k]. *)
#[local] Abbreviation flags := (λ s : State, set_model "" (set_export false (config s)) = k).

Lemma b_call (ev : Event) : keeps flags bound (call W ev) (λ _, True).
Proof.
  intros s Hs. rewrite run_call. destruct (fails W (trace s) ev) eqn:Hf; [| done].
  by apply (Hw _ _ _ Hf).
Qed.

Lemma b_attr {A} (name : string) (f : State → option A) :
  keeps flags bound (attr name f) (λ _, True).
Proof. intros s Hs. rewrite run_attr. by destruct (f s). Qed.

Lemma b_assign_model (v : string) : keeps flags bound (assign_model v) (λ _, True).
Proof. by intros s Hs. Qed.

Lemma b_assign_export (v : bool) : keeps flags bound (assign_export v) (λ _, True).
Proof. by intros s Hs. Qed.

(** What the steps below are made of. *)
Ltac keep :=
  repeat first
    [ keep_step
    | lazymatch goal with
      | |- keeps _ _ (call W _ ≫= _) _ => eapply keeps_bind; [apply b_call | intros _ _]
      | |- keeps _ _ (attr _ _ ≫= _) _ => eapply keeps_bind; [apply b_attr | intros ? _]
      | |- keeps _ _ (assign_model _ ≫= _) _ =>
          eapply keeps_bind; [apply b_assign_model | intros _ _]
      | |- keeps _ _ (assign_export _ ≫= _) _ =>
          eapply keeps_bind; [apply b_assign_export | intros _ _]
      | |- keeps _ _ (call W _) _ => apply b_call
      | |- keeps _ _ (attr _ _) _ => apply b_attr
      | |- keeps _ _ (assign_model _) _ => apply b_assign_model
      | |- keeps _ _ (assign_export _) _ => apply b_assign_export
      end ].

Lemma b_onnx_files_names : keeps flags bound (onnx_files_names W I) (λ _, True).
Proof.
  unfold onnx_files_names. keep.
  destruct (listdir W _ _); [destruct (use_merged _) |]; keep.
Qed.

Lemma b_inputs_names : keeps flags bound inputs_names (λ _, True).
Proof.
  unfold inputs_names. eapply keeps_bind; [apply b_attr | intros m _].
  destruct (inputs_names_attr m); [| destruct (input_names_attr m)]; keep.
Qed.

Lemma b_save_preprocessors (dir : string) :
  keeps flags bound (save_preprocessors W dir) (λ _, True).
Proof.
  unfold save_preprocessors. keep.
  eapply keeps_bind; [keep | intros _ _]. keep.
Qed.

(** Lines 174-202: [optimization_config] is bound when the stage runs. *)
Lemma b_optimize_onnx_files :
  is_optimized k = true → keeps flags bound (optimize_onnx_files W I) (λ _, True).
Proof.
  intros Hopt. unfold optimize_onnx_files. keep.
  eapply (keeps_bind _ _ _ _ (λ o, o ≠ None)).
  { match goal with H : set_model "" (set_export false (config ?s0)) = k |- _ =>
      assert (Hflag : is_optimized (config s0) = true) by (rewrite <- H in Hopt; exact Hopt);
      unfold is_optimized in Hflag; destruct (auto_optimization (config s0));
      [| rewrite bool_decide_eq_false_2 in Hflag by (by intros ?); cbn in Hflag;
         rewrite Hflag]; keep
    end. }
  intros o Ho.
  eapply keeps_bind; [apply b_onnx_files_names | intros files _]. keep.
  eapply keeps_bind; [apply keeps_deref; by intros -> | intros cfg _]. keep.
  apply b_save_preprocessors.
Qed.

(** Lines 214-221. *)
Lemma b_process_quantization_config :
  is_quantized k = true →
  keeps flags bound (process_quantization_config W I) (λ o, o ≠ None).
Proof.
  intros Hq. unfold process_quantization_config. keep.
  match goal with H : set_model "" (set_export false (config ?s0)) = k |- _ =>
    assert (Hflag : is_quantized (config s0) = true) by (rewrite <- H in Hq; exact Hq);
    unfold is_quantized in Hflag; destruct (auto_quantization (config s0));
    [| rewrite bool_decide_eq_false_2 in Hflag by (by intros ?); cbn in Hflag;
       rewrite Hflag]; keep
  end.
Qed.

(** Lines 223-246. *)
Lemma b_process_calibration :
  keeps flags bound (process_calibration W I)
    (λ r, is_calibrated k = true → r.1 ≠ None ∧ r.2 ≠ None).
Proof.
  unfold process_calibration. keep.
  match goal with H : set_model "" (set_export false (config ?s0)) = k |- _ =>
    assert (Hflag : is_calibrated (config s0) = is_calibrated k) by (by rewrite <- H);
    destruct (is_calibrated (config s0)) eqn:Hcal
  end; [| keep; by rewrite <- Hflag].
  keep. eapply keeps_bind; [apply b_inputs_names | intros names _].
  eapply (keeps_bind _ _ _ _ (λ o, o ≠ None)).
  { unfold is_calibrated in Hcal.
    match type of Hcal with context [auto_calibration ?c] =>
      destruct (auto_calibration c);
      [| rewrite bool_decide_eq_false_2 in Hcal by (by intros ?); cbn in Hcal;
         rewrite Hcal]; keep
    end. }
  intros o Ho. by apply keeps_ret.
Qed.

(** Lines 249-276: the three locals are bound where the loop reads them. *)
Lemma b_quantize_onnx_file qc ds cc (f : string) :
  qc ≠ None → (is_calibrated k = true → ds ≠ None ∧ cc ≠ None) →
  keeps flags bound (quantize_onnx_file W qc ds cc f) (λ _, True).
Proof.
  intros Hqc Hcal. unfold quantize_onnx_file. keep.
  eapply (keeps_bind _ _ _ _ (λ _, True)).
  { match goal with H : set_model "" (set_export false (config ?s0)) = k |- _ =>
      assert (Hflag : is_calibrated (config s0) = is_calibrated k) by (by rewrite <- H);
      destruct (is_calibrated (config s0))
    end; [| by apply keeps_ret].
    destruct Hcal as [Hds Hcc]; [done |].
    eapply keeps_bind; [apply keeps_deref; by intros -> | intros d _].
    eapply keeps_bind; [apply keeps_deref; by intros -> | intros c _].
    eapply keeps_bind; [apply keeps_deref; by intros -> | intros q _].
    keep. }
  intros r _. keep.
  eapply keeps_bind; [apply keeps_deref; by intros -> | intros q _]. keep.
Qed.

(** Lines 204-280. *)
Lemma b_quantize_onnx_files :
  is_quantized k = true → keeps flags bound (quantize_onnx_files W I) (λ _, True).
Proof.
  intros Hq. unfold quantize_onnx_files. keep.
  eapply (keeps_bind _ _ _ _ (λ _, True)).
  { match goal with |- context [is_calibrated ?c] => destruct (is_calibrated c) end;
      [| by apply keeps_ret].
    eapply keeps_bind; [apply b_onnx_files_names | intros files _].
    destruct (bool_decide _); keep. }
  intros _ _.
  eapply keeps_bind; [by apply b_process_quantization_config | intros qc Hqc].
  eapply keeps_bind; [apply b_process_calibration | intros [ds cc] Hcal].
  eapply keeps_bind; [apply b_onnx_files_names | intros files _].
  eapply keeps_bind; [keep; by apply b_quantize_onnx_file | intros _ _]. keep.
  apply b_save_preprocessors.
Qed.

Lemma b_load_ortmodel_from_pretrained :
  keeps flags bound (load_ortmodel_from_pretrained W I) (λ _, True).
Proof. unfold load_ortmodel_from_pretrained. keep. Qed.

(** Lines 57-74: [original_model] and [original_export] are bound where
    line 74 reads them. *)
Lemma b_optimize_quantize_reload :
  keeps flags bound (optimize_quantize_reload W I) (λ _, True).
Proof.
  unfold optimize_quantize_reload. keep.
  match goal with H : set_model "" (set_export false (config ?s0)) = k |- _ =>
    assert (Hfo : is_optimized (config s0) = is_optimized k) by (by rewrite <- H);
    assert (Hfq : is_quantized (config s0) = is_quantized k) by (by rewrite <- H);
    rewrite Hfo, Hfq; clear Hfo Hfq
  end.
  eapply (keeps_bind _ _ _ _ (λ o, is_optimized k || is_quantized k = true → o ≠ None)).
  { destruct (is_optimized k || is_quantized k); keep. }
  intros original_model Horig. keep.
  match goal with H : set_model "" (set_export false (config ?s0)) = k |- _ =>
    assert (Hfo : is_optimized (config s0) = is_optimized k) by (by rewrite <- H);
    rewrite Hfo; clear Hfo
  end.
  eapply keeps_bind.
  { keep. eapply keeps_bind; [by apply b_optimize_onnx_files | intros _ _]. keep. }
  intros _ _. keep.
  match goal with H : set_model "" (set_export false (config ?s0)) = k |- _ =>
    assert (Hfq : is_quantized (config s0) = is_quantized k) by (by rewrite <- H);
    rewrite Hfq; clear Hfq
  end.
  eapply keeps_bind.
  { keep. eapply keeps_bind; [by apply b_quantize_onnx_files | intros _ _]. keep. }
  intros _ _. keep.
  eapply keeps_bind; [apply b_load_ortmodel_from_pretrained | intros _ _].
  eapply keeps_bind; [apply keeps_deref; intros -> | intros m _]; [| keep].
  destruct Horig; [| done].
  match goal with
  | Hf : is_optimized (config ?s0) || is_quantized (config ?s0) = true,
    Hs : set_model "" (set_export false (config ?s0)) = k |- _ =>
      rewrite <- Hs; exact Hf
  end.
Qed.

Lemma b_with_random_init_weights (body : M State unit) :
  keeps flags bound body (λ _, True) →
  keeps flags bound (with_random_init_weights W body) (λ _, True).
Proof.
  intros Hbody s Hs. unfold with_random_init_weights. rewrite run_call.
  destruct (fails W (trace s) EvRandomInitEnter) eqn:Hf; [by apply (Hw _ _ _ Hf) |].
  specialize (Hbody (log EvRandomInitEnter s) Hs).
  destruct (body (log EvRandomInitEnter s)) as [[[]|ex] s2]; rewrite run_call;
    destruct (fails W (trace s2) EvRandomInitExit) eqn:Hf2;
    try (by apply (Hw _ _ _ Hf2)); [by destruct Hbody | done].
Qed.

Lemma b_create_no_weights_model :
  keeps flags bound (create_no_weights_model W) (λ _, True).
Proof.
  unfold create_no_weights_model. keep.
  match goal with |- context [pretrained_config ?s0] => destruct (pretrained_config s0) end;
    keep.
Qed.

Lemma b_load_ortmodel_with_no_weights :
  keeps flags bound (load_ortmodel_with_no_weights W I) (λ _, True).
Proof.
  unfold load_ortmodel_with_no_weights.
  eapply keeps_bind; [apply b_create_no_weights_model | intros _ _].
  apply b_with_random_init_weights. keep.
  eapply keeps_bind; [apply b_load_ortmodel_from_pretrained | intros _ _]. keep.
Qed.

Lemma b_validate_task : keeps flags bound (validate_task W I) (λ _, True).
Proof.
  unfold validate_task. keep.
  destruct (TASKS_TO_ORTSD I !! _); [| destruct (TASKS_TO_ORTMODELS I !! _)]; keep.
Qed.

Lemma b_validate_provider : keeps flags bound validate_provider (λ _, True).
Proof.
  unfold validate_provider. eapply keeps_bind; [apply b_attr | intros m _]. keep.
  destruct (providers m); [| destruct (decide _)]; keep.
Qed.

Lemma b_process_session_options :
  keeps flags bound (process_session_options W) (λ _, True).
Proof.
  unfold process_session_options. keep.
  match goal with kv : string * pyval |- _ => destruct kv end. keep.
Qed.

Lemma b_create_tmpdir : keeps flags bound (create_tmpdir W) (λ _, True).
Proof. unfold create_tmpdir. keep. Qed.

Lemma b_tmpdir_cleanup : keeps flags bound (tmpdir_cleanup W) (λ _, True).
Proof. unfold tmpdir_cleanup. keep. Qed.

(** Lines 39-77. *)
Lemma b_init_tail :
  keeps flags bound
    (validate_task W I ;;
     process_session_options W ;;
     create_tmpdir W ;;
     c ← gets config ;
     (if no_weights c then load_ortmodel_with_no_weights W I
      else load_ortmodel_from_pretrained W I) ;;
     optimize_quantize_reload W I ;;
     validate_provider ;;
     tmpdir_cleanup W) (λ _, True).
Proof.
  eapply keeps_bind; [apply b_validate_task | intros _ _].
  eapply keeps_bind; [apply b_process_session_options | intros _ _].
  eapply keeps_bind; [apply b_create_tmpdir | intros _ _]. keep.
  eapply keeps_bind.
  { match goal with |- context [no_weights ?c] => destruct (no_weights c) end;
      [apply b_load_ortmodel_with_no_weights | apply b_load_ortmodel_from_pretrained]. }
  intros _ _.
  eapply keeps_bind; [apply b_optimize_quantize_reload | intros _ _].
  eapply keeps_bind; [apply b_validate_provider | intros _ _].
  apply b_tmpdir_cleanup.
Qed.

End ORT_bound.

(** X23. Lines 37-77. Whatever the configuration and whatever the libraries do,
    [__init__] reads no local variable before it is bound: the branches that
    bind [original_model], [original_export], [optimization_config],
    [quantization_config], [calibration_dataset] and [calibration_config]
    are the branches that read them. An [UnboundLocalError] can only come out
    of a call into a library or out of the base class. *)
Theorem ort_init_reads_no_unbound_local
    (W : ORT.World) (I : ORT.Imports) (s : ORT.State) (x : string) :
  (∀ tr ev y, ORT.fails W tr ev ≠ Some (UnboundLocalError y)) →
  (∀ s0 y, result (ORT.Backend_init I) s0 ≠ Raise (UnboundLocalError y)) →
  result (ORT.__init__ W I) s ≠ Raise (UnboundLocalError x).
Proof.
  intros Hw Hbase. unfold result, ORT.__init__. rewrite run_bind.
  specialize (Hbase s). unfold result in Hbase.
  destruct (ORT.Backend_init I s) as [[[]|e] s1]; [| apply Hbase].
  intros Hraise.
  assert (Hw' : ∀ tr ev e, ORT.fails W tr ev = Some e → Hoare.bound e).
  { intros tr ev e Hf y ->. by apply (Hw tr ev y). }
  pose proof (b_init_tail W I Hw'
                (ORT.set_model "" (ORT.set_export false (ORT.config s1)))) as Htail.
  by apply (keeps_result _ _ _ _ s1 _ Htail eq_refl Hraise x).
Qed.

Lemma ort_init_reads_no_unbound_local_witness :
  result (ORT.__init__ Scenario.ort_two_graphs Scenario.ort_imports)
    (Scenario.ort_created Scenario.ort_config_presets)
  ≠ Raise (UnboundLocalError "calibration_config").
Proof.
  apply (ort_init_reads_no_unbound_local Scenario.ort_two_graphs Scenario.ort_imports
           (Scenario.ort_created Scenario.ort_config_presets) "calibration_config").
  - intros tr ev y. discriminate.
  - intros s0 y. discriminate.
Defined.
